(** * HyperLoop: run orchestrator, log extraction and leaderboard

    A shallow embedding of the Python sources

      - [HyperLoop/scripts/DataHandling.py]  (class [DataHandling])
      - [HyperLoop/scripts/HyperLoop.py]     (class [HyperLoop])
      - [HyperLoop_Suite.py]                 ([cleanup_old_logs])
      - [HyperLoop/scripts/DisplayData.py]   ([progress_bar])

    Conventions of the embedding.

      - A Python call either returns or raises: [outcome A].  An
        exception is its class and the text [str(e)] gives.
      - Python [str] is [string]; the texts handled are ASCII, the one
        non-ASCII glyph of the optimizer table (the vertical bar) is its
        UTF-8 byte sequence.  The classes [\d] and [\s] of [re] and the
        digits of [int] and [float] are the ASCII ones.
      - Python [int] is [Z]; [int] of a text refuses more than 4300
        digits.  Python [float] is the rational it denotes ([Q]);
        rounding to binary64 and overflow are not part of the model.
      - A dict with a fixed set of keys is a record; a key that may be
        missing is an [option] field.
      - What the file system and the clock do is a parameter of each
        call: whether a file is there, whether reading, decoding or
        writing it raises, what time is read. *)

From Stdlib Require Import List String Ascii Bool Arith ZArith QArith Lia.
From Stdlib Require Import DecimalString.
From Stdlib Require Import Permutation Sorting.Sorted.
Import ListNotations.

Local Open Scope string_scope.
Local Open Scope list_scope.

(* ================================================================== *)
(** * Python values and control *)
(* ================================================================== *)

Module Py.

(** The exception classes the modules can meet, each with the text that
    [str(e)] gives.  [OSError] stands for the class and its subclasses
    ([FileNotFoundError], [PermissionError], [FileExistsError], ...) and
    carries the name of the class that was raised. *)
Inductive exn : Type :=
| RuntimeError (msg : string)
| ValueError (msg : string)
| TypeError (msg : string)
| KeyError (msg : string)
| AttributeError (msg : string)
| UnicodeDecodeError (msg : string)
| JSONDecodeError (msg : string)
| OSError (name msg : string).

(** [isinstance(e, RuntimeError)], the test of [except RuntimeError]. *)
Definition is_RuntimeError (e : exn) : bool :=
  match e with RuntimeError _ => true | _ => false end.

(** [isinstance(e, OSError)] and [isinstance(e, json.JSONDecodeError)],
    the tests of [except (OSError, json.JSONDecodeError)]. *)
Definition is_OSError (e : exn) : bool :=
  match e with OSError _ _ => true | _ => false end.

Definition is_JSONDecodeError (e : exn) : bool :=
  match e with JSONDecodeError _ => true | _ => false end.

(** [type(e).__name__] *)
Definition type_name (e : exn) : string :=
  match e with
  | RuntimeError _ => "RuntimeError"
  | ValueError _ => "ValueError"
  | TypeError _ => "TypeError"
  | KeyError _ => "KeyError"
  | AttributeError _ => "AttributeError"
  | UnicodeDecodeError _ => "UnicodeDecodeError"
  | JSONDecodeError _ => "JSONDecodeError"
  | OSError name _ => name
  end.

(** [str(e)] *)
Definition str (e : exn) : string :=
  match e with
  | RuntimeError msg | ValueError msg | TypeError msg | KeyError msg
  | AttributeError msg | UnicodeDecodeError msg | JSONDecodeError msg
  | OSError _ msg => msg
  end.

Inductive outcome (A : Type) : Type :=
| Return (a : A)
| Raise (e : exn).
Arguments Return {A} a.
Arguments Raise {A} e.

Definition bind {A B : Type} (m : outcome A) (k : A -> outcome B) : outcome B :=
  match m with
  | Return a => k a
  | Raise e => Raise e
  end.

(** The value stored under a key whose Python value is [None] or a number. *)
Inductive pyval : Type :=
| PyNone
| PyFloat (q : Q).

(** A [Path], by what [str(p)] and [p.name] give. *)
Record path : Type := mkPath {
  path_str : string;
  path_name : string
}.

End Py.
Export Py.

Notation "x <- m ;; k" := (Py.bind m (fun x => k))
  (at level 61, m at next level, right associativity).

(** [a < b] on floats. *)
Definition Qltb (a b : Q) : bool := negb (Qle_bool b a).

Definition option_eqb {A : Type} (eqb : A -> A -> bool) (a b : option A) : bool :=
  match a, b with
  | None, None => true
  | Some x, Some y => eqb x y
  | _, _ => false
  end.

Fixpoint list_eqb {A : Type} (eqb : A -> A -> bool) (a b : list A) : bool :=
  match a, b with
  | [], [] => true
  | x :: a', y :: b' => eqb x y && list_eqb eqb a' b'
  | _, _ => false
  end.

Definition pyval_eqb (a b : pyval) : bool :=
  match a, b with
  | PyNone, PyNone => true
  | PyFloat x, PyFloat y => Qeq_bool x y
  | _, _ => false
  end.

(* ================================================================== *)
(** * Data model (the dictionaries built by [DataHandling]) *)
(* ================================================================== *)

(** The dict filled by [parse_result_data] and completed by
    [parse_log_file]; every key is optional. *)
Record Metrics : Type := mkMetrics {
  total_trades : option Z;
  wins_draws_losses : option string;
  win_rate : option Q;
  avg_profit : option Q;
  median_profit : option Q;
  total_profit : option Q;
  profit_percent : option Q;
  avg_duration : option string;
  m_objective : option Q;
  max_drawdown : option string
}.

Definition empty_metrics : Metrics :=
  mkMetrics None None None None None None None None None None.

(** The dict returned by [parse_log_file].  [objective = None] is a dict
    without the key, [Some PyNone] a dict whose key holds [None].
    [params] keeps, per parameter group, the text collected between the
    braces; decoding it ([parse_parameters], built on [json.loads]) is
    total and not read by any property below, so it is left out. *)
Record RunResult : Type := mkRunResult {
  run : string;
  profit : Q;
  objective : option pyval;
  drawdown : option string;
  metrics : Metrics;
  params : list (string * string)
}.

(** The dict appended by [record_failure]. *)
Record FailureRecord : Type := mkFailureRecord {
  run_id : Z;
  timestamp : string;
  error : string;
  error_type : string
}.

(** [self.data] *)
Record LeaderBoardState : Type := mkState {
  top_results : list RunResult;
  failed_runs : list FailureRecord
}.

(** Python [==] on these dicts. *)
Definition Metrics_eqb (a b : Metrics) : bool :=
  option_eqb Z.eqb (total_trades a) (total_trades b)
  && option_eqb String.eqb (wins_draws_losses a) (wins_draws_losses b)
  && option_eqb Qeq_bool (win_rate a) (win_rate b)
  && option_eqb Qeq_bool (avg_profit a) (avg_profit b)
  && option_eqb Qeq_bool (median_profit a) (median_profit b)
  && option_eqb Qeq_bool (total_profit a) (total_profit b)
  && option_eqb Qeq_bool (profit_percent a) (profit_percent b)
  && option_eqb String.eqb (avg_duration a) (avg_duration b)
  && option_eqb Qeq_bool (m_objective a) (m_objective b)
  && option_eqb String.eqb (max_drawdown a) (max_drawdown b).

Definition RunResult_eqb (a b : RunResult) : bool :=
  String.eqb (run a) (run b)
  && Qeq_bool (profit a) (profit b)
  && option_eqb pyval_eqb (objective a) (objective b)
  && option_eqb String.eqb (drawdown a) (drawdown b)
  && Metrics_eqb (metrics a) (metrics b)
  && list_eqb (fun x y => String.eqb (fst x) (fst y) && String.eqb (snd x) (snd y))
       (params a) (params b).

(* ================================================================== *)
(** * LeaderBoard ([DataHandling]: load, admit, record failure) *)
(* ================================================================== *)

Module LeaderBoard.

(** What [x.get("objective", float("inf"))] evaluates to. *)
Inductive key : Type :=
| KNone
| KNum (q : Q)
| KInf.

Definition objective_or_inf (x : RunResult) : key :=
  match objective x with
  | None => KInf
  | Some PyNone => KNone
  | Some (PyFloat q) => KNum q
  end.

(** [type(k).__name__] *)
Definition key_type (k : key) : string :=
  match k with
  | KNone => "NoneType"
  | KNum _ | KInf => "float"
  end.

(** The [TypeError] of an ordering that neither operand supports. *)
Definition not_supported (op : string) (a b : key) : exn :=
  TypeError ("'" ++ op ++ "' not supported between instances of '"
             ++ key_type a ++ "' and '" ++ key_type b ++ "'").

(** [a < b] on such values: [None] is not ordered against anything. *)
Definition key_lt (a b : key) : outcome bool :=
  match a, b with
  | KNone, _ | _, KNone => Raise (not_supported "<" a b)
  | KNum x, KNum y => Return (Qltb x y)
  | KNum _, KInf => Return true
  | KInf, _ => Return false
  end.

(** [a > b] *)
Definition key_gt (a b : key) : outcome bool :=
  match a, b with
  | KNone, _ | _, KNone => Raise (not_supported ">" a b)
  | _, _ => key_lt b a
  end.

(** [max(items, key=...)]: the first item is the initial maximum and a
    later item replaces it only when its key is strictly greater. *)
Fixpoint max_loop (best : RunResult) (rest : list RunResult) : outcome RunResult :=
  match rest with
  | [] => Return best
  | x :: rest' =>
      gt <- key_gt (objective_or_inf x) (objective_or_inf best) ;;
      max_loop (if gt then x else best) rest'
  end.

Definition py_max (items : list RunResult) : outcome RunResult :=
  match items with
  | [] => Raise (ValueError "max() arg is an empty sequence")
  | x :: rest => max_loop x rest
  end.

(** [list.remove(x)]: drops the first item equal to [x]. *)
Fixpoint py_remove (x : RunResult) (l : list RunResult) : outcome (list RunResult) :=
  match l with
  | [] => Raise (ValueError "list.remove(x): x not in list")
  | y :: l' =>
      if RunResult_eqb y x then Return l'
      else (r <- py_remove x l' ;; Return (y :: r))
  end.

(** [list.sort(key=...)]: a stable sort on the keys, here by insertion;
    a comparison that raises aborts the sort.  Each comparison asks
    whether the entry being inserted is less than an entry placed
    before, as the insertions of [list.sort] do. *)
Fixpoint insert_by_key (x : RunResult) (sorted : list RunResult)
  : outcome (list RunResult) :=
  match sorted with
  | [] => Return [x]
  | y :: sorted' =>
      lt <- key_lt (objective_or_inf x) (objective_or_inf y) ;;
      if lt then Return (x :: y :: sorted')
      else (r <- insert_by_key x sorted' ;; Return (y :: r))
  end.

Fixpoint sort_loop (sorted pending : list RunResult) : outcome (list RunResult) :=
  match pending with
  | [] => Return sorted
  | x :: pending' =>
      sorted' <- insert_by_key x sorted ;;
      sort_loop sorted' pending'
  end.

Definition py_sort (l : list RunResult) : outcome (list RunResult) :=
  sort_loop [] l.

(** [DataHandling.update_top_results] *)
Definition update_top_results (data : LeaderBoardState) (new_result : RunResult)
    (top_n : Z) : outcome (list RunResult) :=
  let top_results := top_results data in
  updated <-
    (if (Z.of_nat (List.length top_results) <? top_n)%Z
     then Return (top_results ++ [new_result])
     else
       worst_result <- py_max top_results ;;
       better <- key_lt (objective_or_inf new_result) (objective_or_inf worst_result) ;;
       if better
       then (removed <- py_remove worst_result top_results ;;
             Return (removed ++ [new_result]))
       else Return top_results) ;;
  py_sort updated.

(** The persisted file, by what [self.results_file.exists()] and then
    [json.loads(self.results_file.read_text())] do with it: [exists]
    raises [e] (it lets through an [OSError] that does not say that the
    file or its folder is missing); or the file is there and [read_text]
    or [json.loads] raises [e]; or it is there and holds what
    [save_data] wrote, the JSON text of a state.  (A file holding JSON
    of another shape, which [load_data] would return as it is, has no
    place in a typed state and is left out.) *)
Inductive FileContent : Type :=
| NoAccess (e : exn)
| Unloadable (e : exn)
| Document (d : LeaderBoardState).

(** The object: [self.data] and the file at [self.results_file]
    ([None]: no such file). *)
Record DataHandling : Type := mkDataHandling {
  data : LeaderBoardState;
  results_file : option FileContent
}.

Definition fresh_state : LeaderBoardState := mkState [] [].

(** [DataHandling.clean_data_file]: the file left; [unlink_raises] tells
    whether [unlink] raises on the file that is there. *)
Definition clean_data_file (file : option FileContent) (unlink_raises : option exn)
  : outcome (option FileContent) :=
  match file with
  | Some (NoAccess e) => Raise e
  | Some _ =>
      match unlink_raises with
      | Some e => Raise e
      | None => Return None
      end
  | None => Return None
  end.

(** [DataHandling.clear_old_results], by what leaves it: listing the
    results folder or making it can raise; what removing its entries
    raises is caught.  It touches neither the leaderboard file nor
    [self.data]. *)
Definition clear_old_results (clear_raises : option exn) : outcome unit :=
  match clear_raises with
  | Some e => Raise e
  | None => Return tt
  end.

(** [DataHandling.load_data]: the test [exists] is outside the [try],
    and [except (OSError, json.JSONDecodeError)] lets everything else
    through (a [UnicodeDecodeError] of [read_text], for one). *)
Definition load_data (file : option FileContent) : outcome LeaderBoardState :=
  match file with
  | Some (NoAccess e) => Raise e
  | Some (Unloadable e) =>
      if is_OSError e || is_JSONDecodeError e then Return fresh_state else Raise e
  | Some (Document d) => Return d
  | None => Return fresh_state
  end.

(** [DataHandling.__init__] *)
Definition init (file : option FileContent) (unlink_raises clear_raises : option exn)
  : outcome DataHandling :=
  file' <- clean_data_file file unlink_raises ;;
  cleared <- clear_old_results clear_raises ;;
  data <- load_data file' ;;
  Return (mkDataHandling data file').

(** The object every call of the constructor that returns, returns. *)
Definition constructed : DataHandling := mkDataHandling fresh_state None.

(** [DataHandling.save_data]; [writable] tells whether opening the file
    for writing succeeds (an [OSError] is caught and only reported). *)
Definition save_data (writable : bool) (self : DataHandling) : DataHandling :=
  if writable
  then mkDataHandling (data self) (Some (Document (data self)))
  else self.

(** [DataHandling.add_result]: when [update_top_results] raises, the
    assignment to [self.data] does not happen and nothing is saved. *)
Definition add_result (writable : bool) (self : DataHandling) (result : RunResult)
    (top_n : Z) : DataHandling * outcome unit :=
  match update_top_results (data self) result top_n with
  | Return top =>
      (save_data writable
         (mkDataHandling (mkState top (failed_runs (data self))) (results_file self)),
       Return tt)
  | Raise e => (self, Raise e)
  end.

(** [DataHandling.record_failure]; [now] is [datetime.now().isoformat()]. *)
Definition record_failure (writable : bool) (now : string) (self : DataHandling)
    (run_id : Z) (error : exn) : DataHandling :=
  let failure_data := mkFailureRecord run_id now (Py.str error) (Py.type_name error) in
  save_data writable
    (mkDataHandling
       (mkState (top_results (data self)) (failed_runs (data self) ++ [failure_data]))
       (results_file self)).

(** [DataHandling.get_top_results] *)
Definition get_top_results (self : DataHandling) : list RunResult :=
  top_results (data self).

(** A run of admissions: each result goes through [add_result]; the
    first call that raises ends the run, with the state it left. *)
Fixpoint admit_all (writable : bool) (self : DataHandling) (results : list RunResult)
    (top_n : Z) : DataHandling * outcome unit :=
  match results with
  | [] => (self, Return tt)
  | r :: results' =>
      match add_result writable self r top_n with
      | (self', Return _) => admit_all writable self' results' top_n
      | (self', Raise e) => (self', Raise e)
      end
  end.

End LeaderBoard.

(* ================================================================== *)
(** * Text primitives ([str] methods, [int], [float]) *)
(* ================================================================== *)

Module Text.

(** [sub in s] *)
Fixpoint contains (sub s : string) : bool :=
  if String.prefix sub s then true
  else match s with
       | EmptyString => false
       | String _ s' => contains sub s'
       end.

(** [s.split(sep)] for a non-empty [sep]: [skip] counts the characters of
    a separator just met that are still to be passed over, [cur] is the
    piece being read. *)
Fixpoint split_loop (sep : string) (skip : nat) (cur s : string) : list string :=
  match s with
  | EmptyString => [cur]
  | String c s' =>
      match skip with
      | S k => split_loop sep k cur s'
      | O =>
          if String.prefix sep s
          then cur :: split_loop sep (String.length sep - 1)%nat "" s'
          else split_loop sep 0 (cur ++ String c "") s'
      end
  end.

Definition split (sep s : string) : list string := split_loop sep 0 "" s.

(** [str.isspace] on ASCII: tab to carriage return, the four separators
    FS GS RS US, and the space. *)
Definition is_space (c : ascii) : bool :=
  let n := nat_of_ascii c in
  (((9 <=? n) && (n <=? 13)) || ((28 <=? n) && (n <=? 32)))%nat.

Definition is_digit (c : ascii) : bool :=
  let n := nat_of_ascii c in ((48 <=? n) && (n <=? 57))%nat.

Fixpoint lstrip (s : string) : string :=
  match s with
  | EmptyString => EmptyString
  | String c s' => if is_space c then lstrip s' else s
  end.

Fixpoint rstrip (s : string) : string :=
  match s with
  | EmptyString => EmptyString
  | String c s' =>
      match rstrip s' with
      | EmptyString => if is_space c then EmptyString else String c EmptyString
      | r => String c r
      end
  end.

(** [s.strip()] *)
Definition strip (s : string) : string := rstrip (lstrip s).

(** Truth value of a string. *)
Definition truthy (s : string) : bool :=
  match s with EmptyString => false | _ => true end.

Definition digit_value (c : ascii) : Z := (Z.of_nat (nat_of_ascii c) - 48)%Z.

Fixpoint int_loop (acc : Z) (s : string) : option Z :=
  match s with
  | EmptyString => Some acc
  | String c s' =>
      if is_digit c then int_loop (10 * acc + digit_value c)%Z s' else None
  end.

(** [sys.get_int_max_str_digits()] *)
Definition int_max_str_digits : Z := 4300.

Definition invalid_literal (s : string) : exn :=
  ValueError ("invalid literal for int() with base 10: '" ++ s ++ "'").

Definition exceeds_the_limit (s : string) : exn :=
  ValueError
    ("Exceeds the limit (4300 digits) for integer string conversion: value has "
     ++ NilZero.string_of_int (Z.to_int (Z.of_nat (String.length s)))
     ++ " digits; use sys.set_int_max_str_digits() to increase the limit").

(** [int(s)] on the texts the patterns capture (runs of digits): a run
    of more than 4300 digits is refused. *)
Definition int (s : string) : outcome Z :=
  match s with
  | EmptyString => Raise (invalid_literal s)
  | _ => match int_loop 0%Z s with
         | Some z =>
             if (int_max_str_digits <? Z.of_nat (String.length s))%Z
             then Raise (exceeds_the_limit s)
             else Return z
         | None => Raise (invalid_literal s)
         end
  end.

(** Digits with at most one point among them; [num / scale] is the value
    read so far. *)
Fixpoint float_loop (seen_point seen_digit : bool) (num : Z) (scale : positive)
    (s : string) : option Q :=
  match s with
  | EmptyString => if seen_digit then Some (num # scale) else None
  | String c s' =>
      if is_digit c
      then float_loop seen_point true (10 * num + digit_value c)%Z
             (if seen_point then 10 * scale else scale)%positive s'
      else if Ascii.eqb c "."
           then if seen_point then None
                else float_loop true seen_digit num scale s'
           else None
  end.

(** [float(s)] on the texts the patterns capture (digits, points and
    minus signs): an optional leading minus, then digits with at most
    one point and at least one digit; anything else is a [ValueError]. *)
Definition not_a_float (s : string) : exn :=
  ValueError ("could not convert string to float: '" ++ s ++ "'").

Definition float (s : string) : outcome Q :=
  let unsigned (t : string) := float_loop false false 0%Z 1%positive t in
  match s with
  | String "-" s' =>
      match unsigned s' with
      | Some q => Return (- q)%Q
      | None => Raise (not_a_float s)
      end
  | _ =>
      match unsigned s with
      | Some q => Return q
      | None => Raise (not_a_float s)
      end
  end.

(** [str(n)] for an integer. *)
Definition str_of_int (n : Z) : string := NilZero.string_of_int (Z.to_int n).

(** [s[start:]] and [s[:stop]] *)
Definition slice_from (start : nat) (s : string) : string :=
  String.substring start (String.length s - start)%nat s.

Definition slice_to (stop : nat) (s : string) : string :=
  String.substring 0 stop s.

End Text.

(* ================================================================== *)
(** * The fragment of [re] the patterns are written in *)
(* ================================================================== *)

Module Regex.

(** Character sets: a literal character, [\d], [\s], and bracketed unions. *)
Inductive cset : Type :=
| Chr (c : ascii)
| Digit
| Space
| Union (a b : cset).

Fixpoint mem (c : ascii) (cs : cset) : bool :=
  match cs with
  | Chr c' => Ascii.eqb c c'
  | Digit => Text.is_digit c
  | Space => Text.is_space c
  | Union a b => mem c a || mem c b
  end.

Inductive quant : Type :=
| One
| Plus
| Star.

(** One element of a pattern: a set, its quantifier, and whether a pair
    of parentheses around it captures what it matched. *)
Record item : Type := mkItem {
  set : cset;
  repeat : quant;
  captures : bool
}.

Definition regex : Type := list item.

Definition record_group (captures : bool) (w : string) (groups : list string)
  : list string :=
  if captures then w :: groups else groups.

(** Match at the start of [s]; a quantified set takes as many characters
    as it can and gives them back one by one while the rest of the
    pattern fails (greedy, backtracking).  The result lists the groups. *)
Fixpoint match_here (re : regex) (s : string) : option (list string) :=
  match re with
  | [] => Some []
  | it :: re' =>
      let greedy :=
        fix greedy (s : string) : option (string * list string) :=
          match s with
          | String c s' =>
              if mem c (set it)
              then match greedy s' with
                   | Some (w, groups) => Some (String c w, groups)
                   | None => option_map (pair EmptyString) (match_here re' s)
                   end
              else option_map (pair EmptyString) (match_here re' s)
          | EmptyString => option_map (pair EmptyString) (match_here re' s)
          end in
      match repeat it with
      | One =>
          match s with
          | String c s' =>
              if mem c (set it)
              then option_map (record_group (captures it) (String c EmptyString))
                     (match_here re' s')
              else None
          | EmptyString => None
          end
      | Star =>
          option_map (fun r => record_group (captures it) (fst r) (snd r)) (greedy s)
      | Plus =>
          match s with
          | String c s' =>
              if mem c (set it)
              then option_map
                     (fun r => record_group (captures it) (String c (fst r)) (snd r))
                     (greedy s')
              else None
          | EmptyString => None
          end
      end
  end.

(** [re.search]: the match at the leftmost position that has one. *)
Fixpoint search (re : regex) (s : string) : option (list string) :=
  match match_here re s with
  | Some groups => Some groups
  | None =>
      match s with
      | String _ s' => search re s'
      | EmptyString => None
      end
  end.

(** [m.group(n)], groups counted from 1. *)
Definition group (n : nat) (groups : list string) : string :=
  nth (n - 1)%nat groups EmptyString.

(** Pattern syntax. *)
Fixpoint lit (s : string) : regex :=
  match s with
  | EmptyString => []
  | String c s' => mkItem (Chr c) One false :: lit s'
  end.

Definition plus (cs : cset) : regex := [mkItem cs Plus false].
Definition star (cs : cset) : regex := [mkItem cs Star false].
Definition capture_plus (cs : cset) : regex := [mkItem cs Plus true].

Definition digit_or_point : cset := Union Digit (Chr ".").
Definition minus_digit_or_point : cset := Union (Chr "-") (Union Digit (Chr ".")).
Definition digit_or_colon : cset := Union Digit (Chr ":").
Definition colon_or_space : cset := Union (Chr ":") Space.

End Regex.

(* ================================================================== *)
(** * LogExtractor ([DataHandling]: extract_data, parse_log_file) *)
(* ================================================================== *)

Module LogExtractor.

Import Text Regex.

(** Updates of the metrics dict, one per key. *)
Definition set_total_trades (v : Z) (m : Metrics) : Metrics :=
  mkMetrics (Some v) (wins_draws_losses m) (win_rate m) (avg_profit m)
    (median_profit m) (total_profit m) (profit_percent m) (avg_duration m)
    (m_objective m) (max_drawdown m).

Definition set_wins_draws_losses (v : string) (rate : Q) (m : Metrics) : Metrics :=
  mkMetrics (total_trades m) (Some v) (Some rate) (avg_profit m)
    (median_profit m) (total_profit m) (profit_percent m) (avg_duration m)
    (m_objective m) (max_drawdown m).

Definition set_avg_profit (v : Q) (m : Metrics) : Metrics :=
  mkMetrics (total_trades m) (wins_draws_losses m) (win_rate m) (Some v)
    (median_profit m) (total_profit m) (profit_percent m) (avg_duration m)
    (m_objective m) (max_drawdown m).

Definition set_median_profit (v : Q) (m : Metrics) : Metrics :=
  mkMetrics (total_trades m) (wins_draws_losses m) (win_rate m) (avg_profit m)
    (Some v) (total_profit m) (profit_percent m) (avg_duration m)
    (m_objective m) (max_drawdown m).

Definition set_total_profit (v : Q) (m : Metrics) : Metrics :=
  mkMetrics (total_trades m) (wins_draws_losses m) (win_rate m) (avg_profit m)
    (median_profit m) (Some v) (profit_percent m) (avg_duration m)
    (m_objective m) (max_drawdown m).

Definition set_profit_percent (v : Q) (m : Metrics) : Metrics :=
  mkMetrics (total_trades m) (wins_draws_losses m) (win_rate m) (avg_profit m)
    (median_profit m) (total_profit m) (Some v) (avg_duration m)
    (m_objective m) (max_drawdown m).

Definition set_avg_duration (v : string) (m : Metrics) : Metrics :=
  mkMetrics (total_trades m) (wins_draws_losses m) (win_rate m) (avg_profit m)
    (median_profit m) (total_profit m) (profit_percent m) (Some v)
    (m_objective m) (max_drawdown m).

Definition set_objective (v : Q) (m : Metrics) : Metrics :=
  mkMetrics (total_trades m) (wins_draws_losses m) (win_rate m) (avg_profit m)
    (median_profit m) (total_profit m) (profit_percent m) (avg_duration m)
    (Some v) (max_drawdown m).

Definition set_max_drawdown (v : string) (m : Metrics) : Metrics :=
  mkMetrics (total_trades m) (wins_draws_losses m) (win_rate m) (avg_profit m)
    (median_profit m) (total_profit m) (profit_percent m) (avg_duration m)
    (m_objective m) (Some v).

(** The patterns of [parse_result_data]. *)

(** [(\d+)\s+trades] *)
Definition trades_re : regex :=
  capture_plus Digit ++ plus Space ++ lit "trades".

(** [(\d+)/(\d+)/(\d+)\s+Wins/Draws/Losses] *)
Definition wdl_re : regex :=
  capture_plus Digit ++ lit "/" ++ capture_plus Digit ++ lit "/"
  ++ capture_plus Digit ++ plus Space ++ lit "Wins/Draws/Losses".

(** [Avg profit\s+([\d.]+)%] *)
Definition avg_profit_re : regex :=
  lit "Avg profit" ++ plus Space ++ capture_plus digit_or_point ++ lit "%".

(** [Median profit\s+([\d.]+)%] *)
Definition median_profit_re : regex :=
  lit "Median profit" ++ plus Space ++ capture_plus digit_or_point ++ lit "%".

(** [Total profit\s+([\d.]+)\s+USDT] *)
Definition total_profit_re : regex :=
  lit "Total profit" ++ plus Space ++ capture_plus digit_or_point
  ++ plus Space ++ lit "USDT".

(** [Total profit\s+[\d.]+\s+USDT\s+\(\s*([\d.]+)%\)] *)
Definition profit_percent_re : regex :=
  lit "Total profit" ++ plus Space ++ plus digit_or_point ++ plus Space
  ++ lit "USDT" ++ plus Space ++ lit "(" ++ star Space
  ++ capture_plus digit_or_point ++ lit "%)".

(** [Avg duration\s+([\d:]+)\s+min] *)
Definition avg_duration_re : regex :=
  lit "Avg duration" ++ plus Space ++ capture_plus digit_or_colon
  ++ plus Space ++ lit "min".

(** [Objective:\s+([-\d.]+)] *)
Definition objective_re : regex :=
  lit "Objective:" ++ plus Space ++ capture_plus minus_digit_or_point.

(** One block of [parse_result_data]: search the line for a pattern and,
    on a match, store the converted capture under the block's key. *)
Definition extract_field {A : Type} (pattern : regex)
    (convert : list string -> outcome A) (store : A -> Metrics -> Metrics)
    (best_result_line : string) (metrics : Metrics) : outcome Metrics :=
  match search pattern best_result_line with
  | Some found =>
      v <- convert found ;;
      Return (store v metrics)
  | None => Return metrics
  end.

(** The wins/draws/losses block: the three counts, their text and the
    win rate. *)
Definition wdl_of_match (wdl_match : list string) : outcome (string * Q) :=
  wins <- int (group 1 wdl_match) ;;
  draws <- int (group 2 wdl_match) ;;
  losses <- int (group 3 wdl_match) ;;
  let total := (wins + draws + losses)%Z in
  Return
    ((str_of_int wins ++ "/" ++ str_of_int draws ++ "/" ++ str_of_int losses)%string,
     (if (total >? 0)%Z then inject_Z wins / inject_Z total else 0)%Q).

(** [DataHandling.parse_result_data] *)
Definition parse_result_data (best_result_line : string) : outcome Metrics :=
  let metrics := empty_metrics in
  metrics <-
    extract_field trades_re (fun trades_match => int (group 1 trades_match))
      set_total_trades best_result_line metrics ;;
  metrics <-
    extract_field wdl_re wdl_of_match
      (fun v => set_wins_draws_losses (fst v) (snd v)) best_result_line metrics ;;
  metrics <-
    extract_field avg_profit_re (fun found => float (group 1 found))
      set_avg_profit best_result_line metrics ;;
  metrics <-
    extract_field median_profit_re (fun found => float (group 1 found))
      set_median_profit best_result_line metrics ;;
  metrics <-
    extract_field total_profit_re (fun found => float (group 1 found))
      set_total_profit best_result_line metrics ;;
  metrics <-
    extract_field profit_percent_re (fun found => float (group 1 found))
      set_profit_percent best_result_line metrics ;;
  metrics <-
    extract_field avg_duration_re (fun found => Return (group 1 found))
      set_avg_duration best_result_line metrics ;;
  extract_field objective_re (fun found => float (group 1 found))
    set_objective best_result_line metrics.

(** The newline and the vertical bar of the optimizer's table (U+2502,
    three bytes in UTF-8). *)
Definition newline : string := String "010" EmptyString.

Definition bar : string := String "226" (String "148" (String "130" EmptyString)).

Definition marker : string := "Best result:".

(** The first loop of [parse_log_file]: at the first line holding the
    marker, take the line two below if there is one, and stop. *)
Fixpoint find_best_result_line (lines : list string) (i : nat) (pending : list string)
  : option string :=
  match pending with
  | [] => None
  | line :: pending' =>
      if contains marker line
      then if (i + 2 <? List.length lines)%nat then nth_error lines (i + 2) else None
      else find_best_result_line lines (S i) pending'
  end.

(** [(\d+)/\d+:] *)
Definition epoch_re : regex :=
  capture_plus Digit ++ lit "/" ++ plus Digit ++ lit ":".

(** [Max drawdown\s*:\s*([\d.]+)\s+USDT\s*\(\s*([\d.]+)%\)] *)
Definition max_dd_re : regex :=
  lit "Max drawdown" ++ star Space ++ lit ":" ++ star Space
  ++ capture_plus digit_or_point ++ plus Space ++ lit "USDT" ++ star Space
  ++ lit "(" ++ star Space ++ capture_plus digit_or_point ++ lit "%)".

(** [Max drawdown\s*[:\s]+([\d.]+)] *)
Definition max_dd_re2 : regex :=
  lit "Max drawdown" ++ star Space ++ plus colon_or_space
  ++ capture_plus digit_or_point.

(** The table row looked up for an epoch: the first line holding
    ["<epoch>/100"] and a bar. *)
Definition find_epoch_line (epoch_num : string) (lines : list string) : option string :=
  List.find (fun line => contains (epoch_num ++ "/100")%string line && contains bar line)
    lines.

(** What the row gives for the drawdown: the stripped cell [columns[9]],
    with ["--"] read as a zero drawdown; nothing when the row has ten
    cells or fewer or the cell is blank. *)
Definition drawdown_of_row (found_line : string) : option string :=
  let columns := split bar found_line in
  if (9 <? List.length columns)%nat
  then
    let max_dd_column := strip (nth 9 columns EmptyString) in
    let max_dd_column :=
      if String.eqb max_dd_column "--" then "0.000 USDT (0.00%)" else max_dd_column in
    if truthy max_dd_column then Some max_dd_column else None
  else None.

(** The three ways to a drawdown, as [parse_log_file] writes them in
    line. *)
Definition drawdown_from_table (lines : list string) (epoch_num : string)
  : option string :=
  match find_epoch_line epoch_num lines with
  | Some found_line => drawdown_of_row found_line
  | None => None
  end.

Definition drawdown_strict (content : string) : option string :=
  match search max_dd_re content with
  | Some max_dd_match =>
      Some (group 1 max_dd_match ++ " USDT (" ++ group 2 max_dd_match ++ "%)")%string
  | None => None
  end.

Definition drawdown_loose (content : string) : option string :=
  match search max_dd_re2 content with
  | Some max_dd_match2 => Some (group 1 max_dd_match2)
  | None => None
  end.

(** The drawdown step of [parse_log_file]: its [if epoch_match: ... else: ...]. *)
Definition recover_max_drawdown (content : string) (lines : list string)
    (best_result_line : string) : option string :=
  match search epoch_re best_result_line with
  | Some epoch_match => drawdown_from_table lines (group 1 epoch_match)
  | None =>
      match drawdown_strict content with
      | Some dd => Some dd
      | None => drawdown_loose content
      end
  end.

(** The parameter sections, in the order of the dict. *)
Definition param_sections : list (string * string) :=
  [ ("buy_params", "# Buy parameters:");
    ("sell_params", "# Sell parameters:");
    ("protection_params", "# Protection parameters:");
    ("roi_params", "# ROI parameters:");
    ("stoploss_params", "# Stoploss parameters:");
    ("trailing_params", "# Trailing stop parameters:");
    ("max_open_trades", "# Max open trades parameters:") ].

(** The inner loop over the lines for one section: the text gathered
    between the braces, when the section is there and the text is not
    blank. *)
Fixpoint collect_section (param_type section_header : string) (in_section : bool)
    (param_text : list string) (lines : list string) : option string :=
  match lines with
  | [] => None
  | line :: lines' =>
      if contains section_header line
      then
        if String.eqb param_type "roi_params"
           && contains "# value loaded from strategy" line
        then None
        else collect_section param_type section_header true param_text lines'
      else if in_section
      then
        if contains (param_type ++ " = {")%string line
        then
          match String.index 0 "{" line with
          | Some i =>
              collect_section param_type section_header true
                (param_text ++ [slice_from (i + 1) line]) lines'
          | None => collect_section param_type section_header true param_text lines'
          end
        else if contains "}" line
        then
          let param_text :=
            match String.index 0 "}" line with
            | Some (S i) => param_text ++ [slice_to (S i) line]
            | _ => param_text
            end in
          let full_param_text := String.concat "" param_text in
          if truthy (strip full_param_text) then Some full_param_text else None
        else if negb (contains "#" line)
        then collect_section param_type section_header true (param_text ++ [line]) lines'
        else collect_section param_type section_header true param_text lines'
      else collect_section param_type section_header false param_text lines'
  end.

Fixpoint collect_params (sections : list (string * string)) (lines : list string)
  : list (string * string) :=
  match sections with
  | [] => []
  | (param_type, section_header) :: sections' =>
      match collect_section param_type section_header false [] lines with
      | Some text => (param_type, text) :: collect_params sections' lines
      | None => collect_params sections' lines
      end
  end.

Definition no_result_line : exn := RuntimeError "Could not find Best result data line".

Definition no_marker : exn :=
  RuntimeError "Hyperopt completed but found no good results (no Best result section)".

Definition no_log_file (run_dir : path) : exn :=
  RuntimeError ("hyperopt.log not found in " ++ path_str run_dir).

(** [DataHandling.parse_log_file] *)
Definition parse_log_file (content : string) (run_dir : path) : outcome RunResult :=
  let lines := split newline content in
  match find_best_result_line lines 0 lines with
  | None => Raise no_result_line
  | Some best_result_line =>
      if negb (truthy best_result_line) then Raise no_result_line
      else
        metrics <- parse_result_data best_result_line ;;
        let metrics :=
          match recover_max_drawdown content lines best_result_line with
          | Some dd => set_max_drawdown dd metrics
          | None => metrics
          end in
        let params := collect_params param_sections lines in
        Return
          (mkRunResult (path_name run_dir)
             (match total_profit metrics with Some p => p | None => 0%Q end)
             (Some (match m_objective metrics with
                    | Some v => PyFloat v
                    | None => PyNone
                    end))
             (max_drawdown metrics)
             metrics
             params)
  end.

(** The file [run_dir/hyperopt.log], by what [exists] and [read_text]
    do with it: there is no such file; or [exists] or [read_text] raises
    [OSError] (or a subclass, [name]); or [read_text] raises
    [UnicodeDecodeError]; or it returns the content. *)
Inductive log_file : Type :=
| NoLog
| LogUnreadable (name msg : string)
| LogNotText (msg : string)
| LogText (content : string).

(** [DataHandling.extract_data]: the file is looked for, then read (no
    exception of [exists] or [read_text] is caught), then searched for
    the marker. *)
Definition extract_data (log : log_file) (run_dir : path) : outcome RunResult :=
  match log with
  | NoLog => Raise (no_log_file run_dir)
  | LogUnreadable name msg => Raise (OSError name msg)
  | LogNotText msg => Raise (UnicodeDecodeError msg)
  | LogText content =>
      if negb (contains marker content) then Raise no_marker
      else parse_log_file content run_dir
  end.

End LogExtractor.

(* ================================================================== *)
(** * ArtifactWatcher ([HyperLoop.wait_for_hyperopt_completion]) *)
(* ================================================================== *)

Module Watcher.

(** What one look at the strategy JSON file finds: no file; [exists]
    raising an [OSError] (it lets through those that do not say that the
    file or its folder is missing); a file whose [open] or [read] raises
    [OSError]; a file whose [read(1)] raises [UnicodeDecodeError] (its
    first bytes are no text); or a file that opens, [read(1)] returning
    [first] (the empty string for an empty file). *)
Inductive artifact : Type :=
| Absent
| Inaccessible (name msg : string)
| Unreadable
| Undecodable (msg : string)
| Readable (first : string).

(** What the world shows during one turn of the [while True] loop: the
    file at each of the probes of the [for] loop, whether a hyperopt
    process is seen afterwards, and the seconds elapsed since the start
    at that moment. *)
Record round : Type := mkRound {
  probe : nat -> artifact;
  hyperopt_running : bool;
  elapsed : Q
}.

Definition max_retries : nat := 3.

Definition MIN_WAIT_BEFORE_PROCESS_CHECK : Q := 60.

(** The two failures of the wait; [strategy_json] is the path of the
    file, as [str] gives it. *)
Definition unreadable (strategy_json : string) : exn :=
  RuntimeError ("Strategy JSON file found but not readable: " ++ strategy_json).

Definition no_artifact : exn :=
  RuntimeError "Hyperopt completed but produced no strategy JSON file".

(** The [for attempt in range(max_retries)] loop, from [attempt] on with
    [remaining] turns left: [Some] when it returns or raises, [None]
    when it runs out.  Only [OSError] is caught and retried. *)
Fixpoint probe_loop (strategy_json : string) (r : round) (attempt remaining : nat)
  : option (outcome unit) :=
  match remaining with
  | O => None
  | S remaining' =>
      match probe r attempt with
      | Readable _ => Some (Return tt)
      | Unreadable =>
          if (attempt <? max_retries - 1)%nat
          then probe_loop strategy_json r (S attempt) remaining'
          else Some (Raise (unreadable strategy_json))
      | Undecodable msg => Some (Raise (UnicodeDecodeError msg))
      | Inaccessible name msg => Some (Raise (OSError name msg))
      | Absent => probe_loop strategy_json r (S attempt) remaining'
      end
  end.

(** A wait ends by returning or raising, or goes on for as long as the
    observations last. *)
Inductive waited : Type :=
| Ended (result : outcome unit)
| StillWaiting.

(** [HyperLoop.wait_for_hyperopt_completion], over the observations of
    successive turns of its loop. *)
Fixpoint wait_for_hyperopt_completion (strategy_json : string)
    (rounds : list round) : waited :=
  match rounds with
  | [] => StillWaiting
  | r :: rounds' =>
      match probe_loop strategy_json r 0 max_retries with
      | Some result => Ended result
      | None =>
          if negb (hyperopt_running r) && Qltb MIN_WAIT_BEFORE_PROCESS_CHECK (elapsed r)
          then Ended (Raise no_artifact)
          else wait_for_hyperopt_completion strategy_json rounds'
      end
  end.

End Watcher.

(* ================================================================== *)
(** * RunOrchestrator ([HyperLoop]: run_single, run_loop) *)
(* ================================================================== *)

Module Orchestrator.

Import LeaderBoard.

(** The content of a [FAILED] file: the JSON of a failure record
    ([handle_hyperopt_failure]) or a bare message ([run_loop]). *)
Inductive marker_file : Type :=
| FailureJson (record : FailureRecord)
| FailureText (msg : string).

(** What the loop works on: [self.data], the [FAILED] files written so
    far (by run id), and the counter [successful_runs]. *)
Record Campaign : Type := mkCampaign {
  board : DataHandling;
  failed_files : list (Z * marker_file);
  successful_runs : nat
}.

(** What the world does during one attempt: whether creating the run
    directory, or launching the optimizer (clearing old files, building
    the window command, [Popen]), raises; what the watcher observes;
    the captured log file; whether the call
    [DataHandling.copy_hyperopt_results] raises (the class as given
    defines no such method, which makes it an [AttributeError]); the
    clock as [handle_hyperopt_failure] reads it for the [FAILED] file it
    writes; whether the leaderboard file can be written; the run
    directory; the clock as [record_failure] reads it afterwards;
    whether writing a [FAILED] file raises: the JSON written from the
    handler of [run_hyperopt_window], the new directory made and the
    JSON written from the handler of [run_single], and the message
    written from the handler of [run_loop]; and the path of the
    strategy JSON file. *)
Record Attempt : Type := mkAttempt {
  mkdir_raises : option exn;
  launch_raises : option exn;
  observations : list Watcher.round;
  log : LogExtractor.log_file;
  copy_raises : option exn;
  now : string;
  writable : bool;
  run_dir : path;
  recorded : string;
  window_write_raises : option exn;
  retry_mkdir_raises : option exn;
  retry_write_raises : option exn;
  loop_write_raises : option exn;
  strategy_json : string
}.

(** How a call ends: with a value, with an exception, or never (the
    watcher is still waiting). *)
Inductive ending (A : Type) : Type :=
| Value (a : A)
| Raised (e : exn)
| Hanging.
Arguments Value {A} a.
Arguments Raised {A} e.
Arguments Hanging {A}.

(** [HyperLoop.handle_hyperopt_failure]; [write_raises] tells whether
    writing the [FAILED] file of the directory it is given raises.  The
    clock is read for the file, the file is written, and then
    [record_failure] reads the clock again for its own record; when the
    write raises, nothing is recorded. *)
Definition handle_hyperopt_failure (a : Attempt) (write_raises : option exn)
    (c : Campaign) (run_id : Z) (error : exn) : Campaign * outcome unit :=
  let failure_data :=
    mkFailureRecord run_id (now a) (Py.str error) (Py.type_name error) in
  match write_raises with
  | Some e => (c, Raise e)
  | None =>
      (mkCampaign
         (record_failure (writable a) (recorded a) (board c) run_id error)
         (failed_files c ++ [(run_id, FailureJson failure_data)])
         (successful_runs c),
       Return tt)
  end.

(** [HyperLoop.run_hyperopt_window]: only the wait is inside the [try],
    and only [RuntimeError] is caught there; what the handler raises
    leaves the function. *)
Definition run_hyperopt_window (a : Attempt) (c : Campaign) (run_id : Z)
  : Campaign * ending (option path) :=
  match launch_raises a with
  | Some e => (c, Raised e)
  | None =>
      match Watcher.wait_for_hyperopt_completion (strategy_json a)
              (observations a) with
      | Watcher.StillWaiting => (c, Hanging)
      | Watcher.Ended (Return _) => (c, Value (Some (run_dir a)))
      | Watcher.Ended (Raise e) =>
          if is_RuntimeError e
          then
            match handle_hyperopt_failure a (window_write_raises a) c run_id e with
            | (c', Return _) => (c', Value None)
            | (c', Raise e') => (c', Raised e')
            end
          else (c, Raised e)
      end
  end.

(** [HyperLoop.run_single]: the directory is made before the [try];
    [except Exception] catches whatever the rest raises, makes a new
    directory and handles the failure there; what the handler raises
    leaves the function. *)
Definition run_single (a : Attempt) (c : Campaign) (run_id : Z)
  : Campaign * ending (option path) :=
  match mkdir_raises a with
  | Some e => (c, Raised e)
  | None =>
      match run_hyperopt_window a c run_id with
      | (c', Raised e) =>
          match retry_mkdir_raises a with
          | Some e' => (c', Raised e')
          | None =>
              match handle_hyperopt_failure a (retry_write_raises a) c' run_id e with
              | (c'', Return _) => (c'', Value None)
              | (c'', Raise e') => (c'', Raised e')
              end
          end
      | other => other
      end
  end.

(** [f"{result['objective']:.2f}"]: formatting needs a number. *)
Definition format_objective (result : RunResult) : outcome unit :=
  match objective result with
  | Some (PyFloat _) => Return tt
  | Some PyNone =>
      Raise (TypeError "unsupported format string passed to NoneType.__format__")
  | None => Raise (KeyError "'objective'")
  end.

(** The body of the [try] of [run_loop], for a run that produced a
    directory: the state it leaves and how it ends. *)
Definition extract_and_rank (a : Attempt) (c : Campaign) (top_n : Z)
  : Campaign * outcome unit :=
  match LogExtractor.extract_data (log a) (run_dir a) with
  | Raise e => (c, Raise e)
  | Return result =>
      let c := mkCampaign (board c) (failed_files c) (S (successful_runs c)) in
      match format_objective result with
      | Raise e => (c, Raise e)
      | Return _ =>
          match add_result (writable a) (board c) result top_n with
          | (board', Raise e) =>
              (mkCampaign board' (failed_files c) (successful_runs c), Raise e)
          | (board', Return _) =>
              let c := mkCampaign board' (failed_files c) (successful_runs c) in
              match copy_raises a with
              | Some e => (c, Raise e)
              | None => (c, Return tt)
              end
          end
      end
  end.

(** One turn of the [for] loop of [run_loop]. *)
Definition run_once (a : Attempt) (c : Campaign) (run_id top_n : Z)
  : Campaign * ending unit :=
  match run_single a c run_id with
  | (c', Raised e) => (c', Raised e)
  | (c', Hanging) => (c', Hanging)
  | (c', Value None) => (c', Value tt)
  | (c', Value (Some _)) =>
      match extract_and_rank a c' top_n with
      | (c'', Return _) => (c'', Value tt)
      | (c'', Raise e) =>
          if is_RuntimeError e
          then
            match loop_write_raises a with
            | Some e' => (c'', Raised e')
            | None =>
                (mkCampaign (board c'')
                   (failed_files c'' ++ [(run_id, FailureText (Py.str e))])
                   (successful_runs c''),
                 Value tt)
            end
          else (c'', Raised e)
      end
  end.

(** How a campaign ends: after its last run, or at the run whose
    exception left the loop, or at the run that never finished. *)
Inductive campaign_end : Type :=
| Completed (c : Campaign)
| Aborted (run_id : Z) (e : exn) (c : Campaign)
| Hung (run_id : Z) (c : Campaign).

(** [HyperLoop.run_loop]: the runs [run_id], [run_id + 1], ... one per
    attempt of the list. *)
Fixpoint run_loop_from (run_id : Z) (attempts : list Attempt) (c : Campaign)
    (top_n : Z) : campaign_end :=
  match attempts with
  | [] => Completed c
  | a :: attempts' =>
      match run_once a c run_id top_n with
      | (c', Value _) => run_loop_from (run_id + 1) attempts' c' top_n
      | (c', Raised e) => Aborted run_id e c'
      | (c', Hanging) => Hung run_id c'
      end
  end.

(** The state [HyperLoop.__init__] leaves: the [DataHandling] object
    its constructor returns (having removed whatever leaderboard file
    was there), no [FAILED] file, no successful run. *)
Definition start : Campaign := mkCampaign constructed [] 0.

Definition run_loop (attempts : list Attempt) (top_n : Z) : campaign_end :=
  run_loop_from 1 attempts start top_n.

End Orchestrator.

(* ================================================================== *)
(** * Log rotation of the launcher ([HyperLoop_Suite.py]) *)
(* ================================================================== *)

Module Launcher.
Import Py.

(** An entry of the log directory: its name, what [stat] does for its
    time of last modification (it gives the time or raises) and whether
    [unlink] raises [OSError] on it. *)
Record entry : Type := mkEntry {
  name : string;
  st_mtime : outcome Q;
  unlink_raises : bool
}.

(** [s.endswith(suffix)] *)
Definition endswith (suffix s : string) : bool :=
  (String.length suffix <=? String.length s)%nat
  && String.eqb
       (String.substring (String.length s - String.length suffix)
          (String.length suffix) s)
       suffix.

(** The glob pattern ["HyperLog_*.log"] on a file name. *)
Definition is_log_name (n : string) : bool :=
  String.prefix "HyperLog_" n && endswith ".log" (Text.slice_from 9 n).

(** [logs_dir.glob("HyperLog_*.log")], in the order of the directory. *)
Definition glob (d : list entry) : list entry :=
  filter (fun f => is_log_name (name f)) d.

(** The keys of [sorted]: [i.stat().st_mtime] is taken of every file, in
    order, before anything is compared. *)
Fixpoint keyed (l : list entry) : outcome (list (Q * entry)) :=
  match l with
  | [] => Return []
  | f :: l' =>
      t <- st_mtime f ;;
      r <- keyed l' ;;
      Return ((t, f) :: r)
  end.

(** [sorted(..., reverse=True)] is stable: of two files of the same time
    the one listed first stays first. *)
Fixpoint insert_newest (x : Q * entry) (l : list (Q * entry)) : list (Q * entry) :=
  match l with
  | [] => [x]
  | y :: l' => if Qltb (fst x) (fst y) then y :: insert_newest x l' else x :: l
  end.

Definition sorted_newest_first (l : list (Q * entry)) : list entry :=
  map snd (fold_right insert_newest [] l).

(** [old_log.unlink()] on the directory [d]; [None] when it raises
    [OSError]. *)
Definition unlink (old_log : entry) (d : list entry) : option (list entry) :=
  if unlink_raises old_log then None
  else Some (filter (fun g => negb (String.eqb (name g) (name old_log))) d).

(** The loop over [log_files[max_files:]]; an [OSError] of [unlink] is
    reported and the loop goes on. *)
Fixpoint remove_excess (olds : list entry) (d : list entry) : list entry :=
  match olds with
  | [] => d
  | old_log :: rest =>
      match unlink old_log d with
      | Some d' => remove_excess rest d'
      | None => remove_excess rest d
      end
  end.

(** [cleanup_old_logs(logs_dir, max_files)]; [logs_dir] is [None] when the
    directory does not exist.  The result is the directory afterwards. *)
Definition cleanup_old_logs (logs_dir : option (list entry)) (max_files : Z)
  : outcome (option (list entry)) :=
  match logs_dir with
  | None => Return None
  | Some d =>
      if (max_files <=? 0)%Z then Return (Some d)
      else
        keys <- keyed (glob d) ;;
        let log_files := sorted_newest_first keys in
        if (Z.of_nat (List.length log_files) >? max_files)%Z then
          Return (Some (remove_excess (skipn (Z.to_nat max_files) log_files) d))
        else Return (Some d)
  end.

End Launcher.

(* ================================================================== *)
(** * Progress display ([DisplayData.progress_bar]) *)
(* ================================================================== *)

Module Display.

Definition bar_length : Z := 50.

(** The bar drawn by [progress_bar(current, total)], a filled cell as
    [true]; [None] is the [ZeroDivisionError] of [current / total].
    A string repeated a negative number of times is empty. *)
Definition progress_bar (current total : Z) : option (list bool) :=
  if (total =? 0)%Z then None
  else
    let filled := (bar_length * current / total)%Z in
    Some (List.repeat true (Z.to_nat filled)
          ++ List.repeat false (Z.to_nat (bar_length - filled))).

End Display.

(** ** Vocabulary of the leaderboard properties *)

(** The order the board is kept in: a result whose objective is not a
    number ranks as +infinity. *)
Definition rank_le (a b : RunResult) : Prop :=
  match objective a, objective b with
  | Some (PyFloat x), Some (PyFloat y) => (x <= y)%Q
  | Some (PyFloat _), _ => True
  | _, Some (PyFloat _) => False
  | _, _ => True
  end.

Definition rank_lt (a b : RunResult) : Prop := ~ rank_le b a.

Definition sorted_by_objective (l : list RunResult) : Prop :=
  StronglySorted rank_le l.

(** The key [objective] is present and holds [None]. *)
Definition null_objective (r : RunResult) : bool :=
  match objective r with
  | Some PyNone => true
  | _ => false
  end.

Definition within_capacity (top_n : Z) (l : list RunResult) : Prop :=
  (Z.of_nat (List.length l) <= top_n)%Z.

(** The class of an exception, whatever its message. *)
Definition a_TypeError (e : exn) : Prop := exists msg, e = TypeError msg.

Definition a_ValueError (e : exn) : Prop := exists msg, e = ValueError msg.

Definition raises_TypeError {A : Type} (m : outcome A) : Prop :=
  exists msg, m = Raise (TypeError msg).

Definition raises_ValueError {A : Type} (m : outcome A) : Prop :=
  exists msg, m = Raise (ValueError msg).

(** How [update_top_results] changes the board before its final sort:
    the candidate is appended, or it takes the place of the first entry of
    worst rank, or the board stays as it is. *)
Inductive admission (board : list RunResult) (new_result : RunResult) (top_n : Z)
  : list RunResult -> Prop :=
| admit_free :
    (Z.of_nat (List.length board) < top_n)%Z ->
    admission board new_result top_n (board ++ [new_result])
| admit_evict (before after : list RunResult) (worst : RunResult) :
    (top_n <= Z.of_nat (List.length board))%Z ->
    board = before ++ worst :: after ->
    Forall (fun x => rank_lt x worst) before ->
    Forall (fun x => rank_le x worst) after ->
    rank_lt new_result worst ->
    admission board new_result top_n (before ++ after ++ [new_result])
| admit_reject (before after : list RunResult) (worst : RunResult) :
    (top_n <= Z.of_nat (List.length board))%Z ->
    board = before ++ worst :: after ->
    Forall (fun x => rank_lt x worst) before ->
    Forall (fun x => rank_le x worst) after ->
    rank_le worst new_result ->
    admission board new_result top_n board.

(** Sample data. *)
Definition sample_result (name : string) (obj : option pyval) : RunResult :=
  mkRunResult name 0 obj None empty_metrics [].

Definition sample_board : list RunResult :=
  [ sample_result "run_001" (Some (PyFloat (-3)));
    sample_result "run_002" (Some (PyFloat (-1))) ].

(** ** Vocabulary of the extraction properties *)

(** Index of the first line that holds the completion marker. *)
Fixpoint first_marker (lines : list string) : option nat :=
  match lines with
  | [] => None
  | line :: lines' =>
      if Text.contains LogExtractor.marker line then Some O
      else option_map S (first_marker lines')
  end.

(** The character [c] does not occur in [s]. *)
Fixpoint free_of (c : ascii) (s : string) : bool :=
  match s with
  | EmptyString => true
  | String c' s' => negb (Ascii.eqb c' c) && free_of c s'
  end.


(** Sample log texts. *)
Definition sample_result_line : string :=
  "    69/100:    150 trades. 80/10/60 Wins/Draws/Losses. Avg profit 2.35%. Median profit 1.20%. Total profit 123.45 USDT (12.3%). Avg duration 2:30:00 min. Objective: -1.234".

Definition sample_table_row (drawdown_cell : string) : string :=
  String.concat LogExtractor.bar
    [ ""; " Best "; " 69/100 "; " 150 "; " 80 10 60 "; " 2.35% ";
      " 123.45 USDT (12.3%) "; " 2:30:00 "; " -1.234 "; drawdown_cell; "" ].

Definition text_of_lines (lines : list string) : string :=
  String.concat LogExtractor.newline lines.

Definition sample_log : string :=
  text_of_lines
    [ "Best result:"; ""; sample_result_line; ""; sample_table_row " -- " ].


(** The marker followed by nothing but blank lines. *)
Definition log_with_blank_result_line : string :=
  text_of_lines [ "Best result:"; ""; "   " ].

(** The five texts of the worked example of the specification. *)
Definition mentions_sample_tokens (line : string) : bool :=
  Text.contains "150 trades" line
  && Text.contains "80/10/60 Wins/Draws/Losses" line
  && Text.contains "Avg profit 2.35%" line
  && Text.contains "Total profit 123.45 USDT (12.3%)" line
  && Text.contains "Objective: -1.234" line.

(** A result line made of exactly these five texts. *)
Definition five_token_line : string :=
  "150 trades 80/10/60 Wins/Draws/Losses Avg profit 2.35% Total profit 123.45 USDT (12.3%) Objective: -1.234".

(** The same with a trade count of 2150, which still contains the
    text ["150 trades"]. *)
Definition line_with_2150_trades : string :=
  "2150 trades 80/10/60 Wins/Draws/Losses Avg profit 2.35% Total profit 123.45 USDT (12.3%) Objective: -1.234".

(** The value a block reads from a line: the converted capture of the
    leftmost match of its pattern, if there is a match. *)
Definition read {A : Type} (pattern : Regex.regex)
    (convert : list string -> outcome A) (line : string) : option A :=
  match Regex.search pattern line with
  | Some found =>
      match convert found with
      | Return v => Some v
      | Raise _ => None
      end
  | None => None
  end.

(** [s] without its longest prefix of characters of [cs]. *)
Fixpoint drop_while (cs : Regex.cset) (s : string) : string :=
  match s with
  | String c s' => if Regex.mem c cs then drop_while cs s' else s
  | EmptyString => EmptyString
  end.

(** The last, and the first, character of [s] satisfies [p]. *)
Fixpoint ends_with (p : ascii -> bool) (s : string) : bool :=
  match s with
  | EmptyString => false
  | String c s' =>
      match s' with
      | EmptyString => p c
      | String _ _ => ends_with p s'
      end
  end.

Definition starts_with (p : ascii -> bool) (s : string) : bool :=
  match s with
  | EmptyString => false
  | String c _ => p c
  end.

(** A proper, non-empty end of [K] begins [x]. *)
Fixpoint border (K x : string) : bool :=
  match K with
  | EmptyString => false
  | String _ K' => (Text.truthy K' && String.prefix K' x) || border K' x
  end.

(** A character that can lengthen a number on its left: a digit, or a
    byte of a character outside ASCII (which [re] may take for a digit).
    And one that can lengthen the capture of the objective on its
    right: a minus sign, a digit, a point, or such a byte. *)
Definition may_be_digit (c : ascii) : bool :=
  Text.is_digit c || (127 <? nat_of_ascii c)%nat.

Definition may_continue_number (c : ascii) : bool :=
  Regex.mem c Regex.minus_digit_or_point || (127 <? nat_of_ascii c)%nat.

(** Sample observations and attempts. *)

(** The strategy JSON file is there, opens, and is empty. *)
Definition sees_empty_file : Watcher.round :=
  Watcher.mkRound (fun _ => Watcher.Readable EmptyString) true 0.

(** The file is found unreadable once and readable at the next probe. *)
Definition sees_file_after_retry : Watcher.round :=
  Watcher.mkRound
    (fun attempt => match attempt with
                    | O => Watcher.Unreadable
                    | _ => Watcher.Readable "{"
                    end)
    true 0.

Definition sees_unreadable_file : Watcher.round :=
  Watcher.mkRound (fun _ => Watcher.Unreadable) true 0.

(** The file is found and its first bytes are no text. *)
Definition sees_undecodable_file : Watcher.round :=
  Watcher.mkRound (fun _ => Watcher.Undecodable "invalid start byte") true 0.

Definition sees_file : Watcher.round :=
  Watcher.mkRound (fun _ => Watcher.Readable "{") true 5.

(** The run directory of a given name. *)
Definition run_directory (name : string) : path :=
  mkPath ("HyperLoop/results/" ++ name) name.

(** An attempt whose optimizer finishes and leaves the given log, in a
    world where every file can be written. *)
Definition attempt_with_log (name : string) (log : string) : Orchestrator.Attempt :=
  Orchestrator.mkAttempt None None [sees_file] (LogExtractor.LogText log) None
    "2026-01-01T00:00:00" true (run_directory name) "2026-01-01T00:00:01"
    None None None None "user_data/strategies/Strategy.json".

(** The same attempt, the copy of the result files raising [e]. *)
Definition failing_to_copy (e : exn) (a : Orchestrator.Attempt) : Orchestrator.Attempt :=
  Orchestrator.mkAttempt (Orchestrator.mkdir_raises a) (Orchestrator.launch_raises a)
    (Orchestrator.observations a) (Orchestrator.log a) (Some e)
    (Orchestrator.now a) (Orchestrator.writable a) (Orchestrator.run_dir a)
    (Orchestrator.recorded a) (Orchestrator.window_write_raises a)
    (Orchestrator.retry_mkdir_raises a) (Orchestrator.retry_write_raises a)
    (Orchestrator.loop_write_raises a) (Orchestrator.strategy_json a).

(** What the call of the method the class does not define raises. *)
Definition no_copy_method : exn :=
  AttributeError
    "type object 'DataHandling' has no attribute 'copy_hyperopt_results'".

(** A log without the completion marker. *)
Definition log_without_marker : string :=
  text_of_lines [ "Epochs done"; "No good result found" ].

(** A log whose result line carries no objective. *)
Definition log_without_objective : string :=
  text_of_lines [ "Best result:"; ""; "    7/100:    10 trades." ].

(** A log whose result line has a malformed number. *)
Definition log_with_malformed_number : string :=
  text_of_lines [ "Best result:"; ""; "    7/100:    10 trades. Avg profit 1.2.3%." ].

(** ** Vocabulary of the further properties *)

(** The loop of a quantified set in [Regex.match_here], with the rest
    of the pattern as a parameter, and the step of [Regex.match_here]
    for one item written with it. *)
Fixpoint greedy (cs : Regex.cset) (k : string -> option (list string)) (s : string)
  : option (string * list string) :=
  match s with
  | String c s' =>
      if Regex.mem c cs
      then match greedy cs k s' with
           | Some (w, groups) => Some (String c w, groups)
           | None => option_map (pair EmptyString) (k s)
           end
      else option_map (pair EmptyString) (k s)
  | EmptyString => option_map (pair EmptyString) (k s)
  end.

Definition match_item (it : Regex.item) (k : string -> option (list string))
    (s : string) : option (list string) :=
  match Regex.repeat it with
  | Regex.One =>
      match s with
      | String c s' =>
          if Regex.mem c (Regex.set it)
          then option_map
                 (Regex.record_group (Regex.captures it) (String c EmptyString)) (k s')
          else None
      | EmptyString => None
      end
  | Regex.Star =>
      option_map (fun r => Regex.record_group (Regex.captures it) (fst r) (snd r))
        (greedy (Regex.set it) k s)
  | Regex.Plus =>
      match s with
      | String c s' =>
          if Regex.mem c (Regex.set it)
          then option_map
                 (fun r => Regex.record_group (Regex.captures it)
                             (String c (fst r)) (snd r))
                 (greedy (Regex.set it) k s')
          else None
      | EmptyString => None
      end
  end.

(** Every character of [s] is in the set. *)
Fixpoint all_in (cs : Regex.cset) (s : string) : bool :=
  match s with
  | EmptyString => true
  | String c s' => Regex.mem c cs && all_in cs s'
  end.

(** What a capturing item can have captured: characters of its set, at
    least one unless it is starred. *)
Definition captured (it : Regex.item) (g : string) : Prop :=
  all_in (Regex.set it) g = true
  /\ (Regex.repeat it = Regex.Star \/ g <> EmptyString).

(** The patterns whose capture goes through [float]. *)
Definition float_patterns : list Regex.regex :=
  [ LogExtractor.avg_profit_re; LogExtractor.median_profit_re;
    LogExtractor.total_profit_re; LogExtractor.profit_percent_re;
    LogExtractor.objective_re ].

(** The text is longer than [int] accepts of a run of digits. *)
Definition over_the_digit_limit (g : string) : Prop :=
  (Text.int_max_str_digits < Z.of_nat (String.length g))%Z.

(** Why [parse_result_data] can fail on a line with [e]: a pattern whose
    capture goes through [float] matched a text that [float] rejects
    with [e]; or the trade count, or one of the counts of wins, draws
    and losses, is a run of more than 4300 digits, which [int] refuses
    with [e]. *)
Definition conversion_failure (line : string) (e : exn) : Prop :=
  (exists pattern found,
     In pattern float_patterns
     /\ Regex.search pattern line = Some found
     /\ Text.float (Regex.group 1 found) = Raise e)
  \/ (exists found,
        Regex.search LogExtractor.trades_re line = Some found
        /\ over_the_digit_limit (Regex.group 1 found)
        /\ e = Text.exceeds_the_limit (Regex.group 1 found))
  \/ (exists found k,
        Regex.search LogExtractor.wdl_re line = Some found
        /\ In k [1; 2; 3]%nat
        /\ over_the_digit_limit (Regex.group k found)
        /\ e = Text.exceeds_the_limit (Regex.group k found)).

(** A run of [n] digits, and a result line whose trade count is a run
    of 4301 digits. *)
Definition run_of_ones (n : nat) : string :=
  string_of_list_ascii (List.repeat "1"%char n).

Definition line_with_long_count : string :=
  (run_of_ones 4301 ++ " trades")%string.

(** At probe [k] of the turn something is raised that the watcher does
    not catch: the [OSError] of [exists], or the [UnicodeDecodeError] of
    the read. *)
Definition escapes_at (r : Watcher.round) (k : nat) (e : exn) : Prop :=
  (exists name msg,
     Watcher.probe r k = Watcher.Inaccessible name msg /\ e = OSError name msg)
  \/ (exists msg,
        Watcher.probe r k = Watcher.Undecodable msg /\ e = UnicodeDecodeError msg).

(** The strategy JSON file is not there at any probe of the turn. *)
Definition never_found (r : Watcher.round) : Prop :=
  forall k, (k < Watcher.max_retries)%nat -> Watcher.probe r k = Watcher.Absent.

(** The liveness check of the turn does not declare a failure: a
    hyperopt process is seen, or the minimum wait is not over. *)
Definition still_expected (r : Watcher.round) : Prop :=
  Watcher.hyperopt_running r = true
  \/ (Watcher.elapsed r <= Watcher.MIN_WAIT_BEFORE_PROCESS_CHECK)%Q.

Definition sees_nothing (running : bool) (elapsed : Q) : Watcher.round :=
  Watcher.mkRound (fun _ => Watcher.Absent) running elapsed.

(** The result has a number for objective. *)
Definition numeric (r : RunResult) : Prop :=
  exists q, objective r = Some (PyFloat q).

(** A failure record without its timestamp. *)
Definition record_key (f : FailureRecord) : Z * string * string :=
  (run_id f, error f, error_type f).

(** The failure records written as JSON to [FAILED] files. *)
Fixpoint json_records (files : list (Z * Orchestrator.marker_file))
  : list FailureRecord :=
  match files with
  | [] => []
  | (_, Orchestrator.FailureJson record) :: files' => record :: json_records files'
  | (_, Orchestrator.FailureText _) :: files' => json_records files'
  end.

(** The state a campaign is left in. *)
Definition end_state (e : Orchestrator.campaign_end) : Orchestrator.Campaign :=
  match e with
  | Orchestrator.Completed c => c
  | Orchestrator.Aborted _ _ c => c
  | Orchestrator.Hung _ c => c
  end.

(** What holds of a campaign at every turn of [run_loop]. *)
Definition campaign_ok (top_n : Z) (c : Orchestrator.Campaign) : Prop :=
  let top := LeaderBoard.get_top_results (Orchestrator.board c) in
  Forall numeric top
  /\ sorted_by_objective top
  /\ (List.length top <= Orchestrator.successful_runs c)%nat
  /\ (Z.of_nat (List.length top) <= Z.max 0 top_n)%Z
  /\ map record_key (json_records (Orchestrator.failed_files c))
     = map record_key (failed_runs (LeaderBoard.data (Orchestrator.board c))).

(** The failure is one the handler of [run_single] gets to handle: the
    launch raised it, or the wait raised it and it is no [RuntimeError],
    or the wait raised a [RuntimeError] and the handler of
    [run_hyperopt_window] raised it when writing its [FAILED] file. *)
Definition reaches_the_outer_handler (a : Orchestrator.Attempt) (e : exn) : Prop :=
  Orchestrator.launch_raises a = Some e
  \/ (Orchestrator.launch_raises a = None
      /\ exists e0,
           Watcher.wait_for_hyperopt_completion (Orchestrator.strategy_json a)
             (Orchestrator.observations a) = Watcher.Ended (Raise e0)
           /\ ((is_RuntimeError e0 = false /\ e = e0)
               \/ (is_RuntimeError e0 = true
                   /\ Orchestrator.window_write_raises a = Some e))).

(** Why an attempt can leave [run_loop] with the exception [e]: the run
    directory could not be made; or a failure of the launch or of the
    wait was being handled in [run_single] and the handler itself
    failed, at making its directory or at writing its [FAILED] file; or
    the extraction raised something else than a [RuntimeError]; or the
    result line had no objective; or the copy of the result files
    raised something else than a [RuntimeError]; or the write of the
    [FAILED] file in the handler of [run_loop] failed. *)
Definition abort_cause (a : Orchestrator.Attempt) (e : exn) : Prop :=
  Orchestrator.mkdir_raises a = Some e
  \/ ((exists e0, reaches_the_outer_handler a e0)
      /\ (Orchestrator.retry_mkdir_raises a = Some e
          \/ (Orchestrator.retry_mkdir_raises a = None
              /\ Orchestrator.retry_write_raises a = Some e)))
  \/ (LogExtractor.extract_data (Orchestrator.log a) (Orchestrator.run_dir a)
      = Raise e
      /\ is_RuntimeError e = false)
  \/ (exists r,
        LogExtractor.extract_data (Orchestrator.log a) (Orchestrator.run_dir a)
        = Return r
        /\ objective r = Some PyNone
        /\ e = TypeError "unsupported format string passed to NoneType.__format__")
  \/ (exists r,
        LogExtractor.extract_data (Orchestrator.log a) (Orchestrator.run_dir a)
        = Return r
        /\ numeric r /\ Orchestrator.copy_raises a = Some e
        /\ is_RuntimeError e = false)
  \/ (Orchestrator.loop_write_raises a = Some e
      /\ exists e0,
           is_RuntimeError e0 = true
           /\ (LogExtractor.extract_data (Orchestrator.log a) (Orchestrator.run_dir a)
               = Raise e0
               \/ Orchestrator.copy_raises a = Some e0)).

(** ** Vocabulary of the log rotation *)

(** What [stat] gives for [f] is no later than what it gives for [g]. *)
Definition no_newer_than (f g : Launcher.entry) : Prop :=
  exists t u,
    Launcher.st_mtime f = Return t /\ Launcher.st_mtime g = Return u /\ (t <= u)%Q.

(** The order of the keyed files after [sorted(..., reverse=True)]. *)
Definition newer_first (a b : Q * Launcher.entry) : Prop := (fst b <= fst a)%Q.

Definition sample_logs_dir : list Launcher.entry :=
  [ Launcher.mkEntry "HyperLog_a.log" (Return 3%Q) false;
    Launcher.mkEntry "notes.txt" (Raise (OSError "PermissionError" "notes.txt")) false;
    Launcher.mkEntry "HyperLog_b.log" (Return 1%Q) false;
    Launcher.mkEntry "HyperLog_c.log" (Return 2%Q) false ].

(* ================================================================== *)
(** * Properties *)
(* ================================================================== *)

Import LeaderBoard.

(** ** Order lemmas *)

Lemma rank_le_refl (a : RunResult) : rank_le a a.
Proof.
  unfold rank_le. destruct (objective a) as [[|x]|]; auto. apply Qle_refl.
Qed.

Lemma rank_le_trans (a b c : RunResult) :
  rank_le a b -> rank_le b c -> rank_le a c.
Proof.
  unfold rank_le.
  destruct (objective a) as [[|x]|], (objective b) as [[|y]|],
    (objective c) as [[|z]|]; try tauto.
  apply Qle_trans.
Qed.

Lemma rank_lt_le (a b : RunResult) : rank_lt a b -> rank_le a b.
Proof.
  unfold rank_lt, rank_le.
  destruct (objective a) as [[|x]|], (objective b) as [[|y]|]; try tauto.
  intros H. apply Qnot_le_lt in H. now apply Qlt_le_weak.
Qed.

Lemma key_lt_true (a b : RunResult) :
  key_lt (objective_or_inf a) (objective_or_inf b) = Return true -> rank_lt a b.
Proof.
  unfold objective_or_inf, rank_lt, rank_le.
  destruct (objective a) as [[|x]|], (objective b) as [[|y]|]; simpl;
    try discriminate; auto.
  intros H. injection H as H. unfold Qltb in H.
  apply negb_true_iff in H. intros Hle. apply Qle_bool_iff in Hle. congruence.
Qed.

Lemma key_lt_false (a b : RunResult) :
  key_lt (objective_or_inf a) (objective_or_inf b) = Return false -> rank_le b a.
Proof.
  unfold objective_or_inf, rank_le.
  destruct (objective a) as [[|x]|], (objective b) as [[|y]|]; simpl;
    try discriminate; auto.
  intros H. injection H as H. unfold Qltb in H.
  apply negb_false_iff in H. now apply Qle_bool_iff.
Qed.

Lemma key_lt_defined (a b : RunResult) :
  null_objective a = false -> null_objective b = false ->
  exists v, key_lt (objective_or_inf a) (objective_or_inf b) = Return v.
Proof.
  unfold null_objective, objective_or_inf.
  destruct (objective a) as [[|x]|], (objective b) as [[|y]|]; simpl;
    try discriminate; eauto.
Qed.

Lemma key_lt_raises (a b : RunResult) (e : exn) :
  key_lt (objective_or_inf a) (objective_or_inf b) = Raise e ->
  a_TypeError e /\ (null_objective a = true \/ null_objective b = true).
Proof.
  unfold null_objective, objective_or_inf, a_TypeError.
  destruct (objective a) as [[|x]|], (objective b) as [[|y]|]; simpl;
    intros H; try discriminate; injection H as <-;
    (split; [ eexists; reflexivity | auto ]).
Qed.

(** [b > a] holds and fails as [a < b] does. *)
Lemma key_gt_lt (a b : key) (v : bool) :
  key_gt b a = Return v <-> key_lt a b = Return v.
Proof.
  destruct a, b; simpl; split; intros H; try discriminate; auto.
Qed.

Lemma key_gt_true (a b : RunResult) :
  key_gt (objective_or_inf b) (objective_or_inf a) = Return true -> rank_lt a b.
Proof. intros H. apply key_gt_lt in H. now apply key_lt_true. Qed.

Lemma key_gt_false (a b : RunResult) :
  key_gt (objective_or_inf b) (objective_or_inf a) = Return false -> rank_le b a.
Proof. intros H. apply key_gt_lt in H. now apply key_lt_false. Qed.

Lemma key_gt_defined (a b : RunResult) :
  null_objective a = false -> null_objective b = false ->
  exists v, key_gt (objective_or_inf b) (objective_or_inf a) = Return v.
Proof.
  intros Ha Hb. destruct (key_lt_defined a b Ha Hb) as [v Hv].
  exists v. now apply key_gt_lt.
Qed.

Lemma key_gt_raises (a b : RunResult) (e : exn) :
  key_gt (objective_or_inf b) (objective_or_inf a) = Raise e ->
  a_TypeError e /\ (null_objective a = true \/ null_objective b = true).
Proof.
  unfold null_objective, objective_or_inf, a_TypeError.
  destruct (objective a) as [[|x]|], (objective b) as [[|y]|]; simpl;
    intros H; try discriminate; injection H as <-;
    (split; [ eexists; reflexivity | auto ]).
Qed.

Lemma key_gt_null (a b : RunResult) :
  null_objective a = true \/ null_objective b = true ->
  raises_TypeError (key_gt (objective_or_inf b) (objective_or_inf a)).
Proof.
  unfold null_objective, objective_or_inf, raises_TypeError.
  destruct (objective a) as [[|x]|], (objective b) as [[|y]|]; simpl;
    intros [H|H]; try discriminate; eexists; reflexivity.
Qed.

Lemma key_lt_sees_numbers (a b : RunResult) (v : bool) :
  key_lt (objective_or_inf a) (objective_or_inf b) = Return v ->
  null_objective a = false /\ null_objective b = false.
Proof.
  unfold null_objective, objective_or_inf.
  destruct (objective a) as [[|x]|], (objective b) as [[|y]|]; simpl;
    intros H; try discriminate; auto.
Qed.

(** Python [==] is reflexive on these dicts, and equal dicts rank alike. *)
Lemma option_eqb_refl {A : Type} (eqb : A -> A -> bool) (o : option A) :
  (forall x, eqb x x = true) -> option_eqb eqb o o = true.
Proof. intros H. destruct o; simpl; auto. Qed.

Lemma Qeq_bool_refl' (q : Q) : Qeq_bool q q = true.
Proof. apply Qeq_bool_iff. reflexivity. Qed.

Lemma RunResult_eqb_refl (r : RunResult) : RunResult_eqb r r = true.
Proof.
  unfold RunResult_eqb, Metrics_eqb.
  rewrite String.eqb_refl, Qeq_bool_refl'.
  rewrite !(option_eqb_refl Qeq_bool) by apply Qeq_bool_refl'.
  rewrite !(option_eqb_refl String.eqb) by apply String.eqb_refl.
  rewrite (option_eqb_refl Z.eqb) by apply Z.eqb_refl.
  rewrite (option_eqb_refl pyval_eqb)
    by (intros [|q]; simpl; auto using Qeq_bool_refl').
  simpl. induction (params r) as [|[k v] l IH]; simpl; auto.
  now rewrite !String.eqb_refl, IH.
Qed.

Lemma RunResult_eqb_rank (a b : RunResult) :
  RunResult_eqb a b = true -> rank_le b a.
Proof.
  unfold RunResult_eqb. intros H.
  repeat (apply andb_true_iff in H; destruct H as [H ?]).
  match goal with
  | Ho : option_eqb pyval_eqb _ _ = true |- _ => revert Ho
  end.
  unfold rank_le.
  destruct (objective a) as [[|x]|], (objective b) as [[|y]|]; simpl;
    try discriminate; auto.
  intros Ho. apply Qeq_bool_iff in Ho. rewrite Ho. apply Qle_refl.
Qed.

Lemma rank_le_lt_trans (a b c : RunResult) :
  rank_le a b -> rank_lt b c -> rank_lt a c.
Proof.
  unfold rank_lt. intros Hab Hbc Hca. apply Hbc. eapply rank_le_trans; eauto.
Qed.

Lemma rank_lt_trans (a b c : RunResult) :
  rank_lt a b -> rank_lt b c -> rank_lt a c.
Proof. intros Hab. apply rank_le_lt_trans. now apply rank_lt_le. Qed.

(** ** [list.sort]: the result is ordered and holds the same entries *)

Ltac step_bind H :=
  match type of H with
  | Py.bind ?m _ = _ =>
      let E := fresh "E" in
      destruct m eqn:E; simpl in H; [ | try discriminate ]
  end.

Lemma insert_by_key_spec (x : RunResult) (s l : list RunResult) :
  sorted_by_objective s ->
  insert_by_key x s = Return l ->
  sorted_by_objective l /\ Permutation l (x :: s).
Proof.
  unfold sorted_by_objective. revert l.
  induction s as [|y s IH]; intros l Hs H; simpl in H.
  - injection H as <-. split; auto. repeat constructor.
  - step_bind H. destruct a.
    + injection H as <-. split; auto.
      constructor; auto. inversion Hs; subst.
      apply key_lt_true, rank_lt_le in E. constructor; auto.
      eapply Forall_impl; [ | eassumption ].
      intros z Hz. eapply rank_le_trans; eauto.
    + step_bind H. injection H as <-.
      inversion Hs; subst.
      destruct (IH a) as [IHs IHp]; auto.
      split.
      * constructor; auto.
        eapply Permutation_Forall; [ symmetry; exact IHp | ].
        constructor; auto. now apply key_lt_false.
      * rewrite IHp. apply perm_swap.
Qed.

Lemma sort_loop_spec (pending sorted l : list RunResult) :
  sorted_by_objective sorted ->
  sort_loop sorted pending = Return l ->
  sorted_by_objective l /\ Permutation l (sorted ++ pending).
Proof.
  revert sorted l.
  induction pending as [|x pending IH]; intros sorted l Hs H; simpl in H.
  - injection H as <-. rewrite app_nil_r. auto.
  - step_bind H.
    destruct (insert_by_key_spec _ _ _ Hs E) as [Hs' Hp'].
    destruct (IH _ _ Hs' H) as [Hl Hp]. split; auto.
    rewrite Hp, Hp'. apply Permutation_middle.
Qed.

Lemma py_sort_spec (l l' : list RunResult) :
  py_sort l = Return l' ->
  sorted_by_objective l' /\ Permutation l' l.
Proof.
  intros H. apply (sort_loop_spec l [] l'); auto. constructor.
Qed.

(** The sort is stable, so an ordered list comes back as it is. *)
Lemma insert_by_key_last (x : RunResult) (s l : list RunResult) :
  Forall (fun y => rank_le y x) s ->
  insert_by_key x s = Return l ->
  l = s ++ [x].
Proof.
  revert l. induction s as [|y s IH]; intros l Hs H; simpl in H.
  - now injection H as <-.
  - inversion Hs; subst. step_bind H. destruct a.
    + apply key_lt_true in E. contradiction.
    + step_bind H. injection H as <-. simpl. f_equal. auto.
Qed.

Lemma StronglySorted_app_inv {A : Type} (R : A -> A -> Prop) (a : list A) (x : A)
    (p : list A) :
  StronglySorted R (a ++ x :: p) ->
  Forall (fun y => R y x) a.
Proof.
  induction a as [|y a IH]; simpl; intros H; auto.
  inversion H; subst. constructor; auto.
  rewrite Forall_forall in H3. apply H3, in_elt.
Qed.

Lemma sort_loop_sorted (pending sorted l : list RunResult) :
  sorted_by_objective (sorted ++ pending) ->
  sort_loop sorted pending = Return l ->
  l = sorted ++ pending.
Proof.
  revert sorted l.
  induction pending as [|x pending IH]; intros sorted l Hs H; simpl in H.
  - injection H as <-. now rewrite app_nil_r.
  - step_bind H.
    apply insert_by_key_last in E; [ | eapply StronglySorted_app_inv; eauto ].
    subst a. apply IH in H; rewrite <- app_assoc in *; auto.
Qed.

Lemma py_sort_sorted (l l' : list RunResult) :
  sorted_by_objective l -> py_sort l = Return l' -> l' = l.
Proof. intros Hs H. now apply (sort_loop_sorted l [] l'). Qed.

(** The sort only fails on a [None] key, and a list of two or more
    entries with such a key always makes it fail. *)
Lemma insert_by_key_defined (x : RunResult) (s : list RunResult) :
  null_objective x = false ->
  Forall (fun y => null_objective y = false) s ->
  exists l, insert_by_key x s = Return l.
Proof.
  intros Hx. induction s as [|y s IH]; intros Hs; simpl; eauto.
  inversion Hs; subst.
  destruct (key_lt_defined x y) as [v ->]; auto. simpl.
  destruct v; eauto.
  destruct IH as [l ->]; simpl; eauto.
Qed.

Lemma sort_loop_defined (pending sorted : list RunResult) :
  sorted_by_objective sorted ->
  Forall (fun y => null_objective y = false) sorted ->
  Forall (fun y => null_objective y = false) pending ->
  exists l, sort_loop sorted pending = Return l.
Proof.
  revert sorted.
  induction pending as [|x pending IH]; intros sorted Hs Hn Hp; simpl; eauto.
  inversion Hp; subst.
  destruct (insert_by_key_defined x sorted) as [s' E]; auto.
  rewrite E. simpl.
  destruct (insert_by_key_spec _ _ _ Hs E) as [Hs' Hp'].
  apply IH; auto.
  eapply Permutation_Forall; [ symmetry; exact Hp' | ]. auto.
Qed.

Lemma py_sort_defined (l : list RunResult) :
  Forall (fun y => null_objective y = false) l ->
  exists l', py_sort l = Return l'.
Proof. intros H. apply sort_loop_defined; auto. constructor. Qed.

Lemma insert_by_key_raises (x : RunResult) (s : list RunResult) (e : exn) :
  insert_by_key x s = Raise e -> a_TypeError e.
Proof.
  induction s as [|y s IH]; simpl; intros H; try discriminate.
  destruct (key_lt _ _) eqn:E; simpl in H.
  - destruct a; try discriminate.
    destruct (insert_by_key x s); simpl in H; try discriminate.
    injection H as <-. auto.
  - injection H as <-. now apply key_lt_raises in E.
Qed.

Lemma sort_loop_raises (pending sorted : list RunResult) (e : exn) :
  sort_loop sorted pending = Raise e -> a_TypeError e.
Proof.
  revert sorted. induction pending as [|x pending IH]; intros sorted H; simpl in H.
  - discriminate.
  - destruct (insert_by_key x sorted) eqn:E; simpl in H; eauto.
    injection H as <-. eapply insert_by_key_raises; eauto.
Qed.

Lemma py_sort_single (x : RunResult) : py_sort [x] = Return [x].
Proof. reflexivity. Qed.

Lemma key_lt_null (a b : RunResult) :
  null_objective a = true \/ null_objective b = true ->
  raises_TypeError (key_lt (objective_or_inf a) (objective_or_inf b)).
Proof.
  unfold null_objective, objective_or_inf, raises_TypeError.
  destruct (objective a) as [[|x]|], (objective b) as [[|y]|]; simpl;
    intros [H|H]; try discriminate; eexists; reflexivity.
Qed.

Lemma insert_by_key_perm (x : RunResult) (s l : list RunResult) :
  insert_by_key x s = Return l -> Permutation l (x :: s).
Proof.
  revert l. induction s as [|y s IH]; intros l H; simpl in H.
  - injection H as <-. auto.
  - step_bind H. destruct a.
    + injection H as <-. auto.
    + step_bind H. injection H as <-.
      rewrite (IH _ eq_refl). apply perm_swap.
Qed.

Lemma insert_by_key_keeps_numbers (x : RunResult) (s l : list RunResult) :
  null_objective x = false ->
  Forall (fun y => null_objective y = false) s ->
  insert_by_key x s = Return l ->
  l <> [] /\ Forall (fun y => null_objective y = false) l.
Proof.
  intros Hx Hs H. pose proof (insert_by_key_perm _ _ _ H) as Hp. split.
  - intros ->. apply Permutation_nil in Hp. discriminate.
  - eapply Permutation_Forall; [ symmetry; exact Hp | ]. auto.
Qed.

Lemma sort_loop_null_raises (pending sorted : list RunResult) :
  sorted <> [] ->
  Forall (fun y => null_objective y = false) sorted ->
  Exists (fun y => null_objective y = true) pending ->
  raises_TypeError (sort_loop sorted pending).
Proof.
  revert sorted. induction pending as [|x pending IH]; intros sorted Hne Hs Hex.
  - inversion Hex.
  - simpl. destruct (null_objective x) eqn:Ex.
    + destruct sorted as [|y sorted]; [ congruence | ]. simpl.
      destruct (key_lt_null x y) as [msg ->]; auto. simpl. now exists msg.
    + destruct (insert_by_key_defined x sorted Ex Hs) as [s' Hs'].
      rewrite Hs'. simpl.
      destruct (insert_by_key_keeps_numbers x sorted s' Ex Hs Hs') as [Hne' Hn'].
      apply IH; auto.
      inversion Hex; subst; [ congruence | auto ].
Qed.

(** Whatever the order of its comparisons, a sort of two or more entries
    meets every key: it fails exactly when one of them is [None]. *)
Lemma py_sort_null_raises (x y : RunResult) (l : list RunResult) :
  Exists (fun r => null_objective r = true) (x :: y :: l) ->
  raises_TypeError (py_sort (x :: y :: l)).
Proof.
  intros Hex. unfold py_sort. simpl.
  destruct (null_objective x) eqn:Ex.
  - destruct (key_lt_null y x) as [msg ->]; auto. simpl. now exists msg.
  - change (raises_TypeError (sort_loop [x] (y :: l))).
    apply sort_loop_null_raises; [ discriminate | auto | ].
    inversion Hex; subst; [ congruence | auto ].
Qed.

(** ** [max] and [list.remove]: the evicted entry *)

(** [max] returns the first entry of greatest key: what stands before it
    ranks strictly lower, what stands after it ranks no higher. *)
Lemma max_loop_spec (rest pre post : list RunResult) (best w : RunResult) :
  Forall (fun x => rank_lt x best) pre ->
  Forall (fun x => rank_le x best) post ->
  max_loop best rest = Return w ->
  exists l1 l2,
    pre ++ best :: post ++ rest = l1 ++ w :: l2
    /\ Forall (fun x => rank_lt x w) l1
    /\ Forall (fun x => rank_le x w) l2.
Proof.
  revert pre post best.
  induction rest as [|x rest IH]; intros pre post best Hpre Hpost H; simpl in H.
  - injection H as <-. exists pre, post. rewrite app_nil_r. auto.
  - step_bind H. destruct a.
    + apply key_gt_true in E.
      destruct (IH (pre ++ best :: post) [] x) as (l1 & l2 & Heq & H1 & H2); auto.
      * apply Forall_app. split.
        -- revert Hpre. apply Forall_impl.
           intros z Hz. now apply rank_lt_trans with best.
        -- constructor; auto.
           revert Hpost. apply Forall_impl.
           intros z Hz. now apply rank_le_lt_trans with best.
      * exists l1, l2. split; auto.
        rewrite <- Heq. simpl. rewrite <- app_assoc. reflexivity.
    + apply key_gt_false in E.
      destruct (IH pre (post ++ [x]) best) as (l1 & l2 & Heq & H1 & H2); auto.
      * apply Forall_app. split; auto.
      * exists l1, l2. split; auto.
        rewrite <- Heq. rewrite <- app_assoc. reflexivity.
Qed.

Lemma py_max_spec (l : list RunResult) (w : RunResult) :
  py_max l = Return w ->
  exists l1 l2,
    l = l1 ++ w :: l2
    /\ Forall (fun x => rank_lt x w) l1
    /\ Forall (fun x => rank_le x w) l2.
Proof.
  destruct l as [|x l]; simpl; intros H; try discriminate.
  apply (max_loop_spec l [] [] x w); auto.
Qed.

Lemma max_loop_defined (rest : list RunResult) (best : RunResult) :
  null_objective best = false ->
  Forall (fun y => null_objective y = false) rest ->
  exists w, max_loop best rest = Return w.
Proof.
  revert best. induction rest as [|x rest IH]; intros best Hb Hr; simpl; eauto.
  inversion Hr; subst.
  destruct (key_gt_defined best x) as [v ->]; auto. simpl.
  destruct v; auto.
Qed.

Lemma max_loop_raises (rest : list RunResult) (best : RunResult) (e : exn) :
  max_loop best rest = Raise e -> a_TypeError e.
Proof.
  revert best. induction rest as [|x rest IH]; intros best H; simpl in H.
  - discriminate.
  - destruct (key_gt _ _) eqn:E; simpl in H; eauto.
    injection H as <-. now apply key_gt_raises in E.
Qed.

(** [remove] therefore takes out that very entry. *)
Lemma py_remove_first_max (l1 l2 : list RunResult) (w : RunResult) :
  Forall (fun x => rank_lt x w) l1 ->
  py_remove w (l1 ++ w :: l2) = Return (l1 ++ l2).
Proof.
  induction l1 as [|x l1 IH]; intros H; simpl.
  - now rewrite RunResult_eqb_refl.
  - inversion H; subst.
    destruct (RunResult_eqb x w) eqn:E.
    + apply RunResult_eqb_rank in E. contradiction.
    + rewrite IH; auto.
Qed.

(** ** [update_top_results] *)

Lemma update_top_results_admission (st : LeaderBoardState) (new_result : RunResult)
    (top_n : Z) (l' : list RunResult) :
  update_top_results st new_result top_n = Return l' ->
  exists updated,
    admission (top_results st) new_result top_n updated
    /\ py_sort updated = Return l'.
Proof.
  unfold update_top_results. intros H.
  destruct (Z.ltb_spec (Z.of_nat (List.length (top_results st))) top_n) as [Hlt|Hge].
  - simpl in H. eexists. split; [ now apply admit_free | exact H ].
  - step_bind H. rename a into updated. exists updated. split; auto.
    step_bind E. rename a into worst. step_bind E. rename a into better.
    destruct (py_max_spec _ _ E0) as (before & after & Heq & Hb & Ha).
    destruct better.
    + rewrite Heq in E. rewrite py_remove_first_max in E by auto. simpl in E.
      injection E as <-. rewrite <- app_assoc.
      eapply admit_evict; eauto. now apply key_lt_true.
    + injection E as <-. eapply admit_reject; eauto. now apply key_lt_false.
Qed.

Lemma admission_length (board : list RunResult) (new_result : RunResult) (top_n : Z)
    (updated : list RunResult) :
  admission board new_result top_n updated ->
  within_capacity top_n board ->
  within_capacity top_n updated.
Proof.
  unfold within_capacity.
  intros [Hlt | before after worst Hge Heq _ _ _ | before after worst Hge _ _ _ _] Hcap;
    auto.
  - rewrite length_app. simpl. lia.
  - rewrite Heq in Hcap. rewrite !length_app in *. simpl in *. lia.
Qed.

Lemma update_top_results_defined (st : LeaderBoardState) (new_result : RunResult)
    (top_n : Z) :
  (1 <= top_n)%Z ->
  null_objective new_result = false ->
  Forall (fun r => null_objective r = false) (top_results st) ->
  exists l', update_top_results st new_result top_n = Return l'.
Proof.
  intros Hn Hnew Hboard. unfold update_top_results.
  destruct (Z.ltb_spec (Z.of_nat (List.length (top_results st))) top_n) as [Hlt|Hge].
  - cbn [Py.bind]. apply py_sort_defined. apply Forall_app. auto.
  - destruct (top_results st) as [|x board] eqn:Eb; [ simpl in Hge; lia | ].
    assert (Hmax : exists worst, py_max (x :: board) = Return worst).
    { inversion Hboard; subst. now apply max_loop_defined. }
    destruct Hmax as [worst Hmax]. rewrite Hmax. cbn [Py.bind].
    destruct (py_max_spec (x :: board) worst Hmax) as (before & after & Heq & Hb & Ha).
    rewrite Heq in *.
    apply Forall_app in Hboard. destruct Hboard as [H1 H2].
    inversion H2; subst.
    destruct (key_lt_defined new_result worst) as [better ->]; auto. cbn [Py.bind].
    destruct better.
    + rewrite py_remove_first_max by auto. cbn [Py.bind].
      apply py_sort_defined. rewrite !Forall_app. auto.
    + apply py_sort_defined. rewrite Forall_app. auto.
Qed.

Lemma update_top_results_raises (st : LeaderBoardState) (new_result : RunResult)
    (top_n : Z) (e : exn) :
  (1 <= top_n)%Z ->
  update_top_results st new_result top_n = Raise e ->
  a_TypeError e.
Proof.
  intros Hn. unfold update_top_results.
  destruct (Z.ltb_spec (Z.of_nat (List.length (top_results st))) top_n) as [Hlt|Hge].
  - cbn [Py.bind]. apply sort_loop_raises.
  - destruct (top_results st) as [|x board] eqn:Eb; [ simpl in Hge; lia | ].
    destruct (py_max (x :: board)) as [worst|e'] eqn:Hmax; cbn [Py.bind].
    + destruct (key_lt _ _) as [better|e'] eqn:Hlt; cbn [Py.bind].
      * destruct (py_max_spec (x :: board) worst Hmax) as (before & after & Heq & Hb & Ha).
        destruct better; cbn [Py.bind]; [ | apply sort_loop_raises ].
        rewrite Heq. rewrite py_remove_first_max by auto. cbn [Py.bind].
        apply sort_loop_raises.
      * intros H. injection H as <-. now apply key_lt_raises in Hlt.
    + intros H. injection H as <-. simpl in Hmax. eapply max_loop_raises; eauto.
Qed.

(** ** The board under [add_result] *)

Lemma save_data_data (writable : bool) (self : DataHandling) :
  data (save_data writable self) = data self.
Proof. unfold save_data. now destruct writable. Qed.

Lemma add_result_invariant (writable : bool) (self : DataHandling) (r : RunResult)
    (top_n : Z) :
  within_capacity top_n (get_top_results self) ->
  sorted_by_objective (get_top_results self) ->
  within_capacity top_n (get_top_results (fst (add_result writable self r top_n)))
  /\ sorted_by_objective (get_top_results (fst (add_result writable self r top_n))).
Proof.
  intros Hcap Hsorted. unfold add_result, get_top_results in *.
  destruct (update_top_results (data self) r top_n) as [top|e] eqn:E; simpl; auto.
  rewrite save_data_data. simpl.
  destruct (update_top_results_admission _ _ _ _ E) as (updated & Hadm & Hsort).
  destruct (py_sort_spec _ _ Hsort) as [Hs Hp]. split; auto.
  unfold within_capacity. rewrite (Permutation_length Hp).
  eapply admission_length; eauto.
Qed.

Lemma admit_all_invariant (writable : bool) (results : list RunResult)
    (self : DataHandling) (top_n : Z) :
  within_capacity top_n (get_top_results self) ->
  sorted_by_objective (get_top_results self) ->
  within_capacity top_n (get_top_results (fst (admit_all writable self results top_n)))
  /\ sorted_by_objective (get_top_results (fst (admit_all writable self results top_n))).
Proof.
  revert self. induction results as [|r results IH]; intros self Hcap Hsorted; simpl; auto.
  destruct (add_result_invariant writable self r top_n Hcap Hsorted) as [Hc Hs].
  destruct (add_result writable self r top_n) as [self' [[]|e]]; simpl in *; auto.
Qed.

Lemma add_result_keeps_numbers (writable : bool) (self : DataHandling) (r : RunResult)
    (top_n : Z) :
  null_objective r = false ->
  Forall (fun x => null_objective x = false) (get_top_results self) ->
  Forall (fun x => null_objective x = false)
    (get_top_results (fst (add_result writable self r top_n))).
Proof.
  intros Hr Hboard. unfold add_result, get_top_results in *.
  destruct (update_top_results (data self) r top_n) as [top|e] eqn:E; simpl; auto.
  rewrite save_data_data. simpl.
  destruct (update_top_results_admission _ _ _ _ E) as (updated & Hadm & Hsort).
  destruct (py_sort_spec _ _ Hsort) as [_ Hp].
  eapply Permutation_Forall; [ symmetry; exact Hp | ].
  destruct Hadm as [Hlt | before after worst Hge Heq _ _ _ | before after worst Hge _ _ _ _];
    auto.
  - apply Forall_app. auto.
  - rewrite Heq in Hboard. apply Forall_app in Hboard. destruct Hboard as [H1 H2].
    inversion H2; subst. rewrite !Forall_app. auto.
Qed.

Lemma admit_all_defined (writable : bool) (results : list RunResult)
    (self : DataHandling) (top_n : Z) :
  (1 <= top_n)%Z ->
  Forall (fun x => null_objective x = false) (get_top_results self) ->
  Forall (fun x => null_objective x = false) results ->
  snd (admit_all writable self results top_n) = Return tt.
Proof.
  intros Hn. revert self.
  induction results as [|r results IH]; intros self Hboard Hres; simpl; auto.
  inversion Hres; subst.
  pose proof (add_result_keeps_numbers writable self r top_n H1 Hboard) as Hk.
  destruct (update_top_results_defined (data self) r top_n Hn H1 Hboard) as [l' Hl'].
  unfold add_result in *. rewrite Hl' in *. simpl in *. auto.
Qed.

(** C1.  Whatever results are handed to [add_result] one after the other
    with capacity [top_n], and however far the run gets, the board left
    behind holds at most [top_n] entries and is in ascending order of
    objective, an entry without a numeric objective ranking as +infinity;
    and with objectives that are numbers or missing every admission goes
    through. *)
Theorem top_results_bounded_and_sorted (writable : bool) (top_n : Z)
    (results : list RunResult) (self : DataHandling) :
  within_capacity top_n (get_top_results self) ->
  sorted_by_objective (get_top_results self) ->
  (forall admitted rest, results = admitted ++ rest ->
     within_capacity top_n
       (get_top_results (fst (admit_all writable self admitted top_n)))
     /\ sorted_by_objective
          (get_top_results (fst (admit_all writable self admitted top_n))))
  /\ ((1 <= top_n)%Z ->
      Forall (fun r => null_objective r = false) (get_top_results self ++ results) ->
      snd (admit_all writable self results top_n) = Return tt).
Proof.
  intros Hcap Hsorted. split.
  - intros admitted rest _. now apply admit_all_invariant.
  - intros Hn Hall. apply Forall_app in Hall. destruct Hall.
    now apply admit_all_defined.
Qed.

(** Four results into a board of capacity 3, the last with the lowest
    objective: three are kept, the worst is gone, the last one leads. *)
Example lowest_objective_takes_first_place :
  get_top_results
    (fst (admit_all true constructed
            [ sample_result "run_001" (Some (PyFloat (-1)));
              sample_result "run_002" (Some (PyFloat 4));
              sample_result "run_003" (Some (PyFloat 2));
              sample_result "run_004" (Some (PyFloat (-5))) ] 3))
  = [ sample_result "run_004" (Some (PyFloat (-5)));
      sample_result "run_001" (Some (PyFloat (-1)));
      sample_result "run_003" (Some (PyFloat 2)) ].
Proof. reflexivity. Qed.

Lemma top_results_bounded_and_sorted_witness :
  (forall admitted rest,
     [ sample_result "a" (Some (PyFloat 3)); sample_result "b" None;
       sample_result "c" (Some (PyFloat (-2))) ] = admitted ++ rest ->
     within_capacity 2
       (get_top_results (fst (admit_all true constructed admitted 2)))
     /\ sorted_by_objective
          (get_top_results (fst (admit_all true constructed admitted 2))))
  /\ ((1 <= 2)%Z ->
      Forall (fun r => null_objective r = false)
        (get_top_results constructed ++
         [ sample_result "a" (Some (PyFloat 3)); sample_result "b" None;
           sample_result "c" (Some (PyFloat (-2))) ]) ->
      snd (admit_all true constructed
             [ sample_result "a" (Some (PyFloat 3)); sample_result "b" None;
               sample_result "c" (Some (PyFloat (-2))) ] 2) = Return tt).
Proof.
  apply (top_results_bounded_and_sorted true 2
           [ sample_result "a" (Some (PyFloat 3)); sample_result "b" None;
             sample_result "c" (Some (PyFloat (-2))) ] constructed).
  - unfold within_capacity. simpl. lia.
  - constructor.
Defined.

(** X21.  A call of [update_top_results] that returns has admitted the
    candidate exactly when the board held fewer than [top_n] entries or
    the candidate ranks strictly below the worst entry (the first entry of
    greatest objective, a missing objective counting as +infinity): under
    capacity the result is the board plus the candidate; at capacity and
    strictly better, the result is the board without that one worst entry
    plus the candidate; at capacity otherwise the result holds the entries
    of the board, and is the board itself when this was in order.  With
    [top_n >= 1] and objectives that are numbers or missing the call does
    return. *)
Theorem update_top_results_admission_rule (st : LeaderBoardState)
    (new_result : RunResult) (top_n : Z) :
  (forall l',
     update_top_results st new_result top_n = Return l' ->
     ((Z.of_nat (List.length (top_results st)) < top_n)%Z ->
      Permutation l' (new_result :: top_results st))
     /\ ((top_n <= Z.of_nat (List.length (top_results st)))%Z ->
         exists before worst after,
           top_results st = before ++ worst :: after
           /\ Forall (fun x => rank_lt x worst) before
           /\ Forall (fun x => rank_le x worst) after
           /\ (rank_lt new_result worst ->
               Permutation l' (new_result :: before ++ after))
           /\ (rank_le worst new_result ->
               Permutation l' (top_results st)
               /\ (sorted_by_objective (top_results st) -> l' = top_results st))))
  /\ ((1 <= top_n)%Z ->
      null_objective new_result = false ->
      Forall (fun r => null_objective r = false) (top_results st) ->
      exists l', update_top_results st new_result top_n = Return l').
Proof.
  split; [ | apply update_top_results_defined ].
  intros l' H.
  destruct (update_top_results_admission _ _ _ _ H) as (updated & Hadm & Hsort).
  destruct (py_sort_spec _ _ Hsort) as [Hs Hp].
  destruct Hadm as [Hlt | before after worst Hge Heq Hb Ha Hbetter
                        | before after worst Hge Heq Hb Ha Hworse].
  - split; [ intros _ | lia ].
    rewrite Hp. symmetry. apply Permutation_cons_append.
  - split; [ lia | intros _ ].
    exists before, worst, after. repeat split; auto.
    + intros _. rewrite Hp, app_assoc. symmetry. apply Permutation_cons_append.
    + contradiction.
    + contradiction.
  - split; [ lia | intros _ ].
    exists before, worst, after. repeat split; auto.
    + intros Hbetter. contradiction.
    + intros Hsorted. now apply py_sort_sorted.
Qed.

(** The rule at work on a full board of two: a candidate between the two
    entries takes the place of the worse one; a candidate worse than
    both, or without objective, changes nothing. *)
Example better_candidate_evicts_the_worst :
  update_top_results (mkState sample_board [])
    (sample_result "run_003" (Some (PyFloat (-2)))) 2
  = Return [ sample_result "run_001" (Some (PyFloat (-3)));
             sample_result "run_003" (Some (PyFloat (-2))) ].
Proof. reflexivity. Qed.

Example worse_candidate_is_rejected :
  update_top_results (mkState sample_board [])
    (sample_result "run_003" (Some (PyFloat 5))) 2 = Return sample_board
  /\ update_top_results (mkState sample_board []) (sample_result "run_003" None) 2
     = Return sample_board.
Proof. split; reflexivity. Qed.

Lemma update_top_results_admission_rule_witness :
  exists before worst after,
    sample_board = before ++ worst :: after
    /\ Forall (fun x => rank_lt x worst) before
    /\ Forall (fun x => rank_le x worst) after
    /\ (rank_lt (sample_result "run_003" (Some (PyFloat (-2)))) worst ->
        Permutation [ sample_result "run_001" (Some (PyFloat (-3)));
                      sample_result "run_003" (Some (PyFloat (-2))) ]
          (sample_result "run_003" (Some (PyFloat (-2))) :: before ++ after))
    /\ (rank_le worst (sample_result "run_003" (Some (PyFloat (-2)))) ->
        Permutation [ sample_result "run_001" (Some (PyFloat (-3)));
                      sample_result "run_003" (Some (PyFloat (-2))) ] sample_board
        /\ (sorted_by_objective sample_board ->
            [ sample_result "run_001" (Some (PyFloat (-3)));
              sample_result "run_003" (Some (PyFloat (-2))) ] = sample_board)).
Proof.
  refine (proj2 (proj1 (update_top_results_admission_rule (mkState sample_board [])
                          (sample_result "run_003" (Some (PyFloat (-2)))) 2)
                   _ eq_refl) _).
  simpl. lia.
Defined.

(** C2.  The admission rule is not what the code does with a candidate
    whose [objective] key holds [None], the dict [parse_log_file] builds
    for a result line without an objective and the one the rule ranks
    as +infinity.  On a board of two entries with numeric objectives:
    with capacity 3 the candidate is not admitted although the board is
    under capacity, and with capacity 2 the board is not returned
    unchanged although the candidate is not better than the worst
    entry; both calls raise [TypeError], the first in the final sort,
    the second in the comparison with the worst entry. *)
Theorem none_objective_breaks_the_admission_rule :
  exists r,
    LogExtractor.extract_data (LogExtractor.LogText log_without_objective)
      (run_directory "run_003") = Return r
    /\ objective r = Some PyNone
    /\ (Z.of_nat (List.length sample_board) < 3)%Z
    /\ update_top_results (mkState sample_board []) r 3
       = Raise (TypeError
                  "'<' not supported between instances of 'NoneType' and 'float'")
    /\ (2 <= Z.of_nat (List.length sample_board))%Z
    /\ Forall (fun x => rank_le x r) sample_board
    /\ update_top_results (mkState sample_board []) r 2
       = Raise (TypeError
                  "'<' not supported between instances of 'NoneType' and 'float'").
Proof.
  eexists. split; [ vm_compute; reflexivity | ].
  split; [ reflexivity | ].
  split; [ simpl; lia | ].
  split; [ vm_compute; reflexivity | ].
  split; [ simpl; lia | ].
  split; [ repeat constructor | vm_compute; reflexivity ].
Qed.

(** C9.  With capacity 1 and a board of one entry whose [objective] key
    holds [None] (the dict [parse_log_file] builds for a result line
    without an objective), [update_top_results] does not return: the
    comparison of the candidate with that entry raises [TypeError].
    The empty-sequence error of [max] is indeed out of reach for
    [top_n >= 1] ([update_top_results_raises]), and the call returns for
    objectives that are numbers or missing ([update_top_results_defined]). *)
Theorem update_top_results_null_objective_raises :
  within_capacity 1 [sample_result "run_001" (Some PyNone)]
  /\ update_top_results
       (mkState [sample_result "run_001" (Some PyNone)] [])
       (sample_result "run_002" (Some (PyFloat (-1)))) 1
     = Raise (TypeError
                "'<' not supported between instances of 'float' and 'NoneType'").
Proof. split; [ unfold within_capacity; simpl; lia | reflexivity ]. Qed.

(** C10.  [record_failure] appends exactly one record to [failed_runs]
    and leaves [top_results] as it was; [add_result] leaves [failed_runs]
    as it was and puts the list computed by [update_top_results] in
    [top_results] (and changes nothing at all when that call raises). *)
Theorem mutators_touch_disjoint_fields (writable : bool) (now : string)
    (self : DataHandling) (run_id : Z) (e : exn) (result : RunResult) (top_n : Z) :
  (failed_runs (data (record_failure writable now self run_id e))
     = failed_runs (data self)
       ++ [mkFailureRecord run_id now (Py.str e) (Py.type_name e)]
   /\ top_results (data (record_failure writable now self run_id e))
      = top_results (data self))
  /\ (failed_runs (data (fst (add_result writable self result top_n)))
        = failed_runs (data self)
      /\ match update_top_results (data self) result top_n with
         | Return top =>
             top_results (data (fst (add_result writable self result top_n))) = top
             /\ snd (add_result writable self result top_n) = Return tt
         | Raise e' =>
             add_result writable self result top_n = (self, Raise e')
         end).
Proof.
  unfold record_failure, add_result.
  rewrite save_data_data. simpl. repeat split.
  - destruct (update_top_results _ _ _); simpl; auto. now rewrite save_data_data.
  - destruct (update_top_results _ _ _); simpl; auto. now rewrite save_data_data.
Qed.

(** ** Persistence *)

(** C3, as stated: the state in use after start is the stored one
    whenever the file holds a decodable document.  It is not: the
    constructor removes the file before it loads. *)
Lemma stored_board_not_reloaded_at_start :
  ~ (forall d : LeaderBoardState,
       exists self,
         init (Some (Document d)) None None = Return self /\ data self = d).
Proof.
  intros H. destruct (H (mkState sample_board [])) as (self & Hinit & Hdata).
  injection Hinit as <-. discriminate Hdata.
Qed.

(** C3, amended.  [load_data] yields the stored state when the file is
    there and holds one, and the fresh empty state when the file is
    missing or when reading or parsing it raises an [OSError] or a
    [JSONDecodeError]; anything else that reading or parsing raises (the
    [UnicodeDecodeError] of a file that is no text, for one) and what
    the test for the file raises are not caught, and it raises in no
    other case.  Every mutation that can write leaves the whole state in
    the one file, from which [load_data] reads it back.  The constructor
    removes the file first, so that the state in use after start is
    always the fresh empty one and no file is left; the constructor
    returns unless testing for the file, removing it or clearing the
    results folder raises. *)
Theorem load_or_fresh_and_clean_start (file : option FileContent)
    (d : LeaderBoardState) (self : DataHandling) (now : string) (run_id : Z)
    (e : exn) (result : RunResult) (top_n : Z) :
  (load_data (Some (Document d)) = Return d
   /\ load_data None = Return fresh_state
   /\ (forall name msg,
         load_data (Some (Unloadable (OSError name msg))) = Return fresh_state)
   /\ (forall msg,
         load_data (Some (Unloadable (JSONDecodeError msg))) = Return fresh_state)
   /\ (forall msg,
         load_data (Some (Unloadable (UnicodeDecodeError msg)))
         = Raise (UnicodeDecodeError msg))
   /\ (forall e0,
         is_OSError e0 = false -> is_JSONDecodeError e0 = false ->
         load_data (Some (Unloadable e0)) = Raise e0)
   /\ (forall e0, load_data (Some (NoAccess e0)) = Raise e0))
  /\ ((forall st,
         load_data file = Return st -> file = Some (Document st) \/ st = fresh_state)
      /\ (forall e',
            load_data file = Raise e' ->
            file = Some (NoAccess e')
            \/ (file = Some (Unloadable e')
                /\ is_OSError e' = false /\ is_JSONDecodeError e' = false)))
  /\ (load_data (results_file (save_data true self)) = Return (data self)
      /\ load_data (results_file (record_failure true now self run_id e))
         = Return (data (record_failure true now self run_id e))
      /\ (snd (add_result true self result top_n) = Return tt ->
          load_data (results_file (fst (add_result true self result top_n)))
          = Return (data (fst (add_result true self result top_n)))))
  /\ ((forall unlink_raises clear_raises self',
         init file unlink_raises clear_raises = Return self' -> self' = constructed)
      /\ ((forall e0, file <> Some (NoAccess e0)) ->
          init file None None = Return constructed)
      /\ (forall unlink_raises clear_raises e',
            init file unlink_raises clear_raises = Raise e' ->
            file = Some (NoAccess e')
            \/ (file <> None /\ unlink_raises = Some e')
            \/ clear_raises = Some e')
      /\ data constructed = fresh_state /\ results_file constructed = None).
Proof.
  split; [ repeat split | ].
  { intros e0 H1 H2. simpl. now rewrite H1, H2. }
  split; [ split | ].
  - intros st H. destruct file as [[e0|e0|d']|]; simpl in H.
    + discriminate.
    + destruct (is_OSError e0 || is_JSONDecodeError e0); [ | discriminate ].
      injection H as <-. auto.
    + injection H as <-. auto.
    + injection H as <-. auto.
  - intros e' H. destruct file as [[e0|e0|d']|]; simpl in H.
    + injection H as <-. auto.
    + destruct (is_OSError e0 || is_JSONDecodeError e0) eqn:E; [ discriminate | ].
      injection H as <-. apply orb_false_iff in E. auto.
    + discriminate.
    + discriminate.
  - split; [ repeat split; auto | ].
    + unfold add_result.
      destruct (update_top_results _ _ _); simpl; auto. discriminate.
    + split; [ | split; [ | split; [ | split; reflexivity ] ] ].
      * intros [u|] [c|] self' H; destruct file as [[e0|e0|d']|]; simpl in H;
          try discriminate; now injection H as <-.
      * intros Hfile. destruct file as [[e0|e0|d']|]; try reflexivity.
        exfalso. now apply (Hfile e0).
      * intros [u|] [c|] e' H; destruct file as [[e0|e0|d']|]; simpl in H;
          try discriminate; injection H as <-; auto;
          right; left; (split; [ discriminate | reflexivity ]).
Qed.

Lemma load_or_fresh_and_clean_start_witness :
  (load_data (Some (Document (mkState sample_board [])))
   = Return (mkState sample_board [])
   /\ load_data None = Return fresh_state
   /\ (forall name msg,
         load_data (Some (Unloadable (OSError name msg))) = Return fresh_state)
   /\ (forall msg,
         load_data (Some (Unloadable (JSONDecodeError msg))) = Return fresh_state)
   /\ (forall msg,
         load_data (Some (Unloadable (UnicodeDecodeError msg)))
         = Raise (UnicodeDecodeError msg))
   /\ (forall e0,
         is_OSError e0 = false -> is_JSONDecodeError e0 = false ->
         load_data (Some (Unloadable e0)) = Raise e0)
   /\ (forall e0, load_data (Some (NoAccess e0)) = Raise e0))
  /\ ((forall st,
         load_data (Some (Unloadable (UnicodeDecodeError "invalid start byte")))
         = Return st ->
         Some (Unloadable (UnicodeDecodeError "invalid start byte"))
         = Some (Document st)
         \/ st = fresh_state)
      /\ (forall e',
            load_data (Some (Unloadable (UnicodeDecodeError "invalid start byte")))
            = Raise e' ->
            Some (Unloadable (UnicodeDecodeError "invalid start byte"))
            = Some (NoAccess e')
            \/ (Some (Unloadable (UnicodeDecodeError "invalid start byte"))
                = Some (Unloadable e')
                /\ is_OSError e' = false /\ is_JSONDecodeError e' = false)))
  /\ (load_data (results_file (save_data true constructed))
      = Return (data constructed)
      /\ load_data
           (results_file (record_failure true "t" constructed 1 (RuntimeError "r")))
         = Return (data (record_failure true "t" constructed 1 (RuntimeError "r")))
      /\ (snd (add_result true constructed (sample_result "a" None) 2) = Return tt ->
          load_data
            (results_file (fst (add_result true constructed (sample_result "a" None) 2)))
          = Return (data (fst (add_result true constructed (sample_result "a" None) 2)))))
  /\ ((forall unlink_raises clear_raises self',
         init (Some (Unloadable (UnicodeDecodeError "invalid start byte")))
           unlink_raises clear_raises = Return self' ->
         self' = constructed)
      /\ ((forall e0,
             Some (Unloadable (UnicodeDecodeError "invalid start byte"))
             <> Some (NoAccess e0)) ->
          init (Some (Unloadable (UnicodeDecodeError "invalid start byte"))) None None
          = Return constructed)
      /\ (forall unlink_raises clear_raises e',
            init (Some (Unloadable (UnicodeDecodeError "invalid start byte")))
              unlink_raises clear_raises = Raise e' ->
            Some (Unloadable (UnicodeDecodeError "invalid start byte"))
            = Some (NoAccess e')
            \/ (Some (Unloadable (UnicodeDecodeError "invalid start byte")) <> None
                /\ unlink_raises = Some e')
            \/ clear_raises = Some e')
      /\ data constructed = fresh_state /\ results_file constructed = None).
Proof.
  exact (load_or_fresh_and_clean_start
           (Some (Unloadable (UnicodeDecodeError "invalid start byte")))
           (mkState sample_board []) constructed "t" 1 (RuntimeError "r")
           (sample_result "a" None) 2).
Defined.

(** A file that is no text: [load_data] raises, while the constructor,
    which removes the file before it loads, returns. *)
Example load_data_lets_a_decoding_error_through :
  load_data (Some (Unloadable (UnicodeDecodeError "invalid start byte")))
  = Raise (UnicodeDecodeError "invalid start byte")
  /\ init (Some (Unloadable (UnicodeDecodeError "invalid start byte"))) None None
     = Return constructed.
Proof. split; reflexivity. Qed.

(* ================================================================== *)
(** * Properties of the extractor *)
(* ================================================================== *)

Import Text Regex LogExtractor.

(** ** Lines and the marker *)

Lemma prefix_app_sep (sub a b : string) (c : ascii) :
  free_of c sub = true ->
  String.prefix sub (a ++ String c b)%string = true ->
  String.prefix sub a = true.
Proof.
  revert a. induction sub as [|x sub IH]; intros a Hfree H.
  - now destruct a.
  - simpl in Hfree. apply andb_true_iff in Hfree. destruct Hfree as [Hx Hfree].
    destruct a as [|y a]; simpl in *.
    + destruct (Ascii.ascii_dec x c) as [->|Hne]; [ | easy ].
      rewrite Ascii.eqb_refl in Hx. discriminate.
    + destruct (Ascii.ascii_dec x y); [ | easy ]. auto.
Qed.

Lemma contains_empty (s : string) : contains EmptyString s = true.
Proof. destruct s; reflexivity. Qed.

Lemma contains_cons (sub : string) (c : ascii) (s : string) :
  contains sub (String c s) = String.prefix sub (String c s) || contains sub s.
Proof.
  change (contains sub (String c s))
    with (if String.prefix sub (String c s) then true else contains sub s).
  now destruct (String.prefix sub (String c s)).
Qed.

Lemma contains_app_sep (sub a b : string) (c : ascii) :
  free_of c sub = true ->
  contains sub (a ++ String c b)%string = true ->
  contains sub a = true \/ contains sub b = true.
Proof.
  intros Hfree. induction a as [|y a IH]; intros H.
  - change (contains sub (String c b) = true) in H.
    rewrite contains_cons in H. apply orb_true_iff in H. destruct H as [H|H]; auto.
    left. apply (prefix_app_sep sub EmptyString b c Hfree) in H.
    destruct sub; [ reflexivity | discriminate ].
  - change (contains sub (String y (a ++ String c b)) = true) in H.
    rewrite contains_cons in H. apply orb_true_iff in H. destruct H as [H|H].
    + left. rewrite contains_cons.
      apply (prefix_app_sep sub (String y a) b c Hfree) in H. now rewrite H.
    + destruct (IH H) as [Ha|Hb]; auto.
      left. rewrite contains_cons, Ha. apply orb_true_r.
Qed.

Lemma prefix_single (a b : ascii) (s : string) :
  String.prefix (String a EmptyString) (String b s) = Ascii.eqb a b.
Proof.
  change (String.prefix (String a EmptyString) (String b s))
    with (match Ascii.ascii_dec a b with
          | left _ => String.prefix EmptyString s
          | right _ => false
          end).
  destruct (Ascii.ascii_dec a b) as [->|Hne].
  - rewrite Ascii.eqb_refl. now destruct s.
  - symmetry. now apply Ascii.eqb_neq.
Qed.

Lemma split_loop_newline (cur : string) (c : ascii) (s : string) :
  split_loop newline 0 cur (String c s)
  = if Ascii.eqb c "010" then cur :: split_loop newline 0 EmptyString s
    else split_loop newline 0 (cur ++ String c EmptyString) s.
Proof.
  change (split_loop newline 0 cur (String c s))
    with (if String.prefix newline (String c s)
          then cur :: split_loop newline (String.length newline - 1) EmptyString s
          else split_loop newline 0 (cur ++ String c EmptyString) s).
  unfold newline at 1. rewrite prefix_single, Ascii.eqb_sym. reflexivity.
Qed.

Lemma append_assoc' (a b c : string) : ((a ++ b) ++ c = a ++ (b ++ c))%string.
Proof. induction a; simpl; congruence. Qed.

Lemma append_nil_r (a : string) : (a ++ EmptyString)%string = a.
Proof. induction a; simpl; congruence. Qed.

(** A text free of newlines that occurs in the content occurs in one of
    its lines. *)
Lemma contains_in_a_line (sub s cur : string) :
  free_of "010" sub = true ->
  contains sub (cur ++ s)%string = true ->
  exists line, In line (split_loop newline 0 cur s) /\ contains sub line = true.
Proof.
  intros Hfree. revert cur. induction s as [|c s IH]; intros cur H.
  - rewrite append_nil_r in H. exists cur. simpl. auto.
  - rewrite split_loop_newline. destruct (Ascii.eqb c "010") eqn:Ec.
    + apply Ascii.eqb_eq in Ec. subst c.
      apply contains_app_sep in H; auto. destruct H as [H|H].
      * exists cur. simpl. auto.
      * destruct (IH EmptyString H) as (line & Hin & Hline).
        exists line. simpl. auto.
    + apply IH. now rewrite append_assoc'.
Qed.

Lemma first_marker_found (lines : list string) (line : string) :
  In line lines -> contains marker line = true ->
  exists i, first_marker lines = Some i.
Proof.
  induction lines as [|l lines IH]; simpl; intros Hin Hline; [ easy | ].
  destruct (contains marker l) eqn:E; eauto.
  destruct Hin as [->|Hin]; [ congruence | ].
  destruct (IH Hin Hline) as [i ->]. simpl. eauto.
Qed.

Lemma marker_in_a_line (content : string) :
  contains marker content = true ->
  exists i, first_marker (split newline content) = Some i.
Proof.
  intros H.
  destruct (contains_in_a_line marker content EmptyString) as (line & Hin & Hline);
    auto.
  eapply first_marker_found; eauto.
Qed.

Lemma find_best_result_line_first (pending pre : list string) :
  find_best_result_line (pre ++ pending) (List.length pre) pending
  = match first_marker pending with
    | Some k => nth_error (pre ++ pending) (List.length pre + k + 2)
    | None => None
    end.
Proof.
  revert pre. induction pending as [|line pending IH]; intros pre; simpl; auto.
  destruct (contains marker line) eqn:E.
  - rewrite Nat.add_0_r.
    destruct (Nat.ltb_spec (List.length pre + 2) (List.length (pre ++ line :: pending)))
      as [Hlt|Hge]; auto.
    symmetry. now apply nth_error_None.
  - specialize (IH (pre ++ [line])).
    rewrite <- app_assoc, length_app in IH. simpl in IH.
    rewrite Nat.add_1_r in IH. rewrite IH.
    destruct (first_marker pending) as [k|]; simpl; auto.
    replace (List.length pre + S k + 2)%nat with (S (List.length pre + k + 2)) by lia.
    reflexivity.
Qed.

Lemma best_result_line_is_two_below (lines : list string) :
  find_best_result_line lines 0 lines
  = match first_marker lines with
    | Some i => nth_error lines (i + 2)
    | None => None
    end.
Proof. exact (find_best_result_line_first lines []). Qed.

(** ** Failures of the extraction *)

Lemma int_raises (s : string) (e : exn) : int s = Raise e -> a_ValueError e.
Proof.
  unfold int, a_ValueError, invalid_literal, exceeds_the_limit. intros H.
  repeat match type of H with
         | match ?x with _ => _ end = _ => destruct x
         | (if ?x then _ else _) = _ => destruct x
         end; try discriminate; injection H as <-; eexists; reflexivity.
Qed.

Lemma float_raises (s : string) (e : exn) : float s = Raise e -> a_ValueError e.
Proof.
  unfold float, a_ValueError, not_a_float. intros H.
  repeat match type of H with
         | match ?x with _ => _ end = _ => destruct x
         end; try discriminate; injection H as <-; eexists; reflexivity.
Qed.

Lemma wdl_of_match_raises (found : list string) (e : exn) :
  wdl_of_match found = Raise e -> a_ValueError e.
Proof.
  unfold wdl_of_match. intros H.
  repeat match type of H with
         | Py.bind (int ?s) _ = _ =>
             let E := fresh "E" in
             destruct (int s) eqn:E; simpl in H;
             [ | injection H as <-; exact (int_raises _ _ E) ]
         end.
  discriminate.
Qed.

(** What one block does: nothing without a match, one key stored with a
    match, and no failure but that of the conversion. *)
Lemma extract_field_returns {A : Type} (pattern : regex)
    (convert : list string -> outcome A) (store : A -> Metrics -> Metrics)
    (line : string) (m m' : Metrics) :
  extract_field pattern convert store line m = Return m' ->
  (search pattern line = None /\ m' = m)
  \/ (exists found v,
        search pattern line = Some found
        /\ convert found = Return v
        /\ m' = store v m).
Proof.
  unfold extract_field. destruct (search pattern line) as [found|].
  - destruct (convert found) as [v|e] eqn:E; simpl; intros H; [ | discriminate ].
    injection H as <-. right. eauto.
  - intros H. injection H as <-. auto.
Qed.

Lemma extract_field_raises {A : Type} (pattern : regex)
    (convert : list string -> outcome A) (store : A -> Metrics -> Metrics)
    (line : string) (m : Metrics) (e : exn) :
  extract_field pattern convert store line m = Raise e ->
  exists found, search pattern line = Some found /\ convert found = Raise e.
Proof.
  unfold extract_field. destruct (search pattern line) as [found|].
  - destruct (convert found) as [v|e'] eqn:E; simpl; intros H; [ discriminate | ].
    injection H as <-. eauto.
  - discriminate.
Qed.

(** The chain of blocks, taken apart. *)
Lemma parse_result_data_returns (line : string) (m : Metrics) :
  parse_result_data line = Return m ->
  exists m1 m2 m3 m4 m5 m6 m7,
    extract_field trades_re (fun found => int (group 1 found))
      set_total_trades line empty_metrics = Return m1
    /\ extract_field wdl_re wdl_of_match
         (fun v => set_wins_draws_losses (fst v) (snd v)) line m1 = Return m2
    /\ extract_field avg_profit_re (fun found => float (group 1 found))
         set_avg_profit line m2 = Return m3
    /\ extract_field median_profit_re (fun found => float (group 1 found))
         set_median_profit line m3 = Return m4
    /\ extract_field total_profit_re (fun found => float (group 1 found))
         set_total_profit line m4 = Return m5
    /\ extract_field profit_percent_re (fun found => float (group 1 found))
         set_profit_percent line m5 = Return m6
    /\ extract_field avg_duration_re (fun found => Return (group 1 found))
         set_avg_duration line m6 = Return m7
    /\ extract_field objective_re (fun found => float (group 1 found))
         set_objective line m7 = Return m.
Proof.
  unfold parse_result_data. intros H.
  repeat match type of H with
         | Py.bind ?x _ = Return _ =>
             let E := fresh "E" in
             destruct x eqn:E; simpl in H; [ | discriminate H ]
         end.
  repeat eexists; eassumption.
Qed.

(** The only failure of [parse_result_data] is a capture that [float]
    rejects. *)
Lemma parse_result_data_raises (line : string) (e : exn) :
  parse_result_data line = Raise e -> a_ValueError e.
Proof.
  unfold parse_result_data. intros H.
  repeat match type of H with
         | Py.bind ?x _ = Raise _ =>
             let E := fresh "E" in
             destruct x eqn:E; simpl in H;
             [ clear E
             | injection H as <-; apply extract_field_raises in E;
               destruct E as (found & _ & E) ]
         end;
    try (apply extract_field_raises in H; destruct H as (found & _ & H));
    eauto using int_raises, float_raises, wdl_of_match_raises; discriminate.
Qed.

(** Taking one block apart in a hypothesis. *)
Ltac open_field E :=
  let found := fresh "found" in
  let v := fresh "v" in
  let Hs := fresh "Hsearch" in
  let Hc := fresh "Hconv" in
  apply extract_field_returns in E;
  destruct E as [[Hs ->] | (found & v & Hs & Hc & ->)].

Lemma parse_log_file_outcome (content : string) (run_dir : path) :
  parse_log_file content run_dir
  = match first_marker (split newline content) with
    | Some i =>
        match nth_error (split newline content) (i + 2) with
        | Some best_result_line =>
            if truthy best_result_line
            then
              metrics <- parse_result_data best_result_line ;;
              let metrics :=
                match recover_max_drawdown content (split newline content)
                        best_result_line with
                | Some dd => set_max_drawdown dd metrics
                | None => metrics
                end in
              Return
                (mkRunResult (path_name run_dir)
                   (match total_profit metrics with Some p => p | None => 0%Q end)
                   (Some (match m_objective metrics with
                          | Some v => PyFloat v
                          | None => PyNone
                          end))
                   (max_drawdown metrics) metrics
                   (collect_params param_sections (split newline content)))
            else Raise no_result_line
        | None => Raise no_result_line
        end
    | None => Raise no_result_line
    end.
Proof.
  unfold parse_log_file. rewrite best_result_line_is_two_below.
  destruct (first_marker _) as [i|]; auto.
  destruct (nth_error _ _) as [l|]; auto.
  now destruct (truthy l).
Qed.

Lemma no_marker_is_not_no_result_line : no_marker <> no_result_line.
Proof. discriminate. Qed.

(** C4, as stated: with the marker present and no non-blank line after
    it, the extraction fails.  It does not when the line two below the
    marker is blank without being empty: that line is taken as the
    result line and a result without any metric comes back. *)
Lemma blank_result_line_is_accepted :
  contains marker log_with_blank_result_line = true
  /\ (forall line,
        In line (skipn 1 (split newline log_with_blank_result_line)) ->
        strip line = EmptyString)
  /\ exists r,
       extract_data (LogText log_with_blank_result_line) (run_directory "run_001") = Return r
       /\ metrics r = empty_metrics.
Proof.
  split; [ reflexivity | split ].
  - simpl. intros line [<- | [<- | []]]; reflexivity.
  - eexists. split; reflexivity.
Qed.

(** C4, amended.  Without the marker ["Best result:"] in the text, [extract_data]
    fails with the no-marker error.  With the marker, some line holds it;
    counting from the first such line, the result line is the line two
    below: when that line is missing or empty, [extract_data] fails with
    the no-result-line error, a different error (both are raised as
    [RuntimeError], with different messages); when it is there and not
    empty, [extract_data] fails with neither of the two. *)
Theorem extract_data_failures (content : string) (run_dir : path) :
  (contains marker content = false ->
   extract_data (LogText content) run_dir = Raise no_marker)
  /\ (contains marker content = true ->
      exists i,
        first_marker (split newline content) = Some i
        /\ ((nth_error (split newline content) (i + 2) = None
             \/ nth_error (split newline content) (i + 2) = Some EmptyString) ->
            extract_data (LogText content) run_dir = Raise no_result_line)
        /\ (forall line,
              nth_error (split newline content) (i + 2) = Some line ->
              line <> EmptyString ->
              (exists r, extract_data (LogText content) run_dir = Return r)
              \/ raises_ValueError (extract_data (LogText content) run_dir)))
  /\ (no_marker <> no_result_line
      /\ is_RuntimeError no_marker = true
      /\ is_RuntimeError no_result_line = true).
Proof.
  split; [ | split ].
  - intros H. unfold extract_data. now rewrite H.
  - intros H. destruct (marker_in_a_line content H) as [i Hi].
    exists i. split; auto.
    unfold extract_data. rewrite H. simpl negb. cbv iota.
    rewrite parse_log_file_outcome, Hi. split.
    + intros [-> | ->]; reflexivity.
    + intros line -> Hline.
      destruct line as [|c line]; [ congruence | ]. simpl truthy. cbv iota.
      destruct (parse_result_data (String c line)) as [m|e] eqn:E; simpl.
      * left. eauto.
      * right. destruct (parse_result_data_raises _ _ E) as [msg ->]. now exists msg.
  - repeat split. discriminate.
Qed.

(** ** Max drawdown *)





(** The three strategies on sample texts. *)
Example drawdown_placeholder_in_table :
  exists r, extract_data (LogText sample_log) (run_directory "run_001") = Return r
            /\ drawdown r = Some "0.000 USDT (0.00%)".
Proof. eexists. split; vm_compute; reflexivity. Qed.

Example drawdown_strict_pattern :
  recover_max_drawdown "Max drawdown: 1.5 USDT (2.0%)" [] "10 trades"
  = Some "1.5 USDT (2.0%)".
Proof. vm_compute. reflexivity. Qed.

Example drawdown_loose_pattern :
  recover_max_drawdown "Max drawdown 12.5" [] "10 trades" = Some "12.5".
Proof. vm_compute. reflexivity. Qed.

(** ** Metrics of the result line *)

Lemma int_loop_nonneg (s : string) (acc z : Z) :
  (0 <= acc)%Z -> int_loop acc s = Some z -> (0 <= z)%Z.
Proof.
  revert acc. induction s as [|c s IH]; simpl; intros acc Hacc H.
  - injection H as <-. auto.
  - destruct (is_digit c) eqn:Ed; [ | discriminate ].
    unfold is_digit in Ed. apply andb_true_iff in Ed. destruct Ed as [Ed _].
    apply Nat.leb_le in Ed.
    apply (IH (10 * acc + digit_value c)%Z); auto.
    unfold digit_value. lia.
Qed.

Lemma int_nonneg (s : string) (z : Z) : int s = Return z -> (0 <= z)%Z.
Proof.
  unfold int. destruct s as [|c s]; [ discriminate | ].
  destruct (int_loop 0 (String c s)) as [n|] eqn:E; [ | discriminate ].
  destruct (int_max_str_digits <? _)%Z; intros H; [ discriminate | ].
  injection H as <-. eapply int_loop_nonneg; eauto. lia.
Qed.

(** The win rate is wins over wins + draws + losses, and 0 when there
    are none. *)
Lemma wdl_of_match_rate (found : list string) (text : string) (rate : Q) :
  wdl_of_match found = Return (text, rate) ->
  exists wins draws losses,
    int (group 1 found) = Return wins
    /\ int (group 2 found) = Return draws
    /\ int (group 3 found) = Return losses
    /\ (0 <= wins /\ 0 <= draws /\ 0 <= losses)%Z
    /\ ((wins + draws + losses = 0)%Z -> rate = 0%Q)
    /\ ((wins + draws + losses <> 0)%Z ->
        rate = (inject_Z wins / inject_Z (wins + draws + losses))%Q).
Proof.
  unfold wdl_of_match. intros H.
  destruct (int (group 1 found)) as [wins|] eqn:E1; simpl in H; [ | discriminate ].
  destruct (int (group 2 found)) as [draws|] eqn:E2; simpl in H; [ | discriminate ].
  destruct (int (group 3 found)) as [losses|] eqn:E3; simpl in H; [ | discriminate ].
  injection H as _ <-.
  pose proof (int_nonneg _ _ E1) as Hw. pose proof (int_nonneg _ _ E2) as Hd.
  pose proof (int_nonneg _ _ E3) as Hl.
  exists wins, draws, losses. repeat split; auto.
  - intros Hzero. rewrite Hzero. reflexivity.
  - intros Hne.
    destruct (Z.gtb_spec (wins + draws + losses) 0) as [Hgt|Hle]; [ reflexivity | lia ].
Qed.

(** Every key holds what its own block reads, whatever the others find. *)
Lemma parse_result_data_fields (line : string) (m : Metrics) :
  parse_result_data line = Return m ->
  total_trades m = read trades_re (fun found => int (group 1 found)) line
  /\ wins_draws_losses m = option_map fst (read wdl_re wdl_of_match line)
  /\ win_rate m = option_map snd (read wdl_re wdl_of_match line)
  /\ avg_profit m = read avg_profit_re (fun found => float (group 1 found)) line
  /\ median_profit m = read median_profit_re (fun found => float (group 1 found)) line
  /\ total_profit m = read total_profit_re (fun found => float (group 1 found)) line
  /\ profit_percent m = read profit_percent_re (fun found => float (group 1 found)) line
  /\ avg_duration m = read avg_duration_re (fun found => Return (group 1 found)) line
  /\ m_objective m = read objective_re (fun found => float (group 1 found)) line
  /\ max_drawdown m = None.
Proof.
  intros H. apply parse_result_data_returns in H.
  destruct H as (m1 & m2 & m3 & m4 & m5 & m6 & m7 & E1 & E2 & E3 & E4 & E5 & E6 & E7 & E8).
  unfold read.
  open_field E8; open_field E7; open_field E6; open_field E5; open_field E4;
    open_field E3; open_field E2; open_field E1;
    cbv beta in *;
    repeat match goal with
           | Hc : Return _ = Return _ |- _ => injection Hc as <-
           | Hs : search _ _ = _ |- _ => rewrite Hs; clear Hs
           | Hc : _ = Return _ |- _ => rewrite Hc; clear Hc
           end;
    repeat split.
Qed.

(** ** What a pattern can capture *)

Lemma match_here_cons (it : item) (re : regex) (s : string) :
  match_here (it :: re) s = match_item it (match_here re) s.
Proof.
  unfold match_item. cbn [match_here].
  match goal with
  | |- context [ option_map _ (?F s) ] => set (G := F)
  end.
  assert (HG : forall t, G t = greedy (set it) (match_here re) t).
  { induction t as [|c t IH]; [ reflexivity | ].
    subst G. cbn [greedy]. cbn beta iota.
    destruct (mem c (set it)); [ | reflexivity ].
    rewrite <- IH. reflexivity. }
  destruct (repeat it).
  - reflexivity.
  - destruct s as [|c s]; [ reflexivity | ].
    destruct (mem c (set it)); [ | reflexivity ].
    now rewrite HG.
  - now rewrite HG.
Qed.

Lemma greedy_groups (cs : cset) (k : string -> option (list string)) (s w : string)
    (groups : list string) :
  greedy cs k s = Some (w, groups) ->
  all_in cs w = true /\ exists s', k s' = Some groups.
Proof.
  revert w. induction s as [|c s IH]; intros w H; simpl in H.
  - destruct (k EmptyString) as [gs|] eqn:E; [ | discriminate ].
    injection H as <- <-. eauto.
  - assert (Hstop : option_map (pair EmptyString) (k (String c s)) = Some (w, groups) ->
                    all_in cs w = true /\ exists s', k s' = Some groups).
    { destruct (k (String c s)) as [gs|] eqn:E; [ | discriminate ].
      intros H'. injection H' as <- <-. eauto. }
    destruct (mem c cs) eqn:Ec; auto.
    destruct (greedy cs k s) as [[w' gs]|] eqn:E; auto.
    injection H as <- <-. destruct (IH w' eq_refl) as [Hw Hk].
    simpl. rewrite Ec, Hw. auto.
Qed.

Lemma match_here_groups (re : regex) (s : string) (groups : list string) :
  match_here re s = Some groups ->
  Forall2 captured (filter captures re) groups.
Proof.
  revert s groups. induction re as [|it re IH]; intros s groups H.
  - simpl in H. injection H as <-. constructor.
  - rewrite match_here_cons in H. unfold match_item in H.
    assert (Hgroup : forall w gs s',
              match_here re s' = Some gs ->
              all_in (set it) w = true ->
              (repeat it = Star \/ w <> EmptyString) ->
              Forall2 captured (filter captures (it :: re))
                (record_group (captures it) w gs)).
    { intros w gs s' Hk Hw Hne. simpl. unfold record_group.
      destruct (captures it); [ constructor; [ split; auto | ] | ]; eauto. }
    destruct (repeat it) eqn:Er.
    + destruct s as [|c s]; [ discriminate | ].
      destruct (mem c (set it)) eqn:Ec; [ | discriminate ].
      destruct (match_here re s) as [gs|] eqn:Ek; [ | discriminate ].
      injection H as <-. apply (Hgroup _ _ s); auto.
      * simpl. now rewrite Ec.
      * right. discriminate.
    + destruct s as [|c s]; [ discriminate | ].
      destruct (mem c (set it)) eqn:Ec; [ | discriminate ].
      destruct (greedy (set it) (match_here re) s) as [[w gs]|] eqn:Eg;
        [ | discriminate ].
      injection H as <-. destruct (greedy_groups _ _ _ _ _ Eg) as [Hw [s' Hk]].
      apply (Hgroup _ _ s'); auto.
      * simpl. now rewrite Ec, Hw.
      * right. discriminate.
    + destruct (greedy (set it) (match_here re) s) as [[w gs]|] eqn:Eg;
        [ | discriminate ].
      injection H as <-. destruct (greedy_groups _ _ _ _ _ Eg) as [Hw [s' Hk]].
      apply (Hgroup _ _ s'); auto.
Qed.

Lemma search_groups (re : regex) (s : string) (groups : list string) :
  search re s = Some groups ->
  Forall2 captured (filter captures re) groups.
Proof.
  induction s as [|c s IH]; simpl; intros H.
  - destruct (match_here re EmptyString) eqn:E; [ | discriminate ].
    injection H as <-. eapply match_here_groups; eauto.
  - destruct (match_here re (String c s)) eqn:E.
    + injection H as <-. eapply match_here_groups; eauto.
    + auto.
Qed.

(** ** What [int] and [float] do with such captures *)

Lemma int_loop_digits (s : string) (acc : Z) :
  all_in Digit s = true -> exists n, int_loop acc s = Some n.
Proof.
  revert acc. induction s as [|c s IH]; intros acc H; simpl in *; eauto.
  apply andb_true_iff in H. destruct H as [Hc Hs]. rewrite Hc. auto.
Qed.

(** [int] of a run of digits: refused above the limit, a natural number
    otherwise. *)
Lemma int_of_digits (s : string) :
  s <> EmptyString -> all_in Digit s = true ->
  if (int_max_str_digits <? Z.of_nat (String.length s))%Z
  then int s = Raise (exceeds_the_limit s)
  else exists n, int s = Return n /\ (0 <= n)%Z.
Proof.
  intros Hne Hd. destruct (int_loop_digits s 0 Hd) as [n Hn].
  assert (Hint : int s
                 = if (int_max_str_digits <? Z.of_nat (String.length s))%Z
                   then Raise (exceeds_the_limit s) else Return n).
  { unfold int. destruct s; [ congruence | ]. now rewrite Hn. }
  revert Hint.
  destruct (int_max_str_digits <? Z.of_nat (String.length s))%Z; intros Hint; auto.
  exists n. split; auto. eapply int_nonneg; eauto.
Qed.

Lemma int_raises_cause (g : string) (e : exn) :
  g <> EmptyString -> all_in Digit g = true -> int g = Raise e ->
  over_the_digit_limit g /\ e = exceeds_the_limit g.
Proof.
  intros Hne Hd H. pose proof (int_of_digits g Hne Hd) as Hi.
  unfold over_the_digit_limit.
  destruct (Z.ltb_spec int_max_str_digits (Z.of_nat (String.length g))) as [Hlt|Hle].
  - split; auto. congruence.
  - destruct Hi as (n & Hn & _). congruence.
Qed.

Lemma float_loop_nonneg (s : string) (seen_point seen_digit : bool) (num : Z)
    (scale : positive) (q : Q) :
  (0 <= num)%Z ->
  float_loop seen_point seen_digit num scale s = Some q -> (0 <= q)%Q.
Proof.
  revert seen_point seen_digit num scale.
  induction s as [|c s IH]; intros sp sd num scale Hnum H; cbn [float_loop] in H.
  - destruct sd; [ | discriminate ]. injection H as <-.
    unfold Qle. simpl. lia.
  - destruct (is_digit c) eqn:Ed.
    + refine (IH _ _ _ _ _ H).
      unfold is_digit in Ed. apply andb_true_iff in Ed. destruct Ed as [Ed _].
      apply Nat.leb_le in Ed. unfold digit_value. lia.
    + destruct (Ascii.eqb c "."); [ | discriminate ].
      destruct sp; [ discriminate | ]. eapply IH; eauto.
Qed.

Lemma float_unsigned (c : ascii) (s : string) :
  c <> "-"%char ->
  float (String c s)
  = match float_loop false false 0 1 (String c s) with
    | Some q => Return q
    | None => Raise (not_a_float (String c s))
    end.
Proof.
  intros Hc. unfold float.
  destruct c as [[] [] [] [] [] [] [] []]; try reflexivity. congruence.
Qed.

Lemma float_of_unsigned (s : string) (q : Q) :
  all_in digit_or_point s = true -> float s = Return q -> (0 <= q)%Q.
Proof.
  intros Hs H. destruct s as [|c s]; [ discriminate | ].
  rewrite float_unsigned in H.
  - destruct (float_loop false false 0 1 (String c s)) as [q'|] eqn:E;
      [ | discriminate ].
    injection H as <-. eapply float_loop_nonneg; [ | exact E ]. lia.
  - intros ->. simpl in Hs. discriminate.
Qed.

Ltac one_group H :=
  apply search_groups in H; simpl in H;
  repeat match goal with
         | F : Forall2 _ (_ :: _) _ |- _ => inversion F; subst; clear F
         | F : Forall2 _ [] _ |- _ => inversion F; subst; clear F
         end.

Lemma captured_digits (cs : cset) (g : string) :
  captured (mkItem cs Plus true) g -> all_in cs g = true /\ g <> EmptyString.
Proof. intros [Hall [Hstar|Hne]]; [ discriminate | auto ]. Qed.

(** The counts the two count patterns capture are runs of digits. *)
Lemma trades_capture (line : string) (found : list string) :
  search trades_re line = Some found ->
  all_in Digit (group 1 found) = true /\ group 1 found <> EmptyString.
Proof.
  intros H. one_group H.
  match goal with
  | C : captured _ ?g |- _ => apply captured_digits in C; exact C
  end.
Qed.

Lemma wdl_capture (line : string) (found : list string) (k : nat) :
  search wdl_re line = Some found -> In k [1; 2; 3]%nat ->
  all_in Digit (group k found) = true /\ group k found <> EmptyString.
Proof.
  intros H Hk. one_group H.
  repeat match goal with
         | C : captured _ ?g |- _ => apply captured_digits in C
         end.
  destruct Hk as [<-|[<-|[<-|[]]]]; assumption.
Qed.

Lemma wdl_of_match_raise_cause (line : string) (found : list string) (e : exn) :
  search wdl_re line = Some found ->
  wdl_of_match found = Raise e ->
  exists k,
    In k [1; 2; 3]%nat
    /\ over_the_digit_limit (group k found)
    /\ e = exceeds_the_limit (group k found).
Proof.
  intros Hs H.
  assert (Hint : forall k, In k [1; 2; 3]%nat -> int (group k found) = Raise e ->
                 exists k', In k' [1; 2; 3]%nat
                            /\ over_the_digit_limit (group k' found)
                            /\ e = exceeds_the_limit (group k' found)).
  { intros k Hk Hi. exists k. split; auto.
    destruct (wdl_capture line found k Hs Hk) as [Hd Hn].
    now apply int_raises_cause. }
  unfold wdl_of_match in H.
  destruct (int (group 1 found)) as [wins|e1] eqn:E1; simpl in H;
    [ | injection H as <-; apply (Hint 1%nat); simpl; auto ].
  destruct (int (group 2 found)) as [draws|e2] eqn:E2; simpl in H;
    [ | injection H as <-; apply (Hint 2%nat); simpl; auto ].
  destruct (int (group 3 found)) as [losses|e3] eqn:E3; simpl in H;
    [ discriminate | injection H as <-; apply (Hint 3%nat); simpl; auto ].
Qed.

Lemma unsigned_capture (pattern : regex) (line : string) (found : list string) :
  In pattern [avg_profit_re; median_profit_re; total_profit_re; profit_percent_re] ->
  search pattern line = Some found ->
  all_in digit_or_point (group 1 found) = true.
Proof.
  intros Hin H.
  destruct Hin as [<-|[<-|[<-|[<-|[]]]]]; one_group H;
    match goal with
    | C : captured _ ?g |- _ => apply captured_digits in C; destruct C
    end; assumption.
Qed.

(** When a block returns, its key is unset exactly when its pattern
    has no match. *)
Lemma read_of_extract_field {A : Type} (pattern : regex)
    (convert : list string -> outcome A) (store : A -> Metrics -> Metrics)
    (line : string) (m m' : Metrics) :
  extract_field pattern convert store line m = Return m' ->
  read pattern convert line = None <-> search pattern line = None.
Proof.
  unfold extract_field, read. destruct (search pattern line) as [found|].
  - destruct (convert found); simpl; [ split; discriminate | discriminate ].
  - tauto.
Qed.

Lemma parse_result_data_raise_cause (line : string) (e : exn) :
  parse_result_data line = Raise e -> conversion_failure line e.
Proof.
  intros H. unfold parse_result_data in H.
  repeat match type of H with
         | Py.bind ?x _ = Raise _ =>
             let E := fresh "E" in
             destruct x eqn:E; simpl in H;
             [ clear E
             | injection H as <-; apply extract_field_raises in E;
               destruct E as (found & Hs & Hc) ]
         end;
    try (apply extract_field_raises in H; destruct H as (found & Hs & Hc));
    try discriminate Hc;
    unfold conversion_failure;
    match type of Hs with
    | search trades_re _ = _ =>
        right; left; exists found;
        destruct (trades_capture _ _ Hs) as [Hd Hn];
        destruct (int_raises_cause _ _ Hn Hd Hc); auto
    | search wdl_re _ = _ =>
        right; right;
        destruct (wdl_of_match_raise_cause _ _ _ Hs Hc) as (k & ? & ? & ?);
        exists found, k; auto
    | search ?pattern _ = _ =>
        left; exists pattern, found;
        (split; [ unfold float_patterns; simpl; tauto | split; assumption ])
    end.
Qed.

(** ** Where a pattern can match *)

Lemma search_cons (re : regex) (c : ascii) (s : string) :
  search re (String c s)
  = match match_here re (String c s) with
    | Some groups => Some groups
    | None => search re s
    end.
Proof. reflexivity. Qed.

Lemma search_here (re : regex) (s : string) (groups : list string) :
  match_here re s = Some groups -> search re s = Some groups.
Proof. intros H. destruct s; simpl; now rewrite H. Qed.

(** The text before the leftmost match holds no match. *)
Lemma search_skip (re : regex) (pre x : string) :
  (forall a b, pre = (a ++ b)%string -> b <> EmptyString ->
               match_here re (b ++ x)%string = None) ->
  search re (pre ++ x)%string = search re x.
Proof.
  induction pre as [|c pre IH]; intros H; [ reflexivity | ].
  change ((String c pre ++ x)%string) with (String c (pre ++ x)%string).
  rewrite search_cons.
  assert (Hhere : match_here re (String c (pre ++ x)%string) = None).
  { apply (H EmptyString (String c pre)); [ reflexivity | discriminate ]. }
  rewrite Hhere. apply IH. intros a b -> Hb. apply (H (String c a) b); auto.
Qed.

(** What a match consumes, item by item. *)
Lemma greedy_sound (cs : cset) (k : string -> option (list string)) (s w : string)
    (groups : list string) :
  greedy cs k s = Some (w, groups) ->
  exists rest,
    s = (w ++ rest)%string /\ all_in cs w = true /\ k rest = Some groups.
Proof.
  revert w. induction s as [|c s IH]; intros w H; simpl in H.
  - destruct (k EmptyString) as [gs|] eqn:E; [ | discriminate ].
    injection H as <- <-. exists EmptyString. auto.
  - assert (Hstop : option_map (pair EmptyString) (k (String c s)) = Some (w, groups) ->
                    exists rest,
                      String c s = (w ++ rest)%string
                      /\ all_in cs w = true /\ k rest = Some groups).
    { destruct (k (String c s)) as [gs|] eqn:E; [ | discriminate ].
      intros H'. injection H' as <- <-. exists (String c s). auto. }
    destruct (mem c cs) eqn:Ec; auto.
    destruct (greedy cs k s) as [[w' gs]|] eqn:E; auto.
    injection H as <- <-. destruct (IH w' eq_refl) as (rest & Hs & Hw & Hk).
    exists rest. simpl. rewrite Ec, Hw, <- Hs. auto.
Qed.

Lemma plus_match (cs : cset) (cap : bool) (re : regex) (u : string)
    (groups : list string) :
  match_here (mkItem cs Plus cap :: re) u = Some groups ->
  exists w rest gs,
    u = (w ++ rest)%string /\ w <> EmptyString /\ all_in cs w = true
    /\ match_here re rest = Some gs.
Proof.
  rewrite match_here_cons. unfold match_item.
  cbn [Regex.repeat Regex.set Regex.captures].
  destruct u as [|c u]; [ discriminate | ].
  destruct (mem c cs) eqn:Ec; [ | discriminate ].
  destruct (greedy cs (match_here re) u) as [[w gs]|] eqn:Eg; [ | discriminate ].
  intros _. destruct (greedy_sound _ _ _ _ _ Eg) as (rest & Hu & Hw & Hk).
  exists (String c w), rest, gs. simpl. rewrite Ec, Hw, <- Hu.
  repeat split; auto. discriminate.
Qed.

Lemma lit_match (K : string) (re : regex) (u : string) (groups : list string) :
  match_here (lit K ++ re) u = Some groups ->
  exists rest, u = (K ++ rest)%string /\ match_here re rest = Some groups.
Proof.
  revert u. induction K as [|c K IH]; intros u H.
  - exists u. auto.
  - change (lit (String c K) ++ re) with (mkItem (Chr c) One false :: (lit K ++ re)) in H.
    rewrite match_here_cons in H. unfold match_item in H.
    cbn [Regex.repeat Regex.set Regex.captures mem] in H.
    destruct u as [|c' u]; [ discriminate | ].
    destruct (Ascii.eqb_spec c' c) as [->|]; [ | discriminate ].
    destruct (match_here (lit K ++ re) u) as [gs|] eqn:E; [ | discriminate ].
    simpl in H. injection H as <-.
    destruct (IH u E) as (rest & -> & Hr). exists rest. auto.
Qed.

Lemma lit_match_app (K : string) (re : regex) (rest : string) :
  match_here (lit K ++ re) (K ++ rest)%string = match_here re rest.
Proof.
  induction K as [|c K IH]; [ reflexivity | ].
  change (lit (String c K) ++ re) with (mkItem (Chr c) One false :: (lit K ++ re)).
  rewrite match_here_cons. unfold match_item.
  cbn [Regex.repeat Regex.set Regex.captures mem append].
  rewrite Ascii.eqb_refl, IH. now destruct (match_here re rest).
Qed.

Lemma greedy_longest (cs : cset) (k : string -> option (list string)) (w rest : string)
    (groups : list string) :
  all_in cs w = true -> starts_with (fun c => mem c cs) rest = false ->
  k rest = Some groups ->
  greedy cs k (w ++ rest)%string = Some (w, groups).
Proof.
  intros Hw Hr Hk. induction w as [|c w IH]; simpl.
  - destruct rest as [|c r]; simpl in *; [ now rewrite Hk | ].
    rewrite Hr, Hk. reflexivity.
  - simpl in Hw. apply andb_true_iff in Hw. destruct Hw as [Hc Hw].
    rewrite Hc, (IH Hw). reflexivity.
Qed.

Lemma plus_match_app (cs : cset) (cap : bool) (re : regex) (w rest : string)
    (groups : list string) :
  all_in cs w = true -> w <> EmptyString ->
  starts_with (fun c => mem c cs) rest = false ->
  match_here re rest = Some groups ->
  match_here (mkItem cs Plus cap :: re) (w ++ rest)%string
  = Some (record_group cap w groups).
Proof.
  intros Hw Hne Hr Hk. rewrite match_here_cons. unfold match_item.
  cbn [Regex.repeat Regex.set Regex.captures].
  destruct w as [|c w]; [ congruence | ]. cbn [append].
  simpl in Hw. apply andb_true_iff in Hw. destruct Hw as [Hc Hw].
  rewrite Hc, (greedy_longest cs (match_here re) w rest groups Hw Hr Hk).
  reflexivity.
Qed.

(** ** Texts cut in two *)

Lemma drop_while_app_stop (cs : cset) (w rest : string) :
  all_in cs w = true -> starts_with (fun c => mem c cs) rest = false ->
  drop_while cs (w ++ rest)%string = rest.
Proof.
  induction w as [|c w IH]; simpl; intros Hw Hr.
  - destruct rest as [|c r]; simpl in *; [ reflexivity | now rewrite Hr ].
  - apply andb_true_iff in Hw. destruct Hw as [Hc Hw]. rewrite Hc. auto.
Qed.

Lemma drop_while_app_all (cs : cset) (b x : string) :
  all_in cs b = true -> drop_while cs (b ++ x)%string = drop_while cs x.
Proof.
  induction b as [|c b IH]; simpl; intros H; auto.
  apply andb_true_iff in H. destruct H as [Hc Hb]. rewrite Hc. auto.
Qed.

Lemma drop_while_app_rest (cs : cset) (b x : string) :
  all_in cs b = false ->
  drop_while cs (b ++ x)%string = (drop_while cs b ++ x)%string
  /\ drop_while cs b <> EmptyString.
Proof.
  induction b as [|c b IH]; simpl; intros H; [ discriminate | ].
  destruct (mem c cs); simpl in H; [ auto | ].
  split; [ reflexivity | discriminate ].
Qed.

Lemma drop_while_suffix (cs : cset) (b : string) :
  exists a, b = (a ++ drop_while cs b)%string.
Proof.
  induction b as [|c b [a IH]]; simpl.
  - exists EmptyString. reflexivity.
  - destruct (mem c cs).
    + exists (String c a). simpl. now rewrite <- IH.
    + exists EmptyString. reflexivity.
Qed.

Lemma contains_suffix (K a s : string) :
  contains K (a ++ s)%string = false -> contains K s = false.
Proof.
  induction a as [|c a IH]; [ auto | ].
  cbn [append contains].
  destruct (String.prefix K (String c (a ++ s)%string)); [ discriminate | exact IH ].
Qed.

Lemma ends_with_suffix (p : ascii -> bool) (a s : string) :
  s <> EmptyString -> ends_with p (a ++ s)%string = ends_with p s.
Proof.
  intros Hs. induction a as [|c a IH]; [ reflexivity | ].
  rewrite <- IH. cbn [append ends_with].
  destruct (a ++ s)%string eqn:E; [ | reflexivity ].
  destruct a; simpl in E; [ congruence | discriminate ].
Qed.

Lemma ends_with_weaken (p q : ascii -> bool) (s : string) :
  (forall c, q c = true -> p c = true) ->
  ends_with p s = false -> ends_with q s = false.
Proof.
  intros Hpq. induction s as [|c s IH]; [ reflexivity | ].
  cbn [ends_with]. destruct s as [|c' s]; [ | exact IH ].
  intros Hp. destruct (q c) eqn:Eq; [ | reflexivity ].
  rewrite (Hpq c Eq) in Hp. discriminate.
Qed.

Lemma ends_with_all_in (cs : cset) (b : string) :
  b <> EmptyString -> ends_with (fun c => mem c cs) b = false ->
  all_in cs b = false.
Proof.
  induction b as [|c b IH]; intros Hb H; [ congruence | ].
  change (mem c cs && all_in cs b = false).
  destruct b as [|c' b].
  - simpl in H. rewrite H. reflexivity.
  - rewrite IH; [ apply andb_false_r | discriminate | exact H ].
Qed.

Lemma prefix_contains (K s : string) :
  String.prefix K s = true -> contains K s = true.
Proof. intros H. destruct s; cbn [contains]; now rewrite H. Qed.

Lemma prefix_app (K rest : string) : String.prefix K (K ++ rest)%string = true.
Proof.
  induction K as [|c K IH]; simpl; [ now destruct rest | ].
  destruct (Ascii.ascii_dec c c); [ exact IH | congruence ].
Qed.

(** A text that begins [b ++ x] begins [b] or runs over the cut. *)
Lemma prefix_app_border (K b x : string) :
  b <> EmptyString -> String.prefix K (b ++ x)%string = true ->
  String.prefix K b = true \/ border K x = true.
Proof.
  revert b. induction K as [|c K IH]; intros b Hb H;
    [ left; now destruct b | ].
  destruct b as [|c' b]; [ congruence | ].
  cbn [append] in H. simpl in H.
  destruct (Ascii.ascii_dec c c') as [<-|]; [ | discriminate ].
  destruct b as [|c'' b].
  - cbn [append] in H. destruct K as [|k K].
    + left. simpl. destruct (Ascii.ascii_dec c c); [ reflexivity | congruence ].
    + right. cbn [border truthy]. rewrite H. reflexivity.
  - destruct (IH (String c'' b)) as [Hp|Hbd]; [ discriminate | exact H | | ].
    + left. simpl. destruct (Ascii.ascii_dec c c); [ exact Hp | congruence ].
    + right. cbn [border]. rewrite Hbd. apply orb_true_r.
Qed.

Lemma no_prefix_across (K b x : string) :
  b <> EmptyString -> contains K b = false -> border K x = false ->
  String.prefix K (b ++ x)%string = false.
Proof.
  intros Hb Hc Hx. destruct (String.prefix K (b ++ x)%string) eqn:E; [ | reflexivity ].
  destruct (prefix_app_border K b x Hb E) as [Hp|Hbd]; [ | congruence ].
  apply prefix_contains in Hp. congruence.
Qed.

Lemma no_prefix_after_run (cs : cset) (K b x : string) :
  contains K b = false -> border K x = false ->
  String.prefix K (drop_while cs x) = false ->
  String.prefix K (drop_while cs (b ++ x)%string) = false.
Proof.
  intros Hc Hx Hd. destruct (all_in cs b) eqn:E.
  - now rewrite drop_while_app_all.
  - destruct (drop_while_app_rest cs b x E) as [-> Hne].
    destruct (drop_while_suffix cs b) as [a Ha].
    apply no_prefix_across; auto.
    apply (contains_suffix K a). now rewrite <- Ha.
Qed.

(** Past a run of digits that ends inside [b], what is left of [b] has
    what [b] had. *)
Lemma past_the_digits (K b x : string) :
  b <> EmptyString -> ends_with (fun c => mem c Digit) b = false ->
  contains K b = false ->
  exists b1,
    drop_while Digit (b ++ x)%string = (b1 ++ x)%string
    /\ b1 <> EmptyString
    /\ ends_with (fun c => mem c Digit) b1 = false
    /\ contains K b1 = false.
Proof.
  intros Hb He Hc.
  destruct (drop_while_app_rest Digit b x (ends_with_all_in _ _ Hb He)) as [Hd Hne].
  destruct (drop_while_suffix Digit b) as [a Ha].
  exists (drop_while Digit b). repeat split; auto.
  - rewrite <- (ends_with_suffix _ a) by exact Hne. now rewrite <- Ha.
  - apply (contains_suffix K a). now rewrite <- Ha.
Qed.

Lemma past_a_character (K : string) (c : ascii) (b : string) :
  b <> EmptyString ->
  ends_with (fun c => mem c Digit) (String c b) = false ->
  contains K (String c b) = false ->
  ends_with (fun c => mem c Digit) b = false /\ contains K b = false.
Proof.
  intros Hb He Hc. split.
  - destruct b; [ congruence | exact He ].
  - apply (contains_suffix K (String c EmptyString)). exact Hc.
Qed.

Lemma space_is_no_digit (c : ascii) : is_space c = true -> is_digit c = false.
Proof.
  destruct c as [[] [] [] [] [] [] [] []]; vm_compute; intros H;
    try reflexivity; discriminate H.
Qed.

Lemma no_digit_after_spaces (ws rest : string) :
  ws <> EmptyString -> all_in Space ws = true ->
  starts_with (fun c => mem c Digit) (ws ++ rest)%string = false.
Proof.
  destruct ws as [|c ws]; [ congruence | ]. simpl. intros _ H.
  apply andb_true_iff in H. destruct H as [Hc _]. now apply space_is_no_digit.
Qed.

(** ** The shape of what the two count patterns match *)

Lemma trades_match_shape (u : string) (groups : list string) :
  match_here trades_re u = Some groups ->
  String.prefix "trades" (drop_while Space (drop_while Digit u)) = true.
Proof.
  intros H.
  change trades_re
    with (mkItem Digit Plus true :: mkItem Space Plus false :: (lit "trades" ++ []))
    in H.
  apply plus_match in H. destruct H as (ds & r1 & g1 & -> & _ & Hds & H).
  apply plus_match in H. destruct H as (ws & r2 & g2 & -> & Hne & Hws & H).
  apply lit_match in H. destruct H as (r3 & -> & _).
  rewrite drop_while_app_stop;
    [ | exact Hds | now apply no_digit_after_spaces ].
  rewrite drop_while_app_stop; [ apply prefix_app | exact Hws | reflexivity ].
Qed.

Lemma wdl_match_shape (u : string) (groups : list string) :
  match_here wdl_re u = Some groups ->
  exists r1 r2,
    drop_while Digit u = String "/" r1
    /\ drop_while Digit r1 = String "/" r2
    /\ String.prefix "Wins/Draws/Losses"
         (drop_while Space (drop_while Digit r2)) = true.
Proof.
  intros H.
  change wdl_re
    with (mkItem Digit Plus true
          :: (lit "/"
              ++ mkItem Digit Plus true
                 :: (lit "/"
                     ++ mkItem Digit Plus true
                        :: mkItem Space Plus false
                           :: (lit "Wins/Draws/Losses" ++ []))))
    in H.
  apply plus_match in H. destruct H as (d1 & t1 & g1 & -> & _ & Hd1 & H).
  apply lit_match in H. destruct H as (r1 & -> & H).
  apply plus_match in H. destruct H as (d2 & t2 & g2 & -> & _ & Hd2 & H).
  apply lit_match in H. destruct H as (r2 & -> & H).
  apply plus_match in H. destruct H as (d3 & t3 & g3 & -> & _ & Hd3 & H).
  apply plus_match in H. destruct H as (ws & t4 & g4 & -> & Hne & Hws & H).
  apply lit_match in H. destruct H as (r5 & -> & _).
  exists (d2 ++ "/" ++ d3 ++ ws ++ "Wins/Draws/Losses" ++ r5)%string,
         (d3 ++ ws ++ "Wins/Draws/Losses" ++ r5)%string.
  split; [ | split ].
  - now apply drop_while_app_stop.
  - now apply drop_while_app_stop.
  - rewrite drop_while_app_stop;
      [ | exact Hd3 | now apply no_digit_after_spaces ].
    rewrite drop_while_app_stop; [ apply prefix_app | exact Hws | reflexivity ].
Qed.

(** ** No match before the text *)

Lemma trades_not_matched_before (b post : string) :
  b <> EmptyString -> ends_with (fun c => mem c Digit) b = false ->
  contains "trades" b = false ->
  match_here trades_re (b ++ "150 trades" ++ post)%string = None.
Proof.
  intros Hb He Hc.
  destruct (match_here trades_re (b ++ "150 trades" ++ post)%string)
    as [groups|] eqn:E; [ exfalso | reflexivity ].
  apply trades_match_shape in E.
  destruct (past_the_digits "trades" b ("150 trades" ++ post)%string Hb He Hc)
    as (b1 & Hb1 & _ & _ & Hc1).
  rewrite Hb1 in E.
  rewrite (no_prefix_after_run Space "trades" b1 ("150 trades" ++ post)%string) in E;
    [ discriminate | exact Hc1 | reflexivity | reflexivity ].
Qed.

Lemma wdl_not_matched_before (b post : string) :
  b <> EmptyString -> ends_with (fun c => mem c Digit) b = false ->
  contains "Wins/Draws/Losses" b = false ->
  match_here wdl_re (b ++ "80/10/60 Wins/Draws/Losses" ++ post)%string = None.
Proof.
  intros Hb He Hc.
  remember ("80/10/60 Wins/Draws/Losses" ++ post)%string as x eqn:Hx.
  destruct (match_here wdl_re (b ++ x)%string) as [groups|] eqn:E;
    [ exfalso | reflexivity ].
  apply wdl_match_shape in E. destruct E as (r1 & r2 & E1 & E2 & E3).
  destruct (past_the_digits _ b x Hb He Hc) as (b1 & Hb1 & Hne1 & He1 & Hc1).
  rewrite Hb1 in E1. destruct b1 as [|c1 b1]; [ congruence | ].
  cbn [append] in E1. injection E1 as -> <-.
  destruct b1 as [|c b1].
  - subst x. vm_compute in E2. injection E2 as <-.
    vm_compute in E3. discriminate E3.
  - destruct (past_a_character _ _ (String c b1) ltac:(discriminate) He1 Hc1)
      as [He1' Hc1'].
    destruct (past_the_digits _ (String c b1) x ltac:(discriminate) He1' Hc1')
      as (b2 & Hb2 & Hne2 & He2 & Hc2).
    rewrite Hb2 in E2. destruct b2 as [|c2 b2]; [ congruence | ].
    cbn [append] in E2. injection E2 as -> <-.
    destruct b2 as [|c' b2].
    + subst x. vm_compute in E3. discriminate E3.
    + destruct (past_a_character _ _ (String c' b2) ltac:(discriminate) He2 Hc2)
        as [He2' Hc2'].
      destruct (past_the_digits _ (String c' b2) x ltac:(discriminate) He2' Hc2')
        as (b3 & Hb3 & _ & _ & Hc3).
      rewrite Hb3 in E3.
      rewrite (no_prefix_after_run Space _ b3 x) in E3;
        [ discriminate | exact Hc3 | subst x; reflexivity | subst x; reflexivity ].
Qed.

Lemma literal_not_matched_before (K : string) (re : regex) (b x : string) :
  b <> EmptyString -> contains K b = false -> border K x = false ->
  match_here (lit K ++ re) (b ++ x)%string = None.
Proof.
  intros Hb Hc Hx.
  destruct (match_here (lit K ++ re) (b ++ x)%string) as [g|] eqn:E;
    [ exfalso | reflexivity ].
  apply lit_match in E. destruct E as (rest & E & _).
  pose proof (prefix_app K rest) as Hp. rewrite <- E in Hp.
  rewrite (no_prefix_across K b x Hb Hc Hx) in Hp. discriminate.
Qed.

(** ** The leftmost match of each pattern of the worked example *)

Lemma not_a_digit_before (pre a b : string) :
  ends_with may_be_digit pre = false -> pre = (a ++ b)%string ->
  b <> EmptyString ->
  ends_with (fun c => mem c Digit) b = false.
Proof.
  intros He -> Hb. rewrite <- (ends_with_suffix _ a) by exact Hb.
  revert He. apply ends_with_weaken.
  intros c Hc. unfold may_be_digit. simpl in Hc. now rewrite Hc.
Qed.

Lemma search_trades (pre post : string) :
  contains "trades" pre = false -> ends_with may_be_digit pre = false ->
  search trades_re (pre ++ "150 trades" ++ post)%string = Some ["150"%string].
Proof.
  intros Hc He. rewrite search_skip.
  - apply search_here. reflexivity.
  - intros a b Hpre Hb. apply trades_not_matched_before; auto.
    + exact (not_a_digit_before pre a b He Hpre Hb).
    + apply (contains_suffix _ a). now rewrite <- Hpre.
Qed.

Lemma search_wdl (pre post : string) :
  contains "Wins/Draws/Losses" pre = false -> ends_with may_be_digit pre = false ->
  search wdl_re (pre ++ "80/10/60 Wins/Draws/Losses" ++ post)%string
  = Some ["80"%string; "10"%string; "60"%string].
Proof.
  intros Hc He. rewrite search_skip.
  - apply search_here. reflexivity.
  - intros a b Hpre Hb. apply wdl_not_matched_before; auto.
    + exact (not_a_digit_before pre a b He Hpre Hb).
    + apply (contains_suffix _ a). now rewrite <- Hpre.
Qed.

Lemma search_avg_profit (pre post : string) :
  contains "Avg profit" pre = false ->
  search avg_profit_re (pre ++ "Avg profit 2.35%" ++ post)%string
  = Some ["2.35"%string].
Proof.
  intros Hc. rewrite search_skip.
  - apply search_here. reflexivity.
  - intros a b Hpre Hb. unfold avg_profit_re.
    apply literal_not_matched_before; [ exact Hb | | reflexivity ].
    apply (contains_suffix _ a). now rewrite <- Hpre.
Qed.

Lemma search_total_profit (pre post : string) :
  contains "Total profit" pre = false ->
  search total_profit_re (pre ++ "Total profit 123.45 USDT (12.3%)" ++ post)%string
  = Some ["123.45"%string].
Proof.
  intros Hc. rewrite search_skip.
  - apply search_here. reflexivity.
  - intros a b Hpre Hb. unfold total_profit_re.
    apply literal_not_matched_before; [ exact Hb | | reflexivity ].
    apply (contains_suffix _ a). now rewrite <- Hpre.
Qed.

Lemma search_objective (pre post : string) :
  contains "Objective:" pre = false ->
  starts_with may_continue_number post = false ->
  search objective_re (pre ++ "Objective: -1.234" ++ post)%string
  = Some ["-1.234"%string].
Proof.
  intros Hc Hs.
  assert (Hs' : starts_with (fun c => mem c minus_digit_or_point) post = false).
  { destruct post as [|c post]; [ reflexivity | ].
    unfold starts_with, may_continue_number in *.
    apply orb_false_iff in Hs. tauto. }
  rewrite search_skip.
  - apply search_here. unfold objective_re.
    change ("Objective: -1.234" ++ post)%string
      with ("Objective:" ++ (" " ++ ("-1.234" ++ post)))%string.
    rewrite lit_match_app.
    change (plus Space ++ capture_plus minus_digit_or_point)
      with (mkItem Space Plus false :: [mkItem minus_digit_or_point Plus true]).
    rewrite (plus_match_app Space false _ " " ("-1.234" ++ post)%string
               ["-1.234"%string]);
      [ reflexivity | reflexivity | discriminate | reflexivity | ].
    rewrite (plus_match_app minus_digit_or_point true [] "-1.234" post []);
      [ reflexivity | reflexivity | discriminate | exact Hs' | reflexivity ].
  - intros a b Hpre Hb. unfold objective_re.
    apply literal_not_matched_before; [ exact Hb | | reflexivity ].
    apply (contains_suffix _ a). now rewrite <- Hpre.
Qed.

(** C7, as stated: every line containing the five texts yields a trade
    count of 150.  It does not: a pattern matches at its leftmost
    position and takes the whole run of digits, so the line with
    ["2150 trades"], which contains ["150 trades"], yields 2150. *)
Lemma token_inside_a_longer_number :
  mentions_sample_tokens line_with_2150_trades = true
  /\ exists m,
       parse_result_data line_with_2150_trades = Return m
       /\ total_trades m = Some 2150%Z.
Proof. split; [ | eexists; split ]; vm_compute; reflexivity. Qed.

(** C7, amended.  Whatever surrounds them on the result line, each of
    the five texts gives its value whenever [parse_result_data] returns,
    provided the text holds the first mention of its own keyword on the
    line and its number is not part of a longer one: ["150 trades"],
    after a text without ["trades"] that does not end with a digit,
    gives 150 trades; ["80/10/60 Wins/Draws/Losses"], after a text
    without ["Wins/Draws/Losses"] that does not end with a digit, gives
    the triple and a win rate of 80/150; ["Avg profit 2.35%"], after a
    text without ["Avg profit"], gives 2.35; ["Total profit 123.45 USDT
    (12.3%)"], after a text without ["Total profit"], gives 123.45; and
    ["Objective: -1.234"], after a text without ["Objective:"] and not
    followed by a digit, a point or a minus sign, gives -1.234.  So do
    the line made of the five texts and the optimizer's layout of it,
    and 80/150 lies between 0.5333 and 0.5334.  For every result line,
    each key holds the converted capture of the leftmost match of its
    own pattern; the win rate is wins/(wins+draws+losses), and 0 when
    that total is 0; a line on which no pattern matches yields the empty
    metrics.  [parse_result_data] fails with a [ValueError] only, and
    only on a pattern that matched: on a capture that [float] rejects,
    or on a count of more than 4300 digits, which [int] refuses. *)
Theorem parse_result_data_reads_leftmost_matches :
  (parse_result_data five_token_line
   = Return (mkMetrics (Some 150%Z) (Some "80/10/60") (Some (80 # 150)%Q)
               (Some 2.35%Q) None (Some 123.45%Q) (Some 12.3%Q) None
               (Some (-1.234)%Q) None)
   /\ parse_result_data sample_result_line
      = Return (mkMetrics (Some 150%Z) (Some "80/10/60") (Some (80 # 150)%Q)
                  (Some 2.35%Q) (Some 1.20%Q) (Some 123.45%Q) (Some 12.3%Q)
                  (Some "2:30:00") (Some (-1.234)%Q) None)
   /\ (0.5333 <= 80 # 150 /\ 80 # 150 < 0.5334)%Q)
  /\ (forall pre post m,
        parse_result_data (pre ++ "150 trades" ++ post)%string = Return m ->
        contains "trades" pre = false ->
        ends_with may_be_digit pre = false ->
        total_trades m = Some 150%Z)
  /\ (forall pre post m,
        parse_result_data (pre ++ "80/10/60 Wins/Draws/Losses" ++ post)%string
        = Return m ->
        contains "Wins/Draws/Losses" pre = false ->
        ends_with may_be_digit pre = false ->
        wins_draws_losses m = Some "80/10/60"%string
        /\ win_rate m = Some (80 # 150)%Q)
  /\ (forall pre post m,
        parse_result_data (pre ++ "Avg profit 2.35%" ++ post)%string = Return m ->
        contains "Avg profit" pre = false ->
        avg_profit m = Some 2.35%Q)
  /\ (forall pre post m,
        parse_result_data (pre ++ "Total profit 123.45 USDT (12.3%)" ++ post)%string
        = Return m ->
        contains "Total profit" pre = false ->
        total_profit m = Some 123.45%Q)
  /\ (forall pre post m,
        parse_result_data (pre ++ "Objective: -1.234" ++ post)%string = Return m ->
        contains "Objective:" pre = false ->
        starts_with may_continue_number post = false ->
        m_objective m = Some (-1.234)%Q)
  /\ (forall line m,
        parse_result_data line = Return m ->
        total_trades m = read trades_re (fun found => int (group 1 found)) line
        /\ wins_draws_losses m = option_map fst (read wdl_re wdl_of_match line)
        /\ win_rate m = option_map snd (read wdl_re wdl_of_match line)
        /\ avg_profit m = read avg_profit_re (fun found => float (group 1 found)) line
        /\ total_profit m
           = read total_profit_re (fun found => float (group 1 found)) line
        /\ m_objective m = read objective_re (fun found => float (group 1 found)) line)
  /\ (forall found text rate,
        wdl_of_match found = Return (text, rate) ->
        exists wins draws losses,
          int (group 1 found) = Return wins
          /\ int (group 2 found) = Return draws
          /\ int (group 3 found) = Return losses
          /\ (0 <= wins /\ 0 <= draws /\ 0 <= losses)%Z
          /\ ((wins + draws + losses = 0)%Z -> rate = 0%Q)
          /\ ((wins + draws + losses <> 0)%Z ->
              rate = (inject_Z wins / inject_Z (wins + draws + losses))%Q))
  /\ (forall line,
        search trades_re line = None -> search wdl_re line = None ->
        search avg_profit_re line = None -> search median_profit_re line = None ->
        search total_profit_re line = None -> search profit_percent_re line = None ->
        search avg_duration_re line = None -> search objective_re line = None ->
        parse_result_data line = Return empty_metrics)
  /\ (forall line e,
        parse_result_data line = Raise e ->
        a_ValueError e /\ conversion_failure line e)
  /\ parse_result_data line_with_long_count
     = Raise
         (ValueError
            "Exceeds the limit (4300 digits) for integer string conversion: value has 4301 digits; use sys.set_int_max_str_digits() to increase the limit").
Proof.
  split; [ | split; [ | split; [ | split; [ | split; [ | split; [ | split;
    [ | split; [ | split; [ | split ] ] ] ] ] ] ] ] ].
  - repeat split; try (vm_compute; reflexivity).
    unfold Qle. simpl. lia.
  - intros pre post m H Hc He.
    destruct (parse_result_data_fields _ m H) as (H1 & _).
    rewrite H1. unfold read. rewrite search_trades by assumption. reflexivity.
  - intros pre post m H Hc He.
    destruct (parse_result_data_fields _ m H) as (_ & H2 & H3 & _).
    rewrite H2, H3. unfold read. rewrite search_wdl by assumption.
    split; reflexivity.
  - intros pre post m H Hc.
    destruct (parse_result_data_fields _ m H) as (_ & _ & _ & H4 & _).
    rewrite H4. unfold read. rewrite search_avg_profit by assumption. reflexivity.
  - intros pre post m H Hc.
    destruct (parse_result_data_fields _ m H) as (_ & _ & _ & _ & _ & H6 & _).
    rewrite H6. unfold read. rewrite search_total_profit by assumption. reflexivity.
  - intros pre post m H Hc Hs.
    destruct (parse_result_data_fields _ m H)
      as (_ & _ & _ & _ & _ & _ & _ & _ & H9 & _).
    rewrite H9. unfold read. rewrite search_objective by assumption. reflexivity.
  - intros line m H.
    destruct (parse_result_data_fields line m H)
      as (H1 & H2 & H3 & H4 & _ & H6 & _ & _ & H9 & _).
    repeat split; assumption.
  - apply wdl_of_match_rate.
  - intros line H1 H2 H3 H4 H5 H6 H7 H8.
    unfold parse_result_data, extract_field.
    rewrite H1, H2, H3, H4, H5, H6, H7, H8. reflexivity.
  - intros line e H. split.
    + exact (parse_result_data_raises line e H).
    + exact (parse_result_data_raise_cause line e H).
  - vm_compute. reflexivity.
Qed.

(* ================================================================== *)
(** * Properties of the watcher *)
(* ================================================================== *)

Import Watcher.

Lemma probe_loop_completed (strategy_json : string) (r : round) :
  probe_loop strategy_json r 0 max_retries = Some (Return tt) ->
  exists attempt first,
    (attempt < max_retries)%nat /\ probe r attempt = Readable first.
Proof.
  unfold max_retries. simpl. intros H.
  destruct (probe r 0) as [|n0 m0| |m0|f0] eqn:E0; try discriminate;
    try (exists 0%nat, f0; split; [ lia | assumption ]);
    (destruct (probe r 1) as [|n1 m1| |m1|f1] eqn:E1; try discriminate;
     try (exists 1%nat, f1; split; [ lia | assumption ]));
    (destruct (probe r 2) as [|n2 m2| |m2|f2] eqn:E2; try discriminate;
     try (exists 2%nat, f2; split; [ lia | assumption ])).
Qed.

(** The probe loop raises in two ways: as unreadable, at the last probe,
    or with what a probe raises that is not caught, at whichever probe
    meets it. *)
Lemma probe_loop_raises (strategy_json : string) (r : round) (e : exn) :
  probe_loop strategy_json r 0 max_retries = Some (Raise e) ->
  (e = unreadable strategy_json /\ probe r (max_retries - 1) = Unreadable)
  \/ (exists k, (k < max_retries)%nat /\ escapes_at r k e).
Proof.
  unfold max_retries, escapes_at. simpl.
  destruct (probe r 0) eqn:E0; destruct (probe r 1) eqn:E1;
    destruct (probe r 2) eqn:E2;
    intros H; try discriminate; injection H as <-;
    first [ left; split; reflexivity
          | right; exists 0%nat; split; [ lia | solve [ eauto 6 ] ]
          | right; exists 1%nat; split; [ lia | solve [ eauto 6 ] ]
          | right; exists 2%nat; split; [ lia | solve [ eauto 6 ] ] ].
Qed.

Lemma probe_loop_unreadable (strategy_json : string) (r : round) (found : nat) :
  (found < max_retries)%nat ->
  (forall k, (k < found)%nat -> probe r k = Absent) ->
  (forall k, (found <= k < max_retries)%nat -> probe r k = Unreadable) ->
  probe_loop strategy_json r 0 max_retries = Some (Raise (unreadable strategy_json)).
Proof.
  unfold max_retries. intros Hf Habsent Hunreadable. simpl.
  destruct found as [|[|[|found]]]; try lia.
  - rewrite !Hunreadable by lia. reflexivity.
  - rewrite Habsent by lia. rewrite !Hunreadable by lia. reflexivity.
  - rewrite !Habsent by lia. rewrite Hunreadable by lia. reflexivity.
Qed.

(** What a probe raises that is not caught is raised at once. *)
Lemma probe_loop_escapes (strategy_json : string) (r : round) (k : nat) (e : exn) :
  (k < max_retries)%nat ->
  (forall j, (j < k)%nat -> probe r j = Absent \/ probe r j = Unreadable) ->
  escapes_at r k e ->
  probe_loop strategy_json r 0 max_retries = Some (Raise e).
Proof.
  unfold max_retries, escapes_at. intros Hk Hbefore Hat. simpl.
  assert (Hhere : match probe r k with
                  | Inaccessible name msg => OSError name msg = e
                  | Undecodable msg => UnicodeDecodeError msg = e
                  | _ => False
                  end).
  { destruct Hat as [(name & msg & -> & ->) | (msg & -> & ->)]; reflexivity. }
  clear Hat.
  destruct k as [|[|[|k]]]; try lia.
  - destruct (probe r 0); try contradiction; now subst.
  - destruct (Hbefore 0%nat) as [-> | ->]; [ lia | | ]; simpl;
      (destruct (probe r 1); try contradiction; now subst).
  - destruct (Hbefore 0%nat) as [-> | ->]; [ lia | | ]; simpl;
      (destruct (Hbefore 1%nat) as [-> | ->]; [ lia | | ]); simpl;
      (destruct (probe r 2); try contradiction; now subst).
Qed.

Lemma wait_completed (strategy_json : string) (rounds : list round) :
  wait_for_hyperopt_completion strategy_json rounds = Ended (Return tt) ->
  exists r attempt first,
    In r rounds /\ (attempt < max_retries)%nat /\ probe r attempt = Readable first.
Proof.
  induction rounds as [|r rounds IH]; cbn [wait_for_hyperopt_completion];
    [ discriminate | ].
  destruct (probe_loop strategy_json r 0 max_retries) as [[[]|e]|] eqn:E.
  - intros _. destruct (probe_loop_completed _ r E) as (attempt & first & Ha & Hp).
    exists r, attempt, first. repeat split; auto. now left.
  - discriminate.
  - destruct (negb (hyperopt_running r) && _); [ discriminate | ].
    intros H. destruct (IH H) as (r' & attempt & first & Hin & Ha & Hp).
    exists r', attempt, first. repeat split; auto. now right.
Qed.

Lemma wait_raises (strategy_json : string) (rounds : list round) (e : exn) :
  wait_for_hyperopt_completion strategy_json rounds = Ended (Raise e) ->
  e = unreadable strategy_json \/ e = no_artifact
  \/ exists r k, In r rounds /\ (k < max_retries)%nat /\ escapes_at r k e.
Proof.
  induction rounds as [|r rounds IH]; cbn [wait_for_hyperopt_completion];
    [ discriminate | ].
  destruct (probe_loop strategy_json r 0 max_retries) as [[[]|e']|] eqn:E.
  - discriminate.
  - intros H. injection H as <-.
    destruct (probe_loop_raises _ _ _ E) as [[-> _] | (k & Hk & Hat)]; auto.
    right. right. exists r, k. simpl. auto.
  - destruct (negb (hyperopt_running r) && _).
    + intros H. injection H as <-. auto.
    + intros H. destruct (IH H) as [He | [He | (r' & k & Hin & Hk & Hat)]]; auto.
      right. right. exists r', k. simpl. auto.
Qed.

Lemma escapes_at_is_no_RuntimeError (r : round) (k : nat) (e : exn) :
  escapes_at r k e -> is_RuntimeError e = false.
Proof. intros [(name & msg & _ & ->) | (msg & _ & ->)]; reflexivity. Qed.

(** C8, as stated: completion is declared only for a file that yields at
    least one byte.  It is declared for an empty file as well: the byte
    read is not looked at. *)
Lemma empty_artifact_completes :
  probe sees_empty_file 0 = Readable EmptyString
  /\ wait_for_hyperopt_completion "Strategy.json" [sees_empty_file]
     = Ended (Return tt).
Proof. split; reflexivity. Qed.

(** C8, amended.  The watcher declares completion only when, at one of
    the probes, the file was found and could be opened and read without
    an error (whatever the read returned).  A file whose [open] or
    [read] raises an OS error is tried again at the remaining probes of
    the turn (three probes in all) and completes as soon as one of them
    reads it; found unreadable up to the last of them, it makes the wait
    fail as unreadable, a failure raised at the last probe only and
    different from the no-artifact failure.  What a probe raises
    otherwise is not caught and not tried again: the [UnicodeDecodeError]
    of a read that cannot decode the first bytes, or the [OSError] of
    [exists], neither of them a [RuntimeError], leaves the watcher at
    the probe that meets it; and the probes raise nothing else. *)
Theorem completion_needs_a_readable_artifact (strategy_json : string)
    (rounds : list round) (r : round) (found : nat) (e : exn) :
  (wait_for_hyperopt_completion strategy_json rounds = Ended (Return tt) ->
   exists r' attempt first,
     In r' rounds /\ (attempt < max_retries)%nat
     /\ probe r' attempt = Readable first)
  /\ ((found < max_retries)%nat ->
      (forall k, (k < found)%nat -> probe r k = Absent) ->
      (forall k, (found <= k < max_retries)%nat -> probe r k = Unreadable) ->
      wait_for_hyperopt_completion strategy_json (r :: rounds)
      = Ended (Raise (unreadable strategy_json)))
  /\ ((found < max_retries)%nat ->
      (forall k, (k < found)%nat -> probe r k = Absent \/ probe r k = Unreadable) ->
      escapes_at r found e ->
      wait_for_hyperopt_completion strategy_json (r :: rounds) = Ended (Raise e)
      /\ is_RuntimeError e = false)
  /\ (probe_loop strategy_json r 0 max_retries = Some (Raise e) ->
      (e = unreadable strategy_json /\ probe r (max_retries - 1) = Unreadable)
      \/ (exists k, (k < max_retries)%nat /\ escapes_at r k e))
  /\ wait_for_hyperopt_completion strategy_json [sees_file_after_retry]
     = Ended (Return tt)
  /\ wait_for_hyperopt_completion strategy_json [sees_undecodable_file]
     = Ended (Raise (UnicodeDecodeError "invalid start byte"))
  /\ unreadable strategy_json <> no_artifact.
Proof.
  split; [ apply wait_completed
         | split; [ | split; [ | split; [ | split; [ | split ] ] ] ] ].
  - intros Hf Ha Hu. cbn [wait_for_hyperopt_completion].
    now rewrite (probe_loop_unreadable strategy_json r found Hf Ha Hu).
  - intros Hf Hb Hat. split; [ | exact (escapes_at_is_no_RuntimeError r found e Hat) ].
    cbn [wait_for_hyperopt_completion].
    now rewrite (probe_loop_escapes strategy_json r found e Hf Hb Hat).
  - apply probe_loop_raises.
  - reflexivity.
  - reflexivity.
  - unfold unreadable, no_artifact. simpl. discriminate.
Qed.

Lemma completion_needs_a_readable_artifact_witness :
  (wait_for_hyperopt_completion "Strategy.json" [sees_file] = Ended (Return tt) ->
   exists r' attempt first,
     In r' [sees_file] /\ (attempt < max_retries)%nat
     /\ probe r' attempt = Readable first)
  /\ ((0 < max_retries)%nat ->
      (forall k, (k < 0)%nat -> probe sees_unreadable_file k = Absent) ->
      (forall k, (0 <= k < max_retries)%nat ->
                 probe sees_unreadable_file k = Unreadable) ->
      wait_for_hyperopt_completion "Strategy.json" (sees_unreadable_file :: [sees_file])
      = Ended (Raise (unreadable "Strategy.json")))
  /\ ((0 < max_retries)%nat ->
      (forall k, (k < 0)%nat ->
                 probe sees_unreadable_file k = Absent
                 \/ probe sees_unreadable_file k = Unreadable) ->
      escapes_at sees_unreadable_file 0 (unreadable "Strategy.json") ->
      wait_for_hyperopt_completion "Strategy.json"
        (sees_unreadable_file :: [sees_file])
      = Ended (Raise (unreadable "Strategy.json"))
      /\ is_RuntimeError (unreadable "Strategy.json") = false)
  /\ (probe_loop "Strategy.json" sees_unreadable_file 0 max_retries
      = Some (Raise (unreadable "Strategy.json")) ->
      (unreadable "Strategy.json" = unreadable "Strategy.json"
       /\ probe sees_unreadable_file (max_retries - 1) = Unreadable)
      \/ (exists k,
            (k < max_retries)%nat
            /\ escapes_at sees_unreadable_file k (unreadable "Strategy.json")))
  /\ wait_for_hyperopt_completion "Strategy.json" [sees_file_after_retry]
     = Ended (Return tt)
  /\ wait_for_hyperopt_completion "Strategy.json" [sees_undecodable_file]
     = Ended (Raise (UnicodeDecodeError "invalid start byte"))
  /\ unreadable "Strategy.json" <> no_artifact.
Proof.
  exact (completion_needs_a_readable_artifact "Strategy.json" [sees_file]
           sees_unreadable_file 0 (unreadable "Strategy.json")).
Defined.

(** A file whose first bytes are no text ends the wait at the first
    probe of the turn that opens it, and so does a folder that cannot be
    searched. *)
Example undecodable_artifact_is_not_retried :
  wait_for_hyperopt_completion "Strategy.json"
    [ mkRound (fun k => match k with
                        | O => Unreadable
                        | _ => Undecodable "invalid start byte"
                        end) true 0 ]
  = Ended (Raise (UnicodeDecodeError "invalid start byte"))
  /\ wait_for_hyperopt_completion "Strategy.json"
       [ mkRound (fun _ => Inaccessible "PermissionError" "Permission denied") true 0 ]
     = Ended (Raise (OSError "PermissionError" "Permission denied")).
Proof. split; reflexivity. Qed.

(* ================================================================== *)
(** * Properties of the orchestrator *)
(* ================================================================== *)

Import Orchestrator.

(** A failure to launch the optimizer, or of the wait, is caught when
    the handlers can write their [FAILED] file: the turn ends normally,
    with one more failure record in the leaderboard state and one more
    [FAILED] file holding that record, each with its own reading of the
    clock. *)
Lemma launch_and_wait_failures_are_recorded (a : Attempt) (c : Campaign)
    (run_id top_n : Z) (e : exn) :
  mkdir_raises a = None ->
  window_write_raises a = None ->
  retry_mkdir_raises a = None ->
  retry_write_raises a = None ->
  launch_raises a = Some e
  \/ (launch_raises a = None
      /\ wait_for_hyperopt_completion (strategy_json a) (observations a)
         = Ended (Raise e)) ->
  exists c',
    run_once a c run_id top_n = (c', Value tt)
    /\ failed_runs (data (board c'))
       = failed_runs (data (board c))
         ++ [mkFailureRecord run_id (recorded a) (Py.str e) (Py.type_name e)]
    /\ failed_files c'
       = failed_files c
         ++ [(run_id,
              FailureJson (mkFailureRecord run_id (now a) (Py.str e) (Py.type_name e)))]
    /\ top_results (data (board c')) = top_results (data (board c))
    /\ successful_runs c' = successful_runs c.
Proof.
  intros Hmk Hw1 Hmk2 Hw2 Hfail.
  exists (mkCampaign
            (record_failure (writable a) (recorded a) (board c) run_id e)
            (failed_files c
             ++ [(run_id,
                  FailureJson
                    (mkFailureRecord run_id (now a) (Py.str e) (Py.type_name e)))])
            (successful_runs c)).
  split; [ | split; [ | split; [ reflexivity | split; [ | reflexivity ] ] ] ].
  - unfold run_once, run_single, run_hyperopt_window, handle_hyperopt_failure.
    rewrite Hmk.
    destruct Hfail as [-> | [-> Hwait]].
    + rewrite Hmk2, Hw2. reflexivity.
    + rewrite Hwait. destruct (is_RuntimeError e).
      * rewrite Hw1. reflexivity.
      * rewrite Hmk2, Hw2. reflexivity.
  - unfold record_failure. simpl. now rewrite save_data_data.
  - unfold record_failure. simpl. now rewrite save_data_data.
Qed.

(** C6.  Failures of the extraction and ranking step are not all turned
    into a record and a marker, and some leave the loop.  A log without
    the marker makes [extract_data] raise a [RuntimeError]: it is caught
    and a [FAILED] file holding the bare message is written, but no
    failure record is added.  A result line without an objective makes
    the report of the objective raise [TypeError], and a malformed number
    makes [float] raise [ValueError]: neither is caught by
    [except RuntimeError], the campaign ends at run 1 and run 2 is never
    started.  So does an exception of the copy of the result files (an
    [AttributeError] with the class as given). *)
Theorem extraction_failures_escape_the_attempt_boundary :
  (exists c,
     run_loop [attempt_with_log "run_001" log_without_marker] 10 = Completed c
     /\ failed_runs (data (board c)) = []
     /\ failed_files c = [(1%Z, FailureText (Py.str LogExtractor.no_marker))])
  /\ (exists c,
        run_loop [ attempt_with_log "run_001" log_without_objective;
                   attempt_with_log "run_002" sample_log ] 10
        = Aborted 1
            (TypeError "unsupported format string passed to NoneType.__format__") c
        /\ failed_runs (data (board c)) = []
        /\ failed_files c = [])
  /\ (exists c,
        run_loop [ attempt_with_log "run_001" log_with_malformed_number;
                   attempt_with_log "run_002" sample_log ] 10
        = Aborted 1 (ValueError "could not convert string to float: '1.2.3'") c
        /\ failed_runs (data (board c)) = []
        /\ failed_files c = [])
  /\ (exists c,
        run_loop
          [ failing_to_copy no_copy_method (attempt_with_log "run_001" sample_log);
            attempt_with_log "run_002" sample_log ] 10
        = Aborted 1 no_copy_method c
        /\ List.length (get_top_results (board c)) = 1%nat
        /\ failed_runs (data (board c)) = []
        /\ failed_files c = []).
Proof.
  repeat split; eexists; repeat split; vm_compute; reflexivity.
Qed.

(* ================================================================== *)
(** * Further properties of the leaderboard *)
(* ================================================================== *)

Lemma null_or_numbers (l : list RunResult) :
  Forall (fun r => null_objective r = false) l
  \/ Exists (fun r => null_objective r = true) l.
Proof.
  induction l as [|x l [IH|IH]]; auto.
  destruct (null_objective x) eqn:E; auto.
Qed.

Lemma numbers_not_null (l : list RunResult) :
  Forall (fun r => null_objective r = false) l ->
  Exists (fun r => null_objective r = true) l -> False.
Proof.
  intros Hf He. apply Exists_exists in He. destruct He as (x & Hin & Hx).
  rewrite Forall_forall in Hf. specialize (Hf x Hin). congruence.
Qed.

Lemma max_loop_null_raises (rest : list RunResult) (best : RunResult) :
  rest <> [] ->
  Exists (fun r => null_objective r = true) (best :: rest) ->
  raises_TypeError (max_loop best rest).
Proof.
  revert best. induction rest as [|x rest IH]; intros best Hne Hex; [ congruence | ].
  simpl.
  destruct (null_objective best) eqn:Eb;
    [ destruct (key_gt_null best x) as [msg ->]; auto; now exists msg | ].
  destruct (null_objective x) eqn:Ex;
    [ destruct (key_gt_null best x) as [msg ->]; auto; now exists msg | ].
  destruct (key_gt_defined best x Eb Ex) as [v ->]. simpl.
  assert (Hrest : Exists (fun r => null_objective r = true) rest).
  { inversion Hex as [? ? H|? ? H]; subst; [ congruence | ].
    inversion H; subst; [ congruence | auto ]. }
  apply IH.
  - intros ->. inversion Hrest.
  - apply Exists_cons_tl. exact Hrest.
Qed.

(** On a board that is not empty the capacity plays no part in whether
    the call returns. *)
Lemma update_top_results_defined_nonempty (st : LeaderBoardState)
    (new_result : RunResult) (top_n : Z) :
  top_results st <> [] ->
  null_objective new_result = false ->
  Forall (fun r => null_objective r = false) (top_results st) ->
  exists l', update_top_results st new_result top_n = Return l'.
Proof.
  intros Hne Hnew Hboard. unfold update_top_results.
  destruct (Z.of_nat (List.length (top_results st)) <? top_n)%Z.
  - cbn [Py.bind]. apply py_sort_defined. apply Forall_app. auto.
  - destruct (top_results st) as [|x board] eqn:Eb; [ congruence | ].
    assert (Hmax : exists worst, py_max (x :: board) = Return worst).
    { inversion Hboard; subst. now apply max_loop_defined. }
    destruct Hmax as [worst Hmax]. rewrite Hmax. cbn [Py.bind].
    destruct (py_max_spec (x :: board) worst Hmax) as (before & after & Heq & Hb & Ha).
    rewrite Heq in *.
    apply Forall_app in Hboard. destruct Hboard as [H1 H2].
    inversion H2; subst.
    destruct (key_lt_defined new_result worst) as [better ->]; auto. cbn [Py.bind].
    destruct better.
    + rewrite py_remove_first_max by auto. cbn [Py.bind].
      apply py_sort_defined. rewrite !Forall_app. auto.
    + apply py_sort_defined. rewrite Forall_app. auto.
Qed.

Lemma update_top_results_null_raises (st : LeaderBoardState)
    (new_result : RunResult) (top_n : Z) :
  top_results st <> [] ->
  Exists (fun r => null_objective r = true) (new_result :: top_results st) ->
  raises_TypeError (update_top_results st new_result top_n).
Proof.
  intros Hne Hex. unfold update_top_results.
  destruct (top_results st) as [|x board] eqn:Eb; [ congruence | ].
  destruct (Z.of_nat (List.length (x :: board)) <? top_n)%Z.
  - cbn [Py.bind].
    assert (Hex' : Exists (fun r => null_objective r = true)
                     ((x :: board) ++ [new_result])).
    { apply Exists_app. inversion Hex; subst; auto. }
    destruct board as [|y board]; simpl app in *; now apply py_sort_null_raises.
  - destruct (null_or_numbers (x :: board)) as [Hnum|Hnull].
    + assert (Hnew : null_objective new_result = true).
      { inversion Hex; subst; auto. exfalso. eapply numbers_not_null; eauto. }
      assert (Hmax : exists worst, py_max (x :: board) = Return worst).
      { inversion Hnum; subst. now apply max_loop_defined. }
      destruct Hmax as [worst ->]. cbn [Py.bind].
      destruct (key_lt_null new_result worst) as [msg ->]; auto. now exists msg.
    + destruct board as [|y board].
      * change (py_max [x]) with (Return (A := RunResult) x). cbn [Py.bind].
        destruct (key_lt_null new_result x) as [msg ->]; [ | now exists msg ].
        right. inversion Hnull as [? ? H|? ? H]; subst; [ auto | inversion H ].
      * change (py_max (x :: y :: board)) with (max_loop x (y :: board)).
        destruct (max_loop_null_raises (y :: board) x) as [msg ->];
          [ discriminate | auto | now exists msg ].
Qed.

(** X1.  On an empty board [update_top_results] never compares
    anything: with a capacity of at least 1 it returns the candidate
    alone, whatever its objective; with a capacity of 0 or less it
    reaches [max] on the empty list and raises [ValueError]. *)
Theorem update_top_results_on_empty_board (st : LeaderBoardState)
    (new_result : RunResult) (top_n : Z) :
  top_results st = [] ->
  ((1 <= top_n)%Z -> update_top_results st new_result top_n = Return [new_result])
  /\ ((top_n <= 0)%Z ->
      update_top_results st new_result top_n
      = Raise (ValueError "max() arg is an empty sequence")).
Proof.
  intros Hempty. unfold update_top_results. rewrite Hempty. simpl List.length.
  split; intros Hn.
  - destruct (Z.ltb_spec (Z.of_nat 0) top_n); [ reflexivity | simpl in *; lia ].
  - destruct (Z.ltb_spec (Z.of_nat 0) top_n); [ simpl in *; lia | reflexivity ].
Qed.

Lemma update_top_results_on_empty_board_witness :
  ((1 <= 3)%Z ->
   update_top_results fresh_state (sample_result "a" (Some PyNone)) 3
   = Return [sample_result "a" (Some PyNone)])
  /\ ((3 <= 0)%Z ->
      update_top_results fresh_state (sample_result "a" (Some PyNone)) 3
      = Raise (ValueError "max() arg is an empty sequence")).
Proof.
  apply (update_top_results_on_empty_board fresh_state
           (sample_result "a" (Some PyNone)) 3).
  reflexivity.
Defined.

(** X2.  On a board that is not empty, whatever the capacity,
    [update_top_results] raises exactly when the objective of the
    candidate or of an entry is [None], and what it raises is
    [TypeError]; otherwise it returns. *)
Theorem update_top_results_fails_on_none_only (st : LeaderBoardState)
    (new_result : RunResult) (top_n : Z) :
  top_results st <> [] ->
  (Exists (fun r => null_objective r = true) (new_result :: top_results st) ->
   raises_TypeError (update_top_results st new_result top_n))
  /\ (Forall (fun r => null_objective r = false) (new_result :: top_results st) ->
      exists l', update_top_results st new_result top_n = Return l')
  /\ (forall e,
        update_top_results st new_result top_n = Raise e ->
        a_TypeError e
        /\ Exists (fun r => null_objective r = true) (new_result :: top_results st)).
Proof.
  intros Hne. split; [ | split ].
  - now apply update_top_results_null_raises.
  - intros H. inversion H; subst. now apply update_top_results_defined_nonempty.
  - intros e He.
    destruct (null_or_numbers (new_result :: top_results st)) as [Hnum|Hnull].
    + inversion Hnum; subst.
      destruct (update_top_results_defined_nonempty st new_result top_n) as [l' Hl'];
        auto.
      congruence.
    + split; auto.
      destruct (update_top_results_null_raises st new_result top_n Hne Hnull)
        as [msg Hmsg].
      rewrite Hmsg in He. injection He as <-. now exists msg.
Qed.

Lemma update_top_results_fails_on_none_only_witness :
  (Exists (fun r => null_objective r = true)
     (sample_result "a" (Some PyNone) :: sample_board) ->
   raises_TypeError
     (update_top_results (mkState sample_board [])
        (sample_result "a" (Some PyNone)) 5))
  /\ (Forall (fun r => null_objective r = false)
        (sample_result "a" (Some PyNone) :: sample_board) ->
      exists l',
        update_top_results (mkState sample_board [])
          (sample_result "a" (Some PyNone)) 5 = Return l')
  /\ (forall e,
        update_top_results (mkState sample_board [])
          (sample_result "a" (Some PyNone)) 5 = Raise e ->
        a_TypeError e
        /\ Exists (fun r => null_objective r = true)
             (sample_result "a" (Some PyNone) :: sample_board)).
Proof.
  apply (update_top_results_fails_on_none_only (mkState sample_board [])
           (sample_result "a" (Some PyNone)) 5).
  discriminate.
Defined.

Lemma update_top_results_length_eq (st : LeaderBoardState) (new_result : RunResult)
    (top_n : Z) (l' : list RunResult) :
  update_top_results st new_result top_n = Return l' ->
  List.length l'
  = if (Z.of_nat (List.length (top_results st)) <? top_n)%Z
    then S (List.length (top_results st))
    else List.length (top_results st).
Proof.
  intros H.
  destruct (update_top_results_admission _ _ _ _ H) as (updated & Hadm & Hsort).
  destruct (py_sort_spec _ _ Hsort) as [_ Hp]. rewrite (Permutation_length Hp).
  destruct Hadm as [Hlt | before after worst Hge Heq _ _ _
                        | before after worst Hge _ _ _ _].
  - apply Z.ltb_lt in Hlt. rewrite Hlt, length_app. simpl. lia.
  - apply Z.ltb_ge in Hge. rewrite Hge, Heq, !length_app. simpl. lia.
  - apply Z.ltb_ge in Hge. now rewrite Hge.
Qed.

(** X3.  A call of [update_top_results] that returns gives a board one
    entry longer when the board was under capacity, and a board of the
    same length otherwise: the board never shrinks, and from capacity on
    it never grows.  Over a run of admissions the length of the board
    therefore never decreases. *)
Theorem board_length_under_admission (writable : bool) (st : LeaderBoardState)
    (self : DataHandling) (new_result : RunResult) (results : list RunResult)
    (top_n : Z) :
  (forall l',
     update_top_results st new_result top_n = Return l' ->
     List.length l'
     = if (Z.of_nat (List.length (top_results st)) <? top_n)%Z
       then S (List.length (top_results st))
       else List.length (top_results st))
  /\ (List.length (get_top_results self)
      <= List.length (get_top_results (fst (admit_all writable self results top_n))))%nat.
Proof.
  split; [ intros l'; apply update_top_results_length_eq | ].
  revert self. induction results as [|r results IH]; intros self; simpl; auto.
  unfold add_result.
  destruct (update_top_results (data self) r top_n) as [top|e] eqn:E; simpl; auto.
  etransitivity; [ | apply IH ].
  unfold get_top_results. rewrite save_data_data. simpl.
  rewrite (update_top_results_length_eq _ _ _ _ E).
  destruct (_ <? _)%Z; lia.
Qed.

(** What one admission keeps and what it drops. *)
Lemma update_top_results_split (st : LeaderBoardState) (new_result : RunResult)
    (top_n : Z) (l' : list RunResult) :
  update_top_results st new_result top_n = Return l' ->
  exists dropped,
    Permutation (l' ++ dropped) (top_results st ++ [new_result])
    /\ (forall b d, In b l' -> In d dropped -> rank_le b d)
    /\ (dropped = [] \/ (top_n <= Z.of_nat (List.length l'))%Z)
    /\ (forall b, In b l' ->
        (Z.of_nat (List.length (top_results st)) < top_n)%Z
        \/ exists w, In w (top_results st) /\ rank_le b w).
Proof.
  intros H.
  destruct (update_top_results_admission _ _ _ _ H) as (updated & Hadm & Hsort).
  destruct (py_sort_spec _ _ Hsort) as [_ Hp].
  pose proof (Permutation_length Hp) as Hlen.
  destruct Hadm as [Hlt | before after worst Hge Heq Hb Ha Hbetter
                        | before after worst Hge Heq Hb Ha Hworse].
  - exists []. rewrite app_nil_r. repeat split; auto. intros; contradiction.
  - assert (Hboard : forall b, In b (before ++ after ++ [new_result]) ->
                               rank_le b worst).
    { intros b Hin. apply in_app_or in Hin. destruct Hin as [Hin|Hin].
      - rewrite Forall_forall in Hb. now apply rank_lt_le, Hb.
      - apply in_app_or in Hin. destruct Hin as [Hin|[<-|[]]].
        + rewrite Forall_forall in Ha. now apply Ha.
        + now apply rank_lt_le. }
    exists [worst]. split; [ | split; [ | split ] ].
    + rewrite Hp, Heq. rewrite <- !app_assoc. apply Permutation_app_head.
      change (Permutation (after ++ [new_result] ++ [worst])
                (worst :: (after ++ [new_result]))).
      rewrite app_assoc. symmetry. apply Permutation_cons_append.
    + intros b d Hb' [<-|[]]. apply Hboard. now apply (Permutation_in _ Hp).
    + right. rewrite Hlen, Heq in *. rewrite !length_app in *. simpl in *. lia.
    + intros b Hb'. right. exists worst. split.
      * rewrite Heq. apply in_elt.
      * apply Hboard. now apply (Permutation_in _ Hp).
  - assert (Hboard : forall b, In b (top_results st) -> rank_le b worst).
    { intros b Hin. rewrite Heq in Hin.
      apply in_app_or in Hin. destruct Hin as [Hin|[<-|Hin]].
      - rewrite Forall_forall in Hb. now apply rank_lt_le, Hb.
      - apply rank_le_refl.
      - rewrite Forall_forall in Ha. now apply Ha. }
    exists [new_result]. split; [ | split; [ | split ] ].
    + now rewrite Hp.
    + intros b d Hb' [<-|[]]. apply rank_le_trans with worst; auto.
      apply Hboard. now apply (Permutation_in _ Hp).
    + right. rewrite Hlen. lia.
    + intros b Hb'. right. exists b. split.
      * now apply (Permutation_in _ Hp).
      * apply rank_le_refl.
Qed.

Lemma admit_all_split (writable : bool) (top_n : Z) (results seen D : list RunResult)
    (self self' : DataHandling) :
  Permutation (get_top_results self ++ D) seen ->
  (forall b d, In b (get_top_results self) -> In d D -> rank_le b d) ->
  (D = [] \/ (top_n <= Z.of_nat (List.length (get_top_results self)))%Z) ->
  admit_all writable self results top_n = (self', Return tt) ->
  exists D',
    Permutation (get_top_results self' ++ D') (seen ++ results)
    /\ (forall b d, In b (get_top_results self') -> In d D' -> rank_le b d)
    /\ (D' = [] \/ (top_n <= Z.of_nat (List.length (get_top_results self')))%Z).
Proof.
  revert seen D self.
  induction results as [|r results IH]; intros seen D self Hperm Hrank Hfull H;
    simpl in H.
  - injection H as <-. exists D. rewrite app_nil_r. auto.
  - unfold add_result in H.
    destruct (update_top_results (data self) r top_n) as [top|e] eqn:E;
      [ | discriminate ].
    destruct (update_top_results_split _ _ _ _ E)
      as (dropped & Hp & Hr & Hf & Hfrom).
    pose proof (update_top_results_length_eq _ _ _ _ E) as Hlen.
    unfold get_top_results in *.
    apply (IH (seen ++ [r]) (dropped ++ D)) in H.
    + destruct H as (D' & H1 & H2 & H3). exists D'.
      rewrite <- app_assoc in H1. auto.
    + rewrite save_data_data. simpl.
      rewrite app_assoc, Hp, <- Hperm.
      rewrite <- !app_assoc. apply Permutation_app_head. apply Permutation_app_comm.
    + rewrite save_data_data. simpl. intros b d Hb Hd.
      apply in_app_or in Hd. destruct Hd as [Hd|Hd]; [ now apply Hr | ].
      destruct (Hfrom b Hb) as [Hunder | (w & Hw & Hbw)].
      * destruct Hfull as [-> | Hfull]; [ contradiction | lia ].
      * apply rank_le_trans with w; auto.
    + rewrite save_data_data. simpl.
      destruct Hfull as [-> | Hfull].
      * rewrite app_nil_r. exact Hf.
      * right. rewrite Hlen. destruct (_ <? _)%Z; lia.
Qed.

(** X4.  After a run of admissions that all return, the board holds the
    best of everything it was given: the entries of the board together
    with some dropped results are exactly the former board plus the
    results handed in, every entry of the board ranks no higher than
    every dropped result, and nothing is dropped before the board has
    reached its capacity. *)
Theorem board_keeps_the_best (writable : bool) (top_n : Z) (results : list RunResult)
    (self self' : DataHandling) :
  admit_all writable self results top_n = (self', Return tt) ->
  exists dropped,
    Permutation (get_top_results self' ++ dropped) (get_top_results self ++ results)
    /\ (forall b d, In b (get_top_results self') -> In d dropped -> rank_le b d)
    /\ (dropped = [] \/ (top_n <= Z.of_nat (List.length (get_top_results self')))%Z).
Proof.
  intros H.
  apply (admit_all_split writable top_n results (get_top_results self) [] self self');
    auto.
  - now rewrite app_nil_r.
  - intros b d _ [].
Qed.

Lemma board_keeps_the_best_witness :
  exists dropped,
    Permutation
      ([ sample_result "c" (Some (PyFloat (-2))); sample_result "a" (Some (PyFloat 3)) ]
       ++ dropped)
      (get_top_results constructed
       ++ [ sample_result "a" (Some (PyFloat 3)); sample_result "b" None;
            sample_result "c" (Some (PyFloat (-2))) ])
    /\ (forall b d,
          In b [ sample_result "c" (Some (PyFloat (-2)));
                 sample_result "a" (Some (PyFloat 3)) ] ->
          In d dropped -> rank_le b d)
    /\ (dropped = []
        \/ (2 <= Z.of_nat
                   (List.length [ sample_result "c" (Some (PyFloat (-2)));
                                  sample_result "a" (Some (PyFloat 3)) ]))%Z).
Proof.
  apply (board_keeps_the_best true 2
           [ sample_result "a" (Some (PyFloat 3)); sample_result "b" None;
             sample_result "c" (Some (PyFloat (-2))) ]
           constructed
           (mkDataHandling
              (mkState [ sample_result "c" (Some (PyFloat (-2)));
                         sample_result "a" (Some (PyFloat 3)) ] [])
              (Some (Document
                       (mkState [ sample_result "c" (Some (PyFloat (-2)));
                                  sample_result "a" (Some (PyFloat 3)) ] []))))).
  reflexivity.
Defined.




(* ================================================================== *)
(** * Further properties of the extractor *)
(* ================================================================== *)

(** X6.  [parse_result_data] fails with a [ValueError] and for one of
    two reasons only: one of the five number patterns (average, median
    and total profit, profit percentage, objective) matched a text that
    [float] rejects, or the trade count or one of the counts of wins,
    draws and losses is a run of more than 4300 digits, which [int]
    refuses.  It returns when neither happens, and the keys of the
    counts are then set exactly when their patterns match. *)
Theorem parse_result_data_failure_causes (line : string) :
  (forall e,
     parse_result_data line = Raise e ->
     a_ValueError e /\ conversion_failure line e)
  /\ ((forall pattern found,
         In pattern float_patterns -> search pattern line = Some found ->
         exists q, float (group 1 found) = Return q) ->
      (forall found,
         search trades_re line = Some found ->
         ~ over_the_digit_limit (group 1 found)) ->
      (forall found k,
         search wdl_re line = Some found -> In k [1; 2; 3]%nat ->
         ~ over_the_digit_limit (group k found)) ->
      exists m, parse_result_data line = Return m)
  /\ (forall m,
        parse_result_data line = Return m ->
        (total_trades m = None <-> search trades_re line = None)
        /\ (wins_draws_losses m = None <-> search wdl_re line = None)
        /\ (win_rate m = None <-> search wdl_re line = None))
  /\ parse_result_data line_with_long_count
     = Raise
         (ValueError
            "Exceeds the limit (4300 digits) for integer string conversion: value has 4301 digits; use sys.set_int_max_str_digits() to increase the limit").
Proof.
  split; [ | split; [ | split ] ].
  - intros e H. split.
    + exact (parse_result_data_raises line e H).
    + exact (parse_result_data_raise_cause line e H).
  - intros Hfloat Htrades Hwdl.
    destruct (parse_result_data line) as [m|e] eqn:E; [ eauto | exfalso ].
    destruct (parse_result_data_raise_cause line e E)
      as [(pattern & found & Hin & Hs & Hf)
         | [(found & Hs & Hover & _) | (found & k & Hs & Hk & Hover & _)]].
    + destruct (Hfloat pattern found Hin Hs) as [q Hq]. congruence.
    + exact (Htrades found Hs Hover).
    + exact (Hwdl found k Hs Hk Hover).
  - intros m H.
    destruct (parse_result_data_fields line m H) as (H1 & H2 & H3 & _).
    destruct (parse_result_data_returns line m H)
      as (m1 & m2 & ? & ? & ? & ? & ? & E1 & E2 & _).
    apply read_of_extract_field in E1. apply read_of_extract_field in E2.
    assert (Hmap : forall (B : Type) (f : string * Q -> B) o,
              option_map f o = None <-> o = None)
      by (intros B f [v|]; simpl; split; congruence).
    rewrite H1, H2, H3.
    split; [ exact E1 | split ];
      (split;
       [ intros Hn; apply E2; now apply Hmap in Hn
       | intros Hn; apply Hmap; now apply E2 ]).
  - vm_compute. reflexivity.
Qed.

Lemma read_unsigned_nonneg (pattern : regex) (line : string) (q : Q) :
  In pattern [avg_profit_re; median_profit_re; total_profit_re; profit_percent_re] ->
  read pattern (fun found => float (group 1 found)) line = Some q ->
  (0 <= q)%Q.
Proof.
  intros Hin H. unfold read in H.
  destruct (search pattern line) as [found|] eqn:Hs; [ | discriminate ].
  destruct (float (group 1 found)) as [v|] eqn:Hf; [ | discriminate ].
  injection H as <-.
  eapply float_of_unsigned; [ | exact Hf ]. eapply unsigned_capture; eauto.
Qed.

Lemma extract_data_metrics (log : log_file) (run_dir : path) (r : RunResult) :
  LogExtractor.extract_data log run_dir = Return r ->
  exists line m,
    parse_result_data line = Return m
    /\ run r = path_name run_dir
    /\ profit r = match total_profit m with Some p => p | None => 0%Q end
    /\ objective r = Some (match m_objective m with
                           | Some v => PyFloat v
                           | None => PyNone
                           end)
    /\ total_profit (metrics r) = total_profit m
    /\ m_objective (metrics r) = m_objective m.
Proof.
  unfold LogExtractor.extract_data.
  destruct log as [| name msg | msg | content]; try discriminate.
  destruct (contains marker content); simpl; [ | discriminate ].
  rewrite parse_log_file_outcome.
  destruct (first_marker _) as [i|]; [ | discriminate ].
  destruct (nth_error _ _) as [line|]; [ | discriminate ].
  destruct (truthy line); [ | discriminate ].
  destruct (parse_result_data line) as [m|e] eqn:Em; simpl; [ | discriminate ].
  intros H. injection H as <-. exists line, m. simpl.
  destruct (recover_max_drawdown _ _ _); simpl; auto 10.
Qed.

(** X7.  No profit figure read from a result line is negative: the
    patterns of the average, median and total profit and of the profit
    percentage capture digits and points only, so a losing figure (with
    its minus sign) is not matched at all; the [profit] of an extracted
    result, which defaults to 0, is never negative either. *)
Theorem extracted_profits_are_never_negative (line : string) (m : Metrics)
    (log : log_file) (run_dir : path) (r : RunResult) :
  (parse_result_data line = Return m ->
   (forall q, avg_profit m = Some q -> (0 <= q)%Q)
   /\ (forall q, median_profit m = Some q -> (0 <= q)%Q)
   /\ (forall q, total_profit m = Some q -> (0 <= q)%Q)
   /\ (forall q, profit_percent m = Some q -> (0 <= q)%Q))
  /\ (LogExtractor.extract_data log run_dir = Return r -> (0 <= profit r)%Q)
  /\ (exists m',
        parse_result_data "10 trades. Avg profit -2.35%. Total profit -12.5 USDT"
        = Return m'
        /\ avg_profit m' = None /\ total_profit m' = None).
Proof.
  assert (Hall : forall l m0,
            parse_result_data l = Return m0 ->
            (forall q, avg_profit m0 = Some q -> (0 <= q)%Q)
            /\ (forall q, median_profit m0 = Some q -> (0 <= q)%Q)
            /\ (forall q, total_profit m0 = Some q -> (0 <= q)%Q)
            /\ (forall q, profit_percent m0 = Some q -> (0 <= q)%Q)).
  { intros l m0 H.
    destruct (parse_result_data_fields l m0 H)
      as (_ & _ & _ & H4 & H5 & H6 & H7 & _).
    rewrite H4, H5, H6, H7.
    repeat split; intros q; apply read_unsigned_nonneg; simpl; tauto. }
  split; [ apply Hall | split ].
  - intros H. destruct (extract_data_metrics _ _ _ H)
      as (l & m0 & Hm & _ & Hp & _).
    rewrite Hp. destruct (Hall l m0 Hm) as (_ & _ & Ht & _).
    destruct (total_profit m0) as [p|]; [ now apply Ht | apply Qle_refl ].
  - eexists. repeat split; vm_compute; reflexivity.
Qed.

(** X8.  The win rate stored by [parse_result_data] lies between 0 and
    1. *)
Theorem win_rate_is_a_fraction (line : string) (m : Metrics) (q : Q) :
  parse_result_data line = Return m ->
  win_rate m = Some q ->
  (0 <= q /\ q <= 1)%Q.
Proof.
  intros H Hq.
  destruct (parse_result_data_fields line m H) as (_ & _ & H3 & _).
  rewrite H3 in Hq. unfold read in Hq.
  destruct (search wdl_re line) as [found|]; [ | discriminate ].
  destruct (wdl_of_match found) as [[text rate]|] eqn:E; [ | discriminate ].
  simpl in Hq. injection Hq as ->.
  destruct (wdl_of_match_rate _ _ _ E)
    as (w & d & l & _ & _ & _ & (Hw & Hd & Hl) & Hzero & Hpos).
  destruct (Z.eq_dec (w + d + l) 0) as [H0|Hne].
  - rewrite (Hzero H0). split; unfold Qle; simpl; lia.
  - rewrite (Hpos Hne).
    assert (Ht : (0 < inject_Z (w + d + l))%Q).
    { unfold Qlt, inject_Z. simpl. lia. }
    split.
    + apply Qle_shift_div_l; auto. rewrite Qmult_0_l.
      unfold Qle, inject_Z. simpl. lia.
    + apply Qle_shift_div_r; auto. rewrite Qmult_1_l.
      unfold Qle, inject_Z. simpl. lia.
Qed.

Lemma win_rate_is_a_fraction_witness :
  (0 <= 80 # 150 /\ 80 # 150 <= 1)%Q.
Proof.
  apply (win_rate_is_a_fraction five_token_line
           (mkMetrics (Some 150%Z) (Some "80/10/60"%string) (Some (80 # 150)%Q)
              (Some 2.35%Q) None (Some 123.45%Q) (Some 12.3%Q) None
              (Some (-1.234)%Q) None)
           (80 # 150)).
  - vm_compute. reflexivity.
  - reflexivity.
Defined.

(** X9.  [extract_data] has these ways to fail and no other: the log
    file is missing, the text has no marker, the line two below the
    marker is missing or empty (three [RuntimeError]s, which [run_loop]
    catches); the log file cannot be read (an [OSError]) or is not valid
    text (a [UnicodeDecodeError]); or, on the result line, a number
    pattern matched a text that [float] rejects or a count is a run of
    more than 4300 digits (a [ValueError]).  The last three are no
    [RuntimeError] and [run_loop] does not catch them. *)
Theorem extract_data_failure_causes (log : log_file) (run_dir : path) (e : exn) :
  LogExtractor.extract_data log run_dir = Raise e ->
  (log = NoLog /\ e = no_log_file run_dir /\ is_RuntimeError e = true)
  \/ (exists name msg,
        log = LogUnreadable name msg
        /\ e = OSError name msg /\ is_RuntimeError e = false)
  \/ (exists msg,
        log = LogNotText msg
        /\ e = UnicodeDecodeError msg /\ is_RuntimeError e = false)
  \/ (exists content,
        log = LogText content /\ contains marker content = false
        /\ e = no_marker /\ is_RuntimeError e = true)
  \/ (exists content i,
        log = LogText content
        /\ first_marker (split newline content) = Some i
        /\ (nth_error (split newline content) (i + 2) = None
            \/ nth_error (split newline content) (i + 2) = Some EmptyString)
        /\ e = no_result_line /\ is_RuntimeError e = true)
  \/ (exists content i line,
        log = LogText content
        /\ first_marker (split newline content) = Some i
        /\ nth_error (split newline content) (i + 2) = Some line
        /\ conversion_failure line e
        /\ a_ValueError e /\ is_RuntimeError e = false).
Proof.
  unfold LogExtractor.extract_data.
  destruct log as [| name msg | msg | content].
  - intros H. injection H as <-. left. auto.
  - intros H. injection H as <-. right. left. exists name, msg. auto.
  - intros H. injection H as <-. right. right. left. exists msg. auto.
  - intros H0. do 3 right. revert H0.
    destruct (contains marker content) eqn:Ec; simpl.
    + rewrite parse_log_file_outcome.
      destruct (marker_in_a_line content Ec) as [i Hi]. rewrite Hi.
      destruct (nth_error (split newline content) (i + 2)) as [line|] eqn:El.
      * destruct line as [|c line]; simpl.
        -- intros H. injection H as <-. right. left.
           exists content, i. auto 10.
        -- destruct (parse_result_data (String c line)) as [m|e'] eqn:Em; simpl;
             [ discriminate | ].
           intros H. injection H as <-.
           pose proof (parse_result_data_raise_cause _ _ Em) as Hcause.
           destruct (parse_result_data_raises _ _ Em) as [msg ->].
           right. right.
           exists content, i, (String c line).
           repeat split; auto. now exists msg.
      * intros H. injection H as <-. right. left.
        exists content, i. auto 10.
    + intros H. injection H as <-. left. exists content. auto.
Qed.

Lemma extract_data_failure_causes_witness :
  (LogText log_with_malformed_number = NoLog
   /\ not_a_float "1.2.3" = no_log_file (run_directory "run_001")
   /\ is_RuntimeError (not_a_float "1.2.3") = true)
  \/ (exists name msg,
        LogText log_with_malformed_number = LogUnreadable name msg
        /\ not_a_float "1.2.3" = OSError name msg
        /\ is_RuntimeError (not_a_float "1.2.3") = false)
  \/ (exists msg,
        LogText log_with_malformed_number = LogNotText msg
        /\ not_a_float "1.2.3" = UnicodeDecodeError msg
        /\ is_RuntimeError (not_a_float "1.2.3") = false)
  \/ (exists content,
        LogText log_with_malformed_number = LogText content
        /\ contains marker content = false
        /\ not_a_float "1.2.3" = no_marker
        /\ is_RuntimeError (not_a_float "1.2.3") = true)
  \/ (exists content i,
        LogText log_with_malformed_number = LogText content
        /\ first_marker (split newline content) = Some i
        /\ (nth_error (split newline content) (i + 2) = None
            \/ nth_error (split newline content) (i + 2) = Some EmptyString)
        /\ not_a_float "1.2.3" = no_result_line
        /\ is_RuntimeError (not_a_float "1.2.3") = true)
  \/ (exists content i line,
        LogText log_with_malformed_number = LogText content
        /\ first_marker (split newline content) = Some i
        /\ nth_error (split newline content) (i + 2) = Some line
        /\ conversion_failure line (not_a_float "1.2.3")
        /\ a_ValueError (not_a_float "1.2.3")
        /\ is_RuntimeError (not_a_float "1.2.3") = false).
Proof.
  apply (extract_data_failure_causes (LogText log_with_malformed_number)
           (run_directory "run_001") (not_a_float "1.2.3")).
  vm_compute. reflexivity.
Defined.

(** ** Parameter groups *)

Lemma collect_section_found (param_type section_header : string) (lines : list string)
    (in_section : bool) (param_text : list string) (text : string) :
  collect_section param_type section_header in_section param_text lines = Some text ->
  truthy (strip text) = true
  /\ (in_section = true
      \/ exists line, In line lines /\ contains section_header line = true).
Proof.
  revert in_section param_text.
  induction lines as [|line lines IH]; intros in_section param_text H;
    [ discriminate | ].
  cbn [collect_section] in H.
  assert (Hlater : forall b acc,
            collect_section param_type section_header b acc lines = Some text ->
            truthy (strip text) = true
            /\ (b = true
                \/ exists l, In l (line :: lines) /\ contains section_header l = true)).
  { intros b acc Hc. destruct (IH b acc Hc) as [Ht [Hb|(l & Hl & Hh)]]; auto.
    split; auto. right. exists l. simpl. auto. }
  destruct (contains section_header line) eqn:Eh.
  - assert (Hhere : exists l, In l (line :: lines) /\ contains section_header l = true)
      by (exists line; simpl; auto).
    destruct (String.eqb param_type "roi_params"
              && contains "# value loaded from strategy" line); [ discriminate | ].
    destruct (Hlater _ _ H); auto.
  - destruct in_section.
    + destruct (contains (param_type ++ " = {")%string line).
      * destruct (String.index 0 "{" line); destruct (Hlater _ _ H); auto.
      * destruct (contains "}" line).
        -- match type of H with
           | (if truthy (strip ?t) then _ else _) = _ =>
               destruct (truthy (strip t)) eqn:Et; [ | discriminate ]
           end.
           injection H as <-. auto.
        -- destruct (negb (contains "#" line)); destruct (Hlater _ _ H); auto.
    + destruct (Hlater _ _ H) as [Ht [Hb|Hb]]; [ discriminate | auto ].
Qed.

Lemma collect_params_keys (sections : list (string * string)) (lines : list string)
    (k text : string) :
  In (k, text) (collect_params sections lines) ->
  exists section_header,
    In (k, section_header) sections
    /\ collect_section k section_header false [] lines = Some text.
Proof.
  induction sections as [|[pt header] sections IH]; simpl; [ tauto | ].
  destruct (collect_section pt header false [] lines) as [t|] eqn:E.
  - intros [H|H].
    + injection H as <- <-. eauto.
    + destruct (IH H) as (h & Hin & Hc). eauto.
  - intros H. destruct (IH H) as (h & Hin & Hc). eauto.
Qed.

Lemma collect_params_nodup (sections : list (string * string)) (lines : list string) :
  NoDup (map fst sections) ->
  NoDup (map fst (collect_params sections lines)).
Proof.
  induction sections as [|[pt header] sections IH]; simpl; intros H; [ constructor | ].
  inversion H; subst.
  destruct (collect_section pt header false [] lines) as [t|]; auto.
  simpl. constructor; auto.
  intros Hin. apply in_map_iff in Hin. destruct Hin as ([k text] & <- & Hin).
  destruct (collect_params_keys _ _ _ _ Hin) as (h & Hs & _).
  apply H2. apply in_map_iff. exists (k, h). auto.
Qed.

Lemma extract_data_params (content : string) (run_dir : path) (r : RunResult) :
  LogExtractor.extract_data (LogText content) run_dir = Return r ->
  params r = collect_params param_sections (split newline content).
Proof.
  unfold LogExtractor.extract_data.
  destruct (contains marker content); simpl; [ | discriminate ].
  rewrite parse_log_file_outcome.
  destruct (first_marker _) as [i|]; [ | discriminate ].
  destruct (nth_error _ _) as [line|]; [ | discriminate ].
  destruct (truthy line); [ | discriminate ].
  destruct (parse_result_data line) as [m|e]; simpl; [ | discriminate ].
  intros H. now injection H as <-.
Qed.

(** X10.  The parameter groups of an extracted result are keyed by the
    seven known group names only, each at most once; a group is there
    only if some line of the log holds its section header, and its text
    is never blank: a section that is missing or empty leaves no entry,
    not an empty one. *)
Theorem params_hold_known_nonblank_groups (content : string) (run_dir : path) (r : RunResult) :
  LogExtractor.extract_data (LogText content) run_dir = Return r ->
  NoDup (map fst (params r))
  /\ forall k text,
       In (k, text) (params r) ->
       truthy (strip text) = true
       /\ exists section_header line,
            In (k, section_header) param_sections
            /\ In line (split newline content)
            /\ contains section_header line = true.
Proof.
  intros H. rewrite (extract_data_params _ _ _ H). split.
  - apply collect_params_nodup. unfold param_sections. simpl.
    repeat constructor; simpl; intuition discriminate.
  - intros k text Hin.
    destruct (collect_params_keys _ _ _ _ Hin) as (header & Hsec & Hc).
    destruct (collect_section_found _ _ _ _ _ _ Hc) as [Ht [Hb|(line & Hl & Hh)]];
      [ discriminate | ].
    split; auto. exists header, line. auto.
Qed.

Lemma params_hold_known_nonblank_groups_witness :
  NoDup (map fst [("buy_params", "x: 1"%string)])
  /\ forall k text,
       In (k, text) [("buy_params", "x: 1"%string)] ->
       truthy (strip text) = true
       /\ exists section_header line,
            In (k, section_header) param_sections
            /\ In line
                 (split newline
                    (text_of_lines
                       [ "Best result:"; ""; "    7/100:    10 trades.";
                         "# Buy parameters:"; "buy_params = {"; "x: 1"; "}" ]))
            /\ contains section_header line = true.
Proof.
  apply (params_hold_known_nonblank_groups
           (text_of_lines
              [ "Best result:"; ""; "    7/100:    10 trades.";
                "# Buy parameters:"; "buy_params = {"; "x: 1"; "}" ])
           (run_directory "run_001")
           (mkRunResult "run_001" 0 (Some PyNone) None
              (mkMetrics (Some 10%Z) None None None None None None None None None)
              [("buy_params", "x: 1"%string)])).
  vm_compute. reflexivity.
Defined.

Lemma collect_section_skip (param_type section_header : string)
    (before rest : list string) (param_text : list string) :
  (forall l, In l before -> contains section_header l = false) ->
  collect_section param_type section_header false param_text (before ++ rest)
  = collect_section param_type section_header false param_text rest.
Proof.
  induction before as [|l before IH]; intros H; [ reflexivity | ].
  simpl app. cbn [collect_section].
  rewrite (H l) by (simpl; auto). apply IH. intros l' Hl'. apply H. simpl. auto.
Qed.

(** X11.  When the first line holding the ROI section header also says
    that the value was loaded from the strategy, the result has no
    [roi_params] group, whatever follows. *)
Theorem roi_loaded_from_strategy_is_skipped (before after : list string)
    (line : string) :
  (forall l, In l before -> contains "# ROI parameters:" l = false) ->
  contains "# ROI parameters:" line = true ->
  contains "# value loaded from strategy" line = true ->
  ~ In "roi_params"%string
      (map fst (collect_params param_sections (before ++ line :: after))).
Proof.
  intros Hbefore Hheader Hloaded Hin.
  apply in_map_iff in Hin. destruct Hin as ([k text] & Hk & Hin).
  simpl in Hk. subst k.
  destruct (collect_params_keys _ _ _ _ Hin) as (header & Hsec & Hc).
  assert (Hh : header = "# ROI parameters:"%string).
  { unfold param_sections in Hsec. simpl in Hsec.
    destruct Hsec as [H|[H|[H|[H|[H|[H|[H|[]]]]]]]];
      try discriminate H; injection H as <-; reflexivity. }
  subst header.
  rewrite collect_section_skip in Hc by assumption.
  cbn [collect_section] in Hc. rewrite Hheader, Hloaded in Hc.
  discriminate.
Qed.

Lemma roi_loaded_from_strategy_is_skipped_witness :
  ~ In "roi_params"%string
      (map fst
         (collect_params param_sections
            ([ "Best result:"%string ]
             ++ "    # ROI parameters:  # value loaded from strategy"%string
                :: [ "    minimal_roi = {"%string; "        0: 0.1"%string; "    }"%string ]))).
Proof.
  apply (roi_loaded_from_strategy_is_skipped [ "Best result:"%string ]
           [ "    minimal_roi = {"%string; "        0: 0.1"%string; "    }"%string ]
           "    # ROI parameters:  # value loaded from strategy").
  - intros l [<-|[]]. reflexivity.
  - reflexivity.
  - reflexivity.
Defined.

(* ================================================================== *)
(** * Further properties of the watcher *)
(* ================================================================== *)

Lemma Qltb_true (a b : Q) : Qltb a b = true <-> (a < b)%Q.
Proof.
  unfold Qltb. rewrite negb_true_iff. split.
  - intros H. apply Qnot_le_lt. intros Hle. apply Qle_bool_iff in Hle. congruence.
  - intros H. destruct (Qle_bool b a) eqn:E; auto.
    apply Qle_bool_iff in E. exfalso. eapply Qlt_not_le; eauto.
Qed.

Lemma probe_loop_never_found (strategy_json : string) (r : round) :
  never_found r -> probe_loop strategy_json r 0 max_retries = None.
Proof.
  unfold never_found, max_retries. intros H. simpl.
  rewrite !H by lia. reflexivity.
Qed.

Lemma liveness_check (r : round) :
  negb (hyperopt_running r) && Qltb MIN_WAIT_BEFORE_PROCESS_CHECK (elapsed r) = false
  <-> still_expected r.
Proof.
  unfold still_expected. split.
  - intros H. apply andb_false_iff in H. destruct H as [H|H].
    + left. now apply negb_false_iff.
    + right. apply Qnot_lt_le. intros Hlt. apply Qltb_true in Hlt. congruence.
  - intros [H|H].
    + now rewrite H.
    + apply andb_false_iff. right.
      destruct (Qltb _ _) eqn:E; auto.
      apply Qltb_true in E. exfalso. eapply Qlt_not_le; eauto.
Qed.

Lemma wait_undecided (strategy_json : string) (rounds more : list round) :
  Forall never_found rounds -> Forall still_expected rounds ->
  wait_for_hyperopt_completion strategy_json (rounds ++ more) = wait_for_hyperopt_completion strategy_json more.
Proof.
  induction rounds as [|r rounds IH]; intros Hn He; [ reflexivity | ].
  inversion Hn; subst. inversion He; subst.
  simpl app. cbn [wait_for_hyperopt_completion].
  rewrite probe_loop_never_found by assumption.
  assert (Hl : negb (hyperopt_running r)
               && Qltb MIN_WAIT_BEFORE_PROCESS_CHECK (elapsed r) = false)
    by now apply liveness_check.
  rewrite Hl. auto.
Qed.

Lemma wait_no_artifact_cause (strategy_json : string) (rounds : list round) :
  wait_for_hyperopt_completion strategy_json rounds = Ended (Raise no_artifact) ->
  exists r,
    In r rounds /\ hyperopt_running r = false
    /\ (MIN_WAIT_BEFORE_PROCESS_CHECK < elapsed r)%Q.
Proof.
  induction rounds as [|r rounds IH]; cbn [wait_for_hyperopt_completion];
    [ discriminate | ].
  destruct (probe_loop strategy_json r 0 max_retries) as [[[]|e]|] eqn:E.
  - discriminate.
  - intros H. injection H as ->. apply probe_loop_raises in E.
    destruct E as [[E _] | (k & _ & Hat)];
      [ | apply escapes_at_is_no_RuntimeError in Hat; discriminate Hat ].
    unfold unreadable, no_artifact in E. simpl in E. discriminate E.
  - destruct (negb (hyperopt_running r) && _) eqn:El.
    + intros _. apply andb_true_iff in El. destruct El as [Hr Ht].
      exists r. repeat split; [ now left | now apply negb_true_iff | ].
      now apply Qltb_true.
    + intros H. destruct (IH H) as (r' & Hin & Hr & Ht).
      exists r'. repeat split; auto. now right.
Qed.

(** X12.  As long as the strategy JSON file is not found, the wait goes
    on through every turn at which a hyperopt process is seen or at most
    60 seconds have passed, and fails with the no-artifact error at the
    first turn at which no process is seen and more than 60 seconds have
    passed.  In any case that failure means that at some turn no process
    was seen after more than 60 seconds. *)
Theorem no_artifact_failure_needs_a_dead_process (strategy_json : string)
    (before after : list round) (r : round) :
  Forall never_found before -> Forall still_expected before ->
  wait_for_hyperopt_completion strategy_json before = StillWaiting
  /\ (never_found r -> hyperopt_running r = false ->
      (MIN_WAIT_BEFORE_PROCESS_CHECK < elapsed r)%Q ->
      wait_for_hyperopt_completion strategy_json (before ++ r :: after) = Ended (Raise no_artifact))
  /\ (forall rounds,
        wait_for_hyperopt_completion strategy_json rounds = Ended (Raise no_artifact) ->
        exists r',
          In r' rounds /\ hyperopt_running r' = false
          /\ (MIN_WAIT_BEFORE_PROCESS_CHECK < elapsed r')%Q).
Proof.
  intros Hn He. split; [ | split ].
  - rewrite <- (app_nil_r before). now rewrite wait_undecided.
  - intros Hr Hdead Hlate. rewrite wait_undecided by assumption.
    cbn [wait_for_hyperopt_completion].
    rewrite probe_loop_never_found by assumption.
    rewrite Hdead. apply Qltb_true in Hlate. rewrite Hlate. reflexivity.
  - apply wait_no_artifact_cause.
Qed.

Lemma no_artifact_failure_needs_a_dead_process_witness :
  wait_for_hyperopt_completion "Strategy.json" [sees_nothing false 30; sees_nothing true 90]
  = StillWaiting
  /\ (never_found (sees_nothing false 61) ->
      hyperopt_running (sees_nothing false 61) = false ->
      (MIN_WAIT_BEFORE_PROCESS_CHECK < elapsed (sees_nothing false 61))%Q ->
      wait_for_hyperopt_completion "Strategy.json"
        ([sees_nothing false 30; sees_nothing true 90]
         ++ sees_nothing false 61 :: [sees_file])
      = Ended (Raise no_artifact))
  /\ (forall rounds,
        wait_for_hyperopt_completion "Strategy.json" rounds = Ended (Raise no_artifact) ->
        exists r',
          In r' rounds /\ hyperopt_running r' = false
          /\ (MIN_WAIT_BEFORE_PROCESS_CHECK < elapsed r')%Q).
Proof.
  apply (no_artifact_failure_needs_a_dead_process "Strategy.json"
           [sees_nothing false 30; sees_nothing true 90] [sees_file]
           (sees_nothing false 61)).
  - repeat constructor.
  - constructor; [ right; unfold Qle; simpl; lia | ].
    constructor; [ left; reflexivity | constructor ].
Defined.

Lemma wait_ended_prefix (strategy_json : string) (rounds more : list round)
    (result : outcome unit) :
  wait_for_hyperopt_completion strategy_json rounds = Ended result ->
  wait_for_hyperopt_completion strategy_json (rounds ++ more) = Ended result.
Proof.
  induction rounds as [|r rounds IH]; cbn [wait_for_hyperopt_completion];
    [ discriminate | ].
  simpl app. cbn [wait_for_hyperopt_completion].
  destruct (probe_loop strategy_json r 0 max_retries); auto.
  destruct (negb (hyperopt_running r) && _); auto.
Qed.

Lemma wait_still_waiting_prefix (strategy_json : string) (rounds more : list round) :
  wait_for_hyperopt_completion strategy_json rounds = StillWaiting ->
  wait_for_hyperopt_completion strategy_json (rounds ++ more) = wait_for_hyperopt_completion strategy_json more.
Proof.
  induction rounds as [|r rounds IH]; cbn [wait_for_hyperopt_completion]; auto.
  simpl app. cbn [wait_for_hyperopt_completion].
  destruct (probe_loop strategy_json r 0 max_retries); [ discriminate | ].
  destruct (negb (hyperopt_running r) && _); [ discriminate | auto ].
Qed.

(* ================================================================== *)
(** * Further properties of the orchestrator *)
(* ================================================================== *)

Lemma numeric_not_null (r : RunResult) : numeric r -> null_objective r = false.
Proof. intros [q H]. unfold null_objective. now rewrite H. Qed.

Lemma json_records_app (l1 l2 : list (Z * marker_file)) :
  json_records (l1 ++ l2) = json_records l1 ++ json_records l2.
Proof.
  induction l1 as [|[id [record|msg]] l1 IH]; simpl; auto. now rewrite IH.
Qed.

(** What the ranking raises is no [RuntimeError]. *)
Lemma update_top_results_raises_any (st : LeaderBoardState) (new_result : RunResult)
    (top_n : Z) (e : exn) :
  update_top_results st new_result top_n = Raise e ->
  is_RuntimeError e = false.
Proof.
  destruct (top_results st) as [|x board] eqn:Eb.
  - unfold update_top_results. rewrite Eb.
    destruct (_ <? _)%Z; simpl; intros H; [ discriminate | ].
    injection H as <-. reflexivity.
  - intros H.
    destruct (null_or_numbers (new_result :: top_results st)) as [Hnum|Hnull].
    + inversion Hnum; subst.
      destruct (update_top_results_defined_nonempty st new_result top_n)
        as [l' Hl']; auto; congruence.
    + destruct (update_top_results_null_raises st new_result top_n) as [msg Hmsg];
        [ rewrite Eb; discriminate | exact Hnull | ].
      rewrite Hmsg in H. injection H as <-. reflexivity.
Qed.

(** How [run_hyperopt_window] ends. *)
Lemma run_hyperopt_window_raised (a : Attempt) (c c' : Campaign) (run_id : Z)
    (e : exn) :
  run_hyperopt_window a c run_id = (c', Raised e) ->
  c' = c /\ reaches_the_outer_handler a e.
Proof.
  unfold run_hyperopt_window, handle_hyperopt_failure, reaches_the_outer_handler.
  destruct (launch_raises a) as [e0|].
  - intros H. injection H as <- <-. auto.
  - destruct (wait_for_hyperopt_completion (strategy_json a) (observations a))
      as [[[]|e0]|]; try discriminate.
    destruct (is_RuntimeError e0) eqn:Ert.
    + destruct (window_write_raises a) as [e1|]; intros H; [ | discriminate ].
      injection H as <- <-. split; auto. right. split; auto.
      exists e0. split; auto.
    + intros H. injection H as <- <-. split; auto. right. split; auto.
      exists e0. split; auto.
Qed.

Lemma run_hyperopt_window_hanging (a : Attempt) (c c' : Campaign) (run_id : Z) :
  run_hyperopt_window a c run_id = (c', Hanging) ->
  wait_for_hyperopt_completion (strategy_json a) (observations a) = StillWaiting
  /\ c' = c.
Proof.
  unfold run_hyperopt_window, handle_hyperopt_failure.
  destruct (launch_raises a); [ discriminate | ].
  destruct (wait_for_hyperopt_completion (strategy_json a) (observations a))
    as [[[]|e]|].
  - discriminate.
  - destruct (is_RuntimeError e); [ | discriminate ].
    destruct (window_write_raises a); discriminate.
  - intros H. injection H as <-. auto.
Qed.

Lemma run_hyperopt_window_value (a : Attempt) (c c' : Campaign) (run_id : Z)
    (v : option path) :
  run_hyperopt_window a c run_id = (c', Value v) ->
  (v = Some (run_dir a) /\ c' = c
   /\ wait_for_hyperopt_completion (strategy_json a) (observations a)
      = Ended (Return tt))
  \/ (v = None /\ exists e, c' = fst (handle_hyperopt_failure a None c run_id e)).
Proof.
  unfold run_hyperopt_window, handle_hyperopt_failure.
  destruct (launch_raises a); [ discriminate | ].
  destruct (wait_for_hyperopt_completion (strategy_json a) (observations a))
    as [[[]|e]|].
  - intros H. injection H as <- <-. auto.
  - destruct (is_RuntimeError e); [ | discriminate ].
    destruct (window_write_raises a); intros H; [ discriminate | ].
    injection H as <- <-. right. split; auto. exists e. reflexivity.
  - discriminate.
Qed.

(** How [run_single] ends. *)
Lemma run_single_raised (a : Attempt) (c c' : Campaign) (run_id : Z) (e : exn) :
  run_single a c run_id = (c', Raised e) ->
  c' = c
  /\ (mkdir_raises a = Some e
      \/ (mkdir_raises a = None
          /\ (exists e0, reaches_the_outer_handler a e0)
          /\ (retry_mkdir_raises a = Some e
              \/ (retry_mkdir_raises a = None /\ retry_write_raises a = Some e)))).
Proof.
  unfold run_single. destruct (mkdir_raises a) as [e'|].
  - intros H. injection H as <- <-. auto.
  - destruct (run_hyperopt_window a c run_id) as [c1 [v|e1|]] eqn:Ew;
      try discriminate.
    apply run_hyperopt_window_raised in Ew. destruct Ew as [-> Hreach].
    unfold handle_hyperopt_failure.
    destruct (retry_mkdir_raises a) as [e2|].
    + intros H. injection H as <- <-. split; auto. right. eauto 6.
    + destruct (retry_write_raises a) as [e2|]; intros H; [ | discriminate ].
      injection H as <- <-. split; auto. right. eauto 8.
Qed.

Lemma run_single_hanging (a : Attempt) (c c' : Campaign) (run_id : Z) :
  run_single a c run_id = (c', Hanging) ->
  wait_for_hyperopt_completion (strategy_json a) (observations a) = StillWaiting
  /\ c' = c.
Proof.
  unfold run_single. destruct (mkdir_raises a); [ discriminate | ].
  destruct (run_hyperopt_window a c run_id) as [c1 [v|e1|]] eqn:Ew.
  - discriminate.
  - unfold handle_hyperopt_failure.
    destruct (retry_mkdir_raises a); [ discriminate | ].
    destruct (retry_write_raises a); discriminate.
  - intros H. injection H as <-. now apply run_hyperopt_window_hanging in Ew.
Qed.

Lemma run_single_value (a : Attempt) (c c' : Campaign) (run_id : Z)
    (v : option path) :
  run_single a c run_id = (c', Value v) ->
  (v = Some (run_dir a) /\ c' = c
   /\ wait_for_hyperopt_completion (strategy_json a) (observations a)
      = Ended (Return tt))
  \/ (v = None /\ exists e, c' = fst (handle_hyperopt_failure a None c run_id e)).
Proof.
  unfold run_single. destruct (mkdir_raises a); [ discriminate | ].
  destruct (run_hyperopt_window a c run_id) as [c1 [v1|e1|]] eqn:Ew.
  - intros H. injection H as <- <-. now apply run_hyperopt_window_value in Ew.
  - apply run_hyperopt_window_raised in Ew. destruct Ew as [-> _].
    unfold handle_hyperopt_failure.
    destruct (retry_mkdir_raises a); [ discriminate | ].
    destruct (retry_write_raises a); intros H; [ discriminate | ].
    injection H as <- <-. right. split; auto. exists e1. reflexivity.
  - discriminate.
Qed.

(** X13.  An exception leaves [run_single] only when the run directory
    cannot be made, or when a failure of the launch or of the wait is
    being handled and the handler itself fails, at making its new
    directory or at writing its [FAILED] file; the campaign state is
    then untouched.  [run_single] never finishes while the watcher has
    not.  When the handlers can make their directory and write their
    file, a failure to launch the optimizer or a failure of the wait
    ends the turn of [run_loop] normally, with one more failure record
    in the leaderboard and one more [FAILED] file: the two agree on the
    run, the error and its type, the record carrying the time read by
    [record_failure] and the file the time read before it was written.
    When it is the handler of [run_hyperopt_window] that cannot write
    its file, the failure recorded is that of the write. *)
Theorem failures_before_extraction_are_contained (a : Attempt) (c : Campaign)
    (run_id top_n : Z) :
  (forall c' e,
     run_single a c run_id = (c', Raised e) ->
     c' = c
     /\ (mkdir_raises a = Some e
         \/ (mkdir_raises a = None
             /\ (exists e0, reaches_the_outer_handler a e0)
             /\ (retry_mkdir_raises a = Some e
                 \/ (retry_mkdir_raises a = None
                     /\ retry_write_raises a = Some e)))))
  /\ (forall c',
        run_single a c run_id = (c', Hanging) ->
        wait_for_hyperopt_completion (strategy_json a) (observations a)
        = StillWaiting
        /\ c' = c)
  /\ (forall e,
        mkdir_raises a = None ->
        window_write_raises a = None ->
        retry_mkdir_raises a = None ->
        retry_write_raises a = None ->
        launch_raises a = Some e
        \/ (launch_raises a = None
            /\ wait_for_hyperopt_completion (strategy_json a) (observations a)
               = Ended (Raise e)) ->
        exists c',
          run_once a c run_id top_n = (c', Value tt)
          /\ failed_runs (data (board c'))
             = failed_runs (data (board c))
               ++ [mkFailureRecord run_id (recorded a) (Py.str e) (Py.type_name e)]
          /\ failed_files c'
             = failed_files c
               ++ [(run_id,
                    FailureJson
                      (mkFailureRecord run_id (now a) (Py.str e) (Py.type_name e)))]
          /\ top_results (data (board c')) = top_results (data (board c))
          /\ successful_runs c' = successful_runs c)
  /\ (forall e e',
        mkdir_raises a = None ->
        launch_raises a = None ->
        wait_for_hyperopt_completion (strategy_json a) (observations a)
        = Ended (Raise e) ->
        is_RuntimeError e = true ->
        window_write_raises a = Some e' ->
        retry_mkdir_raises a = None ->
        retry_write_raises a = None ->
        exists c',
          run_once a c run_id top_n = (c', Value tt)
          /\ failed_runs (data (board c'))
             = failed_runs (data (board c))
               ++ [mkFailureRecord run_id (recorded a) (Py.str e') (Py.type_name e')]
          /\ failed_files c'
             = failed_files c
               ++ [(run_id,
                    FailureJson
                      (mkFailureRecord run_id (now a) (Py.str e') (Py.type_name e')))]).
Proof.
  split; [ | split; [ | split ] ].
  - intros c' e. apply run_single_raised.
  - intros c'. apply run_single_hanging.
  - intros e. apply launch_and_wait_failures_are_recorded.
  - intros e e' Hmk Hl Hwait Hrt Hw Hmk2 Hw2.
    eexists. split; [ | split ].
    + unfold run_once, run_single, run_hyperopt_window, handle_hyperopt_failure.
      rewrite Hmk, Hl, Hwait, Hrt, Hw, Hmk2, Hw2. reflexivity.
    + unfold record_failure. simpl. now rewrite save_data_data.
    + reflexivity.
Qed.

(** Both handlers of an attempt that cannot write: the failure of the
    wait is nowhere recorded and the exception of the write leaves
    [run_loop]. *)
Example failed_marker_write_leaves_the_loop :
  let a :=
    mkAttempt None None [sees_nothing false 61] LogExtractor.NoLog None
      "2026-01-01T00:00:00" true (run_directory "run_001") "2026-01-01T00:00:01"
      (Some (OSError "PermissionError" "FAILED")) None
      (Some (OSError "PermissionError" "FAILED")) None
      "user_data/strategies/Strategy.json" in
  run_loop [a; attempt_with_log "run_002" sample_log] 10
  = Aborted 1 (OSError "PermissionError" "FAILED") start.
Proof. vm_compute. reflexivity. Qed.

Lemma handle_hyperopt_failure_ok (a : Attempt) (write_raises : option exn)
    (c : Campaign) (run_id top_n : Z) (e : exn) :
  campaign_ok top_n c ->
  campaign_ok top_n (fst (handle_hyperopt_failure a write_raises c run_id e)).
Proof.
  unfold handle_hyperopt_failure. destruct write_raises; [ auto | ].
  unfold campaign_ok, record_failure, get_top_results.
  simpl. rewrite save_data_data. simpl.
  intros (H1 & H2 & H3 & H4 & H5). repeat split; auto.
  rewrite json_records_app, !map_app, H5. reflexivity.
Qed.

Lemma add_result_ok (a : Attempt) (c : Campaign) (top_n : Z) (result : RunResult)
    (board' : DataHandling) (res : outcome unit) :
  campaign_ok top_n c ->
  numeric result ->
  add_result (writable a) (board c) result top_n = (board', res) ->
  campaign_ok top_n (mkCampaign board' (failed_files c) (S (successful_runs c))).
Proof.
  unfold campaign_ok, add_result, get_top_results. simpl.
  intros (H1 & H2 & H3 & H4 & H5) Hnum.
  destruct (update_top_results (data (board c)) result top_n) as [top|e] eqn:E;
    intros H; injection H as <- <-.
  - rewrite save_data_data. simpl.
    destruct (update_top_results_admission _ _ _ _ E) as (updated & Hadm & Hsort).
    destruct (py_sort_spec _ _ Hsort) as [Hs _].
    destruct (update_top_results_split _ _ _ _ E) as (dropped & Hp & _).
    pose proof (update_top_results_length_eq _ _ _ _ E) as Hlen.
    repeat split; auto.
    + assert (Hall : Forall numeric (top_results (data (board c)) ++ [result]))
        by (apply Forall_app; auto).
      apply (Permutation_Forall (Permutation_sym Hp)) in Hall.
      now apply Forall_app in Hall.
    + rewrite Hlen. destruct (_ <? _)%Z; lia.
    + rewrite Hlen.
      destruct (Z.ltb_spec (Z.of_nat (List.length (top_results (data (board c)))))
                  top_n); lia.
  - repeat split; auto.
Qed.

Lemma extract_and_rank_ok (a : Attempt) (c c' : Campaign) (top_n : Z)
    (res : outcome unit) :
  campaign_ok top_n c ->
  extract_and_rank a c top_n = (c', res) ->
  campaign_ok top_n c'
  /\ failed_files c' = failed_files c
  /\ (forall e, res = Raise e -> is_RuntimeError e = true ->
      successful_runs c' = successful_runs c
      \/ copy_raises a = Some e)
  /\ (res = Return tt -> successful_runs c' = S (successful_runs c)).
Proof.
  intros Hok. unfold extract_and_rank.
  destruct (LogExtractor.extract_data (log a) (run_dir a)) as [result|e] eqn:Ex.
  - assert (Hbump : campaign_ok top_n
                      (mkCampaign (board c) (failed_files c) (S (successful_runs c)))).
    { destruct Hok as (H1 & H2 & H3 & H4 & H5). repeat split; auto. simpl. lia. }
    unfold format_objective.
    destruct (extract_data_metrics _ _ _ Ex) as (line & m & _ & _ & _ & Hobj & _).
    rewrite Hobj. destruct (m_objective m) as [v|] eqn:Ev.
    + simpl.
      destruct (add_result (writable a) (board c) result top_n) as [board' r] eqn:Ea.
      assert (Hnum : numeric result) by (exists v; rewrite Hobj; reflexivity).
      pose proof (add_result_ok a c top_n result board' r Hok Hnum Ea) as Hok'.
      destruct r as [[]|e].
      * destruct (copy_raises a) as [e|] eqn:Ec; intros H; injection H as <- <-;
          (split; [ exact Hok' | split; [ reflexivity | split ] ]).
        -- intros e' He' _. injection He' as <-. auto.
        -- discriminate.
        -- discriminate.
        -- reflexivity.
      * intros H. injection H as <- <-.
        split; [ exact Hok' | split; [ reflexivity | split ] ]; [ | discriminate ].
        intros e' He' Hrt. injection He' as <-. exfalso.
        unfold add_result in Ea.
        destruct (update_top_results (data (board c)) result top_n) as [t|e0] eqn:Eu;
          [ discriminate | ].
        injection Ea as _ <-.
        pose proof (update_top_results_raises_any _ _ _ _ Eu). congruence.
    + simpl. intros H. injection H as <- <-.
      split; [ exact Hbump | split; [ reflexivity | split ] ]; [ | discriminate ].
      intros e' He' Hrt. injection He' as <-. discriminate.
  - intros H. injection H as <- <-.
    split; [ exact Hok | split; [ reflexivity | split ] ]; [ auto | discriminate ].
Qed.

Lemma run_once_ok (a : Attempt) (c c' : Campaign) (run_id top_n : Z)
    (res : ending unit) :
  campaign_ok top_n c ->
  run_once a c run_id top_n = (c', res) ->
  campaign_ok top_n c'.
Proof.
  intros Hok. unfold run_once.
  destruct (run_single a c run_id) as [c1 [[d|]|e|]] eqn:Es.
  - apply run_single_value in Es.
    destruct Es as [(_ & -> & _) | (Hd & _)]; [ | discriminate ].
    destruct (extract_and_rank a c top_n) as [c2 [[]|e]] eqn:Ee;
      destruct (extract_and_rank_ok a c c2 top_n _ Hok Ee) as (Hok2 & _).
    + intros H. now injection H as <- <-.
    + destruct (is_RuntimeError e);
        [ destruct (loop_write_raises a) | ];
        intros H; injection H as <- <-; auto.
      destruct Hok2 as (H1 & H2 & H3 & H4 & H5).
      repeat split; auto. simpl.
      rewrite json_records_app. simpl. now rewrite app_nil_r.
  - apply run_single_value in Es.
    destruct Es as [(Hd & _) | (_ & e & ->)]; [ discriminate | ].
    intros H. injection H as <- <-.
    exact (handle_hyperopt_failure_ok a None c run_id top_n e Hok).
  - apply run_single_raised in Es. destruct Es as [-> _].
    intros H. now injection H as <- <-.
  - apply run_single_hanging in Es. destruct Es as [_ ->].
    intros H. now injection H as <- <-.
Qed.

Lemma run_loop_from_ok (attempts : list Attempt) (run_id top_n : Z) (c : Campaign) :
  campaign_ok top_n c ->
  campaign_ok top_n (end_state (run_loop_from run_id attempts c top_n)).
Proof.
  revert run_id c. induction attempts as [|a attempts IH]; intros run_id c Hok;
    simpl; auto.
  destruct (run_once a c run_id top_n) as [c' [[]|e|]] eqn:E;
    pose proof (run_once_ok a c c' run_id top_n _ Hok E); simpl; auto.
Qed.

Lemma start_ok (top_n : Z) : campaign_ok top_n start.
Proof.
  unfold campaign_ok, start. simpl. repeat split; auto; try constructor. lia.
Qed.

(** X14.  However a campaign ends (after its last run, at an exception
    or at a wait that never finished), its leaderboard holds only
    results whose objective is a number, in ascending order of
    objective, no more of them than there were successful runs and no
    more than the capacity; and the failure records of the leaderboard
    are, run by run, the ones written as JSON to [FAILED] files. *)
Theorem campaign_leaves_a_sound_leaderboard (attempts : list Attempt) (top_n : Z) :
  let c := end_state (run_loop attempts top_n) in
  let top := get_top_results (board c) in
  Forall numeric top
  /\ sorted_by_objective top
  /\ (List.length top <= successful_runs c)%nat
  /\ (Z.of_nat (List.length top) <= Z.max 0 top_n)%Z
  /\ map record_key (json_records (failed_files c))
     = map record_key (failed_runs (data (board c))).
Proof.
  exact (run_loop_from_ok attempts 1 top_n start (start_ok top_n)).
Qed.

Lemma extract_and_rank_raise_cause (a : Attempt) (c c' : Campaign) (top_n : Z)
    (e : exn) :
  campaign_ok top_n c -> (1 <= top_n)%Z ->
  extract_and_rank a c top_n = (c', Raise e) ->
  LogExtractor.extract_data (log a) (run_dir a) = Raise e
  \/ (exists r,
        LogExtractor.extract_data (log a) (run_dir a) = Return r
        /\ objective r = Some PyNone
        /\ e = TypeError "unsupported format string passed to NoneType.__format__")
  \/ (exists r,
        LogExtractor.extract_data (log a) (run_dir a) = Return r
        /\ numeric r /\ copy_raises a = Some e).
Proof.
  intros Hok Hn. unfold extract_and_rank.
  destruct (LogExtractor.extract_data (log a) (run_dir a)) as [result|e0] eqn:Ex.
  - unfold format_objective.
    destruct (extract_data_metrics _ _ _ Ex) as (line & m & _ & _ & _ & Hobj & _).
    rewrite Hobj. destruct (m_objective m) as [v|] eqn:Ev; simpl.
    + assert (Hnum : numeric result) by (exists v; rewrite Hobj; reflexivity).
      unfold add_result.
      destruct Hok as (Hboard & _).
      destruct (update_top_results_defined (data (board c)) result top_n Hn)
        as [top Htop].
      * now apply numeric_not_null.
      * revert Hboard. apply Forall_impl. intros r. apply numeric_not_null.
      * rewrite Htop.
        destruct (copy_raises a) as [e1|] eqn:Ec; intros H; [ | discriminate ].
        injection H as _ <-. right. right. exists result. auto.
    + intros H. injection H as _ <-. right. left. exists result.
      rewrite Hobj. auto.
  - intros H. injection H as _ <-. auto.
Qed.

Lemma run_once_abort_cause (a : Attempt) (c c' : Campaign) (run_id top_n : Z)
    (e : exn) :
  campaign_ok top_n c -> (1 <= top_n)%Z ->
  run_once a c run_id top_n = (c', Raised e) ->
  abort_cause a e.
Proof.
  intros Hok Hn. unfold run_once, abort_cause.
  destruct (run_single a c run_id) as [c1 [[d|]|e1|]] eqn:Es.
  - apply run_single_value in Es.
    destruct Es as [(_ & -> & _) | (Hd & _)]; [ | discriminate ].
    destruct (extract_and_rank a c top_n) as [c2 [[]|e2]] eqn:Ee; [ discriminate | ].
    pose proof (extract_and_rank_raise_cause a c c2 top_n e2 Hok Hn Ee) as Hcause.
    destruct (is_RuntimeError e2) eqn:Ert.
    + destruct (loop_write_raises a) as [e3|]; intros H; [ | discriminate ].
      injection H as _ <-. do 5 right. split; auto. exists e2. split; auto.
      destruct Hcause as [Hx | [(r & _ & _ & ->) | (r & _ & _ & Hc)]];
        [ auto | discriminate Ert | auto ].
    + intros H. injection H as _ <-.
      destruct Hcause as [Hx | [Hx | (r & Hr & Hnum & Hc)]].
      * right. right. left. auto.
      * right. right. right. left. exact Hx.
      * right. right. right. right. left. exists r. auto.
  - discriminate.
  - apply run_single_raised in Es. destruct Es as [_ Hcause].
    intros H. injection H as _ <-.
    destruct Hcause as [Hmk | (_ & Hreach & Hhandler)]; auto.
  - discriminate.
Qed.

Lemma run_loop_from_abort_cause (attempts : list Attempt) (first run_id top_n : Z)
    (c c' : Campaign) (e : exn) :
  campaign_ok top_n c -> (1 <= top_n)%Z ->
  run_loop_from first attempts c top_n = Aborted run_id e c' ->
  exists k a,
    run_id = (first + Z.of_nat k)%Z
    /\ nth_error attempts k = Some a
    /\ abort_cause a e.
Proof.
  intros Hok Hn. revert first c Hok.
  induction attempts as [|a attempts IH]; intros first c Hok H; simpl in H;
    [ discriminate | ].
  destruct (run_once a c first top_n) as [c1 [[]|e1|]] eqn:E.
  - pose proof (run_once_ok a c c1 first top_n _ Hok E) as Hok1.
    destruct (IH _ _ Hok1 H) as (k & a' & Hid & Hnth & Hcause).
    exists (S k), a'. repeat split; auto. lia.
  - injection H as <- <- <-.
    exists 0%nat, a. repeat split; auto.
    + simpl. lia.
    + eapply run_once_abort_cause; eauto.
  - discriminate.
Qed.

(** X15.  With a capacity of at least 1, ranking never ends a campaign.
    When [run_loop] is left by an exception at some run, the attempt of
    that run could not make its run directory; or a failure of its
    launch or of its wait was being handled in [run_single] and the
    handler could not make its directory or write its [FAILED] file; or
    the extraction raised something else than a [RuntimeError] (the log
    could not be read or decoded, or a number of its result line could
    not be converted); or its result line had no objective (a
    [TypeError] when the objective is reported); or the copy of the
    result files raised something else than a [RuntimeError]; or the
    handler of [run_loop] could not write its [FAILED] file. *)
Theorem campaign_abort_causes (attempts : list Attempt) (top_n run_id : Z)
    (e : exn) (c : Campaign) :
  (1 <= top_n)%Z ->
  run_loop attempts top_n = Aborted run_id e c ->
  exists k a,
    run_id = (1 + Z.of_nat k)%Z
    /\ nth_error attempts k = Some a
    /\ abort_cause a e.
Proof.
  intros Hn H.
  exact (run_loop_from_abort_cause attempts 1 run_id top_n start c e
           (start_ok top_n) Hn H).
Qed.

Lemma campaign_abort_causes_witness :
  exists k a,
    1%Z = (1 + Z.of_nat k)%Z
    /\ nth_error [ attempt_with_log "run_001" log_without_objective;
                   attempt_with_log "run_002" sample_log ] k = Some a
    /\ abort_cause a
         (TypeError "unsupported format string passed to NoneType.__format__").
Proof.
  apply (campaign_abort_causes
           [ attempt_with_log "run_001" log_without_objective;
             attempt_with_log "run_002" sample_log ] 10 1
           (TypeError "unsupported format string passed to NoneType.__format__")
           (mkCampaign constructed [] 1)).
  - lia.
  - vm_compute. reflexivity.
Defined.

(** A log that is not valid text ends the campaign at its run. *)
Example undecodable_log_leaves_the_loop :
  let a :=
    mkAttempt None None [sees_file] (LogExtractor.LogNotText "invalid start byte")
      None "2026-01-01T00:00:00" true (run_directory "run_001")
      "2026-01-01T00:00:01" None None None None
      "user_data/strategies/Strategy.json" in
  run_loop [a; attempt_with_log "run_002" sample_log] 10
  = Aborted 1 (UnicodeDecodeError "invalid start byte") start.
Proof. vm_compute. reflexivity. Qed.

Lemma run_once_accounting (a : Attempt) (c c' : Campaign) (run_id top_n : Z) :
  run_once a c run_id top_n = (c', Value tt) ->
  ((successful_runs c + List.length (failed_files c) + 1
    <= successful_runs c' + List.length (failed_files c'))%nat
   /\ ((forall msg, copy_raises a <> Some (RuntimeError msg)) ->
       (successful_runs c' + List.length (failed_files c')
        = successful_runs c + List.length (failed_files c) + 1)%nat)).
Proof.
  unfold run_once.
  destruct (run_single a c run_id) as [c1 [[d|]|e1|]] eqn:Es; try discriminate.
  - apply run_single_value in Es.
    destruct Es as [(_ & -> & _) | (Hd & _)]; [ | discriminate ].
    destruct (extract_and_rank a c top_n) as [c2 [[]|e2]] eqn:Ee.
    + intros H. injection H as <-.
      unfold extract_and_rank in Ee.
      destruct (LogExtractor.extract_data _ _) as [result|]; [ | discriminate ].
      destruct (format_objective result); [ | discriminate ].
      destruct (add_result _ _ _ _) as [b [[]|]]; [ | discriminate ].
      destruct (copy_raises a); [ discriminate | ].
      injection Ee as <-. simpl. lia.
    + destruct (is_RuntimeError e2) eqn:Ert; [ | discriminate ].
      destruct (loop_write_raises a); [ discriminate | ].
      intros H. injection H as <-. simpl. rewrite length_app. simpl.
      unfold extract_and_rank in Ee.
      destruct (LogExtractor.extract_data _ _) as [result|e0].
      * destruct (format_objective result) as [[]|e3] eqn:Ef.
        -- destruct (add_result _ _ _ _) as [b [[]|e4]] eqn:Ea.
           ++ destruct (copy_raises a) as [e5|] eqn:Ec; [ | discriminate ].
              injection Ee as <- <-. simpl. split; [ lia | ].
              intros Hcopy. destruct e5; try discriminate.
              exfalso. eapply Hcopy; eauto.
           ++ injection Ee as <- <-. exfalso.
              unfold add_result in Ea.
              destruct (update_top_results _ _ _) as [t|e6] eqn:Eu; [ discriminate | ].
              injection Ea as _ <-.
              pose proof (update_top_results_raises_any _ _ _ _ Eu). congruence.
        -- injection Ee as <- <-. exfalso. unfold format_objective in Ef.
           destruct (objective result) as [[|q]|]; try discriminate;
             injection Ef as <-; discriminate.
      * injection Ee as <- <-. simpl. split; lia.
  - apply run_single_value in Es.
    destruct Es as [(Hd & _) | (_ & e & ->)]; [ discriminate | ].
    intros H. injection H as <-. simpl. rewrite length_app. simpl. split; lia.
Qed.

Lemma run_loop_from_accounting (attempts : list Attempt) (first top_n : Z)
    (c c' : Campaign) :
  run_loop_from first attempts c top_n = Completed c' ->
  ((successful_runs c + List.length (failed_files c) + List.length attempts
    <= successful_runs c' + List.length (failed_files c'))%nat
   /\ ((forall a msg, In a attempts -> copy_raises a <> Some (RuntimeError msg)) ->
       (successful_runs c' + List.length (failed_files c')
        = successful_runs c + List.length (failed_files c) + List.length attempts)%nat)).
Proof.
  revert first c. induction attempts as [|a attempts IH]; intros first c H; simpl in H.
  - injection H as <-. simpl. split; lia.
  - destruct (run_once a c first top_n) as [c1 [[]|e1|]] eqn:E; try discriminate.
    destruct (run_once_accounting a c c1 first top_n E) as [Hle Heq].
    destruct (IH _ _ H) as [IHle IHeq]. simpl. split; [ lia | ].
    intros Hcopy. rewrite IHeq, Heq.
    + lia.
    + intros msg. apply Hcopy. simpl. auto.
    + intros a' msg Hin. apply Hcopy. simpl. auto.
Qed.

(** X16.  A campaign that gets through all its runs has accounted for
    each of them: every run raised the counter of successful runs or
    left a [FAILED] file, and exactly one of the two unless the copy of
    the result files raised a [RuntimeError] after a successful
    extraction. *)
Theorem completed_campaign_accounts_for_every_run (attempts : list Attempt)
    (top_n : Z) (c : Campaign) :
  run_loop attempts top_n = Completed c ->
  (List.length attempts <= successful_runs c + List.length (failed_files c))%nat
  /\ ((forall a msg, In a attempts -> copy_raises a <> Some (RuntimeError msg)) ->
      (successful_runs c + List.length (failed_files c) = List.length attempts)%nat).
Proof.
  intros H. destruct (run_loop_from_accounting attempts 1 top_n start c H) as [Hle Heq].
  simpl in *. split; [ lia | ]. intros Hcopy. rewrite (Heq Hcopy). lia.
Qed.

Lemma completed_campaign_accounts_for_every_run_witness :
  (List.length [ attempt_with_log "run_001" log_without_marker;
                 attempt_with_log "run_002" sample_log ]
   <= 1 + List.length [(1%Z, FailureText (Py.str LogExtractor.no_marker))])%nat
  /\ ((forall a msg,
         In a [ attempt_with_log "run_001" log_without_marker;
                attempt_with_log "run_002" sample_log ] ->
         copy_raises a <> Some (RuntimeError msg)) ->
      (1 + List.length [(1%Z, FailureText (Py.str LogExtractor.no_marker))]
       = List.length [ attempt_with_log "run_001" log_without_marker;
                       attempt_with_log "run_002" sample_log ])%nat).
Proof.
  refine (completed_campaign_accounts_for_every_run
            [ attempt_with_log "run_001" log_without_marker;
              attempt_with_log "run_002" sample_log ] 10
            (mkCampaign
               (fst (add_result true constructed
                       (mkRunResult "run_002" 123.45 (Some (PyFloat (-1.234)))
                          (Some "0.000 USDT (0.00%)"%string)
                          (mkMetrics (Some 150%Z) (Some "80/10/60"%string)
                             (Some (80 # 150)%Q) (Some 2.35%Q) (Some 1.20%Q)
                             (Some 123.45%Q) (Some 12.3%Q) (Some "2:30:00"%string)
                             (Some (-1.234)%Q) (Some "0.000 USDT (0.00%)"%string))
                          []) 10))
               [(1%Z, FailureText (Py.str LogExtractor.no_marker))] 1) _).
  vm_compute. reflexivity.
Defined.

(* ------------------------------------------------------------------ *)
(** ** Log rotation *)
(* ------------------------------------------------------------------ *)

Section LogRotation.
Import Launcher.

Lemma keyed_spec (l : list entry) (kl : list (Q * entry)) :
  keyed l = Return kl ->
  map snd kl = l /\ Forall (fun p => st_mtime (snd p) = Return (fst p)) kl.
Proof.
  revert kl. induction l as [|f l IH]; intros kl H; simpl in H.
  - injection H as <-. split; constructor.
  - destruct (st_mtime f) as [t|e] eqn:Et; [ | discriminate ]. simpl in H.
    destruct (keyed l) as [r|e]; [ | discriminate ].
    injection H as <-. destruct (IH r eq_refl) as [Hm Hf].
    split; simpl; [ now rewrite Hm | constructor; auto ].
Qed.

(** The sort raises what the first failing [stat] raises. *)
Lemma keyed_raises (l : list entry) (e : exn) :
  keyed l = Raise e ->
  exists before f after,
    l = before ++ f :: after
    /\ Forall (fun g => exists t, st_mtime g = Return t) before
    /\ st_mtime f = Raise e.
Proof.
  induction l as [|f l IH]; intros H; simpl in H; [ discriminate | ].
  destruct (st_mtime f) as [t|e0] eqn:Et; simpl in H.
  - destruct (keyed l) as [r|e1]; [ discriminate | ].
    injection H as <-. destruct (IH eq_refl) as (before & g & after & -> & Hb & Hg).
    exists (f :: before), g, after. repeat split; auto.
    constructor; eauto.
  - injection H as <-. exists [], f, l. repeat split; auto.
Qed.

Lemma keyed_returns (l : list entry) :
  (forall f, In f l -> exists t, st_mtime f = Return t) ->
  exists kl, keyed l = Return kl.
Proof.
  induction l as [|f l IH]; intros H; simpl.
  - eauto.
  - destruct (H f) as [t ->]; [ simpl; auto | ]. simpl.
    destruct IH as [kl ->]; [ intros g Hg; apply H; simpl; auto | ].
    simpl. eauto.
Qed.

Lemma insert_newest_perm (x : Q * entry) (l : list (Q * entry)) :
  Permutation (insert_newest x l) (x :: l).
Proof.
  induction l as [|y l IH]; simpl; [ reflexivity | ].
  destruct (Qltb (fst x) (fst y)); [ | reflexivity ].
  rewrite IH. apply perm_swap.
Qed.

Lemma newest_first_perm (l : list (Q * entry)) :
  Permutation (fold_right insert_newest [] l) l.
Proof.
  induction l as [|x l IH]; simpl; [ reflexivity | ].
  rewrite insert_newest_perm. now constructor.
Qed.

Lemma insert_newest_sorted (x : Q * entry) (l : list (Q * entry)) :
  StronglySorted newer_first l -> StronglySorted newer_first (insert_newest x l).
Proof.
  induction l as [|y l IH]; intros Hs; simpl.
  - constructor; constructor.
  - inversion Hs as [|? ? Hs' Hall]; subst.
    destruct (Qltb (fst x) (fst y)) eqn:E.
    + apply Qltb_true in E. constructor; [ now apply IH | ].
      eapply Permutation_Forall; [ symmetry; apply insert_newest_perm | ].
      constructor; [ now apply Qlt_le_weak | exact Hall ].
    + assert (Hle : (fst y <= fst x)%Q).
      { destruct (Qlt_le_dec (fst x) (fst y)) as [Hlt|Hle]; [ | exact Hle ].
        apply Qltb_true in Hlt. congruence. }
      constructor; [ exact Hs | ].
      constructor; [ exact Hle | ].
      revert Hall. apply Forall_impl. intros z Hz. unfold newer_first in *.
      eapply Qle_trans; eauto.
Qed.

Lemma newest_first_sorted (l : list (Q * entry)) :
  StronglySorted newer_first (fold_right insert_newest [] l).
Proof.
  induction l as [|x l IH]; simpl; [ constructor | ].
  now apply insert_newest_sorted.
Qed.

Lemma sorted_app_order {A : Type} (R : A -> A -> Prop) (l1 l2 : list A) :
  StronglySorted R (l1 ++ l2) ->
  forall a b, In a l1 -> In b l2 -> R a b.
Proof.
  induction l1 as [|x l1 IH]; intros Hs a b Ha Hb; [ contradiction | ].
  simpl in Hs. inversion Hs as [|? ? Hs' Hall]; subst.
  destruct Ha as [<-|Ha].
  - rewrite Forall_forall in Hall. apply Hall. apply in_or_app. auto.
  - now apply IH.
Qed.

Lemma nodup_app_disjoint {A : Type} (l1 l2 : list A) (a : A) :
  NoDup (l1 ++ l2) -> In a l1 -> In a l2 -> False.
Proof.
  induction l1 as [|x l1 IH]; intros Hnd H1 H2; [ contradiction | ].
  simpl in Hnd. inversion Hnd as [|? ? Hx Hnd']; subst.
  destruct H1 as [<-|H1].
  - apply Hx. apply in_or_app. auto.
  - now apply IH.
Qed.

Lemma same_name_same_entry (d : list entry) (a b : entry) :
  NoDup (map name d) -> In a d -> In b d -> name a = name b -> a = b.
Proof.
  induction d as [|x d IH]; intros Hnd Ha Hb Hn; [ contradiction | ].
  simpl in Hnd. inversion Hnd as [|? ? Hx Hnd']; subst.
  destruct Ha as [<-|Ha], Hb as [<-|Hb]; auto.
  - exfalso. apply Hx. rewrite Hn. now apply in_map.
  - exfalso. apply Hx. rewrite <- Hn. now apply in_map.
Qed.

Lemma remove_excess_spec (olds d : list entry) :
  exists d',
    remove_excess olds d = d'
    /\ (forall f, In f d' ->
          In f d
          /\ forall o, In o olds -> unlink_raises o = false -> name o <> name f)
    /\ (forall f, In f d ->
          (forall o, In o olds -> unlink_raises o = false -> name o <> name f) ->
          In f d').
Proof.
  revert d. induction olds as [|o olds IH]; intros d; simpl.
  - exists d. split; [ reflexivity | ]. split.
    + intros f Hf. split; [ exact Hf | ]. intros o [].
    + auto.
  - unfold unlink. destruct (unlink_raises o) eqn:Eu.
    + destruct (IH d) as (d' & Hd' & Hin & Hkeep).
      exists d'. split; [ exact Hd' | ]. split.
      * intros f Hf. destruct (Hin f Hf) as [Hd Hn]. split; [ exact Hd | ].
        intros o' [<-|Ho'] Hu; [ congruence | now apply Hn ].
      * intros f Hf Hn. apply Hkeep; [ exact Hf | ].
        intros o' Ho'. apply Hn. now right.
    + destruct (IH (filter (fun g => negb (String.eqb (name g) (name o))) d))
        as (d' & Hd' & Hin & Hkeep).
      exists d'. split; [ exact Hd' | ]. split.
      * intros f Hf. destruct (Hin f Hf) as [Hd Hn].
        apply filter_In in Hd. destruct Hd as [Hd Hne].
        split; [ exact Hd | ].
        intros o' [<-|Ho'] Hu; [ | now apply Hn ].
        intros Heq. rewrite Heq, String.eqb_refl in Hne. discriminate.
      * intros f Hf Hn. apply Hkeep.
        -- apply filter_In. split; [ exact Hf | ].
           destruct (String.eqb_spec (name f) (name o)) as [Heq|]; [ | reflexivity ].
           exfalso. apply (Hn o); simpl; auto.
        -- intros o' Ho'. apply Hn. now right.
Qed.

(** What a run of [cleanup_old_logs] that got to remove files has done. *)
Lemma cleanup_old_logs_removing (d : list entry) (max_files : Z) :
  (0 < max_files)%Z ->
  forall keys,
    keyed (glob d) = Return keys ->
    (max_files < Z.of_nat (List.length keys))%Z ->
    exists d',
      cleanup_old_logs (Some d) max_files = Return (Some d')
      /\ remove_excess
           (skipn (Z.to_nat max_files) (sorted_newest_first keys)) d
         = d'.
Proof.
  intros Hpos keys Hk Hlen. unfold cleanup_old_logs.
  destruct (Z.leb_spec max_files 0) as [|_]; [ lia | ].
  rewrite Hk. simpl.
  assert (Hl : List.length (sorted_newest_first keys) = List.length keys).
  { unfold sorted_newest_first. rewrite length_map.
    apply Permutation_length, newest_first_perm. }
  rewrite Hl.
  destruct (Z.gtb_spec (Z.of_nat (List.length keys)) max_files) as [_|]; [ | lia ].
  eexists. split; reflexivity.
Qed.

Lemma cleanup_old_logs_cases (d : list entry) (max_files : Z) (d' : list entry) :
  cleanup_old_logs (Some d) max_files = Return (Some d') ->
  d' = d
  \/ exists keys,
       (0 < max_files)%Z
       /\ keyed (glob d) = Return keys
       /\ (max_files < Z.of_nat (List.length keys))%Z
       /\ remove_excess
            (skipn (Z.to_nat max_files) (sorted_newest_first keys)) d
          = d'.
Proof.
  unfold cleanup_old_logs.
  destruct (Z.leb_spec max_files 0) as [Hle|Hpos].
  - intros H. injection H as <-. auto.
  - destruct (keyed (glob d)) as [keys|e] eqn:Hk; [ | discriminate ].
    simpl.
    assert (Hl : List.length (sorted_newest_first keys) = List.length keys).
    { unfold sorted_newest_first. rewrite length_map.
      apply Permutation_length, newest_first_perm. }
    rewrite Hl.
    destruct (Z.gtb_spec (Z.of_nat (List.length keys)) max_files) as [Hgt|Hngt].
    + intros H. injection H as <-. right. exists keys.
      repeat split; auto.
    + intros H. injection H as <-. auto.
Qed.

Lemma newest_first_entries (d : list entry) (keys : list (Q * entry)) :
  keyed (glob d) = Return keys ->
  Permutation (sorted_newest_first keys) (glob d)
  /\ Forall (fun p => st_mtime (snd p) = Return (fst p))
       (fold_right insert_newest [] keys).
Proof.
  intros Hk. destruct (keyed_spec _ _ Hk) as [Hm Hf]. split.
  - unfold sorted_newest_first. rewrite <- Hm.
    apply Permutation_map, newest_first_perm.
  - eapply Permutation_Forall; [ symmetry; apply newest_first_perm | exact Hf ].
Qed.

Lemma glob_names_nodup (d : list entry) :
  NoDup (map name d) -> NoDup (map name (glob d)).
Proof.
  unfold glob. induction d as [|x d IH]; intros H; simpl; [ constructor | ].
  inversion H as [|? ? Hx Hd]; subst.
  destruct (is_log_name (name x)); [ | now apply IH ].
  simpl. constructor; [ | now apply IH ].
  intros Hin. apply Hx. apply in_map_iff in Hin.
  destruct Hin as (y & Hy & Hiny). apply filter_In in Hiny.
  apply in_map_iff. exists y. tauto.
Qed.

(** X17.  In a directory whose names are distinct, [cleanup_old_logs]
    adds nothing, leaves every file alone that is not a rotated log
    ([HyperLog_*.log]), and removes a rotated log only when [max_files]
    rotated logs that are at least as recent stay in the directory. *)
Theorem cleanup_old_logs_keeps_the_newest (d d' : list entry) (max_files : Z) :
  NoDup (map name d) ->
  cleanup_old_logs (Some d) max_files = Return (Some d') ->
  (forall f, In f d' -> In f d)
  /\ (forall f, In f d -> is_log_name (name f) = false -> In f d')
  /\ (forall f, In f d -> ~ In f d' ->
        exists newer,
          NoDup newer
          /\ Z.of_nat (List.length newer) = max_files
          /\ Forall (fun g => In g (glob d') /\ no_newer_than f g) newer).
Proof.
  intros Hnd H. apply cleanup_old_logs_cases in H.
  destruct H as [->|(keys & Hpos & Hk & Hlen & Hr)].
  - repeat split; auto. intros f Hf Hnf. contradiction.
  - destruct (newest_first_entries d keys Hk) as [Hperm Hst].
    set (n := Z.to_nat max_files) in *.
    set (skl := fold_right insert_newest [] keys) in *.
    assert (Hsplit : sorted_newest_first keys
                     = map snd (firstn n skl) ++ map snd (skipn n skl)).
    { unfold sorted_newest_first. fold skl.
      rewrite <- map_app, firstn_skipn. reflexivity. }
    assert (Hskip : skipn n (sorted_newest_first keys) = map snd (skipn n skl)).
    { unfold sorted_newest_first. fold skl. now rewrite skipn_map. }
    rewrite Hskip in Hr.
    destruct (remove_excess_spec (map snd (skipn n skl)) d)
      as (d1 & Hr1 & Hin & Hkeep).
    rewrite Hr in Hr1. subst d1.
    assert (Hglob : forall g, In g (sorted_newest_first keys) ->
                              In g d /\ is_log_name (name g) = true).
    { intros g Hg. apply (Permutation_in _ Hperm) in Hg.
      unfold glob in Hg. now apply filter_In in Hg. }
    assert (Hnds : NoDup (map name (sorted_newest_first keys))).
    { eapply Permutation_NoDup;
        [ symmetry; apply Permutation_map; exact Hperm | ].
      now apply glob_names_nodup. }
    split; [ intros f Hf; now apply Hin | ].
    split.
    + intros f Hf Hname. apply Hkeep; [ exact Hf | ].
      intros o Ho _ Heq.
      assert (Ho' : In o (sorted_newest_first keys))
        by (rewrite Hsplit; apply in_or_app; auto).
      apply Hglob in Ho'. destruct Ho' as [_ Ho']. congruence.
    + intros f Hf Hnf.
      assert (Hold : exists o, In o (map snd (skipn n skl)) /\ name o = name f).
      { destruct (in_dec string_dec (name f)
                    (map name (map snd (skipn n skl)))) as [Hi|Hni].
        - apply in_map_iff in Hi. destruct Hi as (o & Ho & Hio). eauto.
        - exfalso. apply Hnf. apply Hkeep; [ exact Hf | ].
          intros o Ho _ Heq. apply Hni. rewrite <- Heq. now apply in_map. }
      destruct Hold as (o & Ho & Hname).
      assert (Hof : o = f).
      { apply (same_name_same_entry d); auto.
        apply Hglob. rewrite Hsplit. apply in_or_app. auto. }
      subst o.
      exists (map snd (firstn n skl)).
      assert (Hnd2 : NoDup (map name (map snd (firstn n skl))
                            ++ map name (map snd (skipn n skl)))).
      { rewrite <- map_app, <- Hsplit. exact Hnds. }
      split; [ | split ].
      * apply NoDup_app_remove_r in Hnd2.
        eapply NoDup_map_inv; exact Hnd2.
      * rewrite length_map, length_firstn.
        assert (Hl : List.length skl = List.length keys)
          by (apply Permutation_length, newest_first_perm).
        rewrite Hl. unfold n. lia.
      * apply Forall_forall. intros g Hg.
        assert (Hg' : In g d /\ is_log_name (name g) = true).
        { apply Hglob. rewrite Hsplit. apply in_or_app. auto. }
        destruct Hg' as [Hgd Hgn]. split.
        -- unfold glob, glob. apply filter_In. split; [ | exact Hgn ].
           apply Hkeep; [ exact Hgd | ].
           intros o Ho' _ Heq.
           apply (nodup_app_disjoint _ _ (name o) Hnd2);
             [ | now apply in_map ].
           rewrite Heq. now apply in_map.
        -- apply in_map_iff in Hg. destruct Hg as ((u & g') & Heq & Hg).
           simpl in Heq. subst g'.
           apply in_map_iff in Ho. destruct Ho as ((t & f') & Heq & Ho).
           simpl in Heq. subst f'.
           assert (Hs : StronglySorted newer_first (firstn n skl ++ skipn n skl)).
           { rewrite firstn_skipn. apply newest_first_sorted. }
           pose proof (sorted_app_order _ _ _ Hs _ _ Hg Ho) as Hord.
           rewrite Forall_forall in Hst.
           exists t, u. split; [ | split ].
           ++ apply (Hst (t, f)). rewrite <- (firstn_skipn n skl).
              apply in_or_app. auto.
           ++ apply (Hst (u, g)). rewrite <- (firstn_skipn n skl).
              apply in_or_app. auto.
           ++ exact Hord.
Qed.

Lemma cleanup_old_logs_keeps_the_newest_witness :
  (forall f,
     In f [ mkEntry "HyperLog_a.log" (Return 3%Q) false;
            mkEntry "notes.txt" (Raise (OSError "PermissionError" "notes.txt")) false;
            mkEntry "HyperLog_c.log" (Return 2%Q) false ] ->
     In f sample_logs_dir)
  /\ (forall f, In f sample_logs_dir -> is_log_name (name f) = false ->
        In f [ mkEntry "HyperLog_a.log" (Return 3%Q) false;
               mkEntry "notes.txt" (Raise (OSError "PermissionError" "notes.txt")) false;
               mkEntry "HyperLog_c.log" (Return 2%Q) false ])
  /\ (forall f, In f sample_logs_dir ->
        ~ In f [ mkEntry "HyperLog_a.log" (Return 3%Q) false;
                 mkEntry "notes.txt" (Raise (OSError "PermissionError" "notes.txt")) false;
                 mkEntry "HyperLog_c.log" (Return 2%Q) false ] ->
        exists newer,
          NoDup newer
          /\ Z.of_nat (List.length newer) = 2%Z
          /\ Forall (fun g =>
                       In g (glob
                               [ mkEntry "HyperLog_a.log" (Return 3%Q) false;
                                 mkEntry "notes.txt" (Raise (OSError "PermissionError" "notes.txt")) false;
                                 mkEntry "HyperLog_c.log" (Return 2%Q) false ])
                       /\ no_newer_than f g) newer).
Proof.
  apply (cleanup_old_logs_keeps_the_newest sample_logs_dir
           [ mkEntry "HyperLog_a.log" (Return 3%Q) false;
             mkEntry "notes.txt" (Raise (OSError "PermissionError" "notes.txt")) false;
             mkEntry "HyperLog_c.log" (Return 2%Q) false ] 2).
  - simpl. repeat constructor; simpl; intuition discriminate.
  - vm_compute. reflexivity.
Defined.

Lemma remove_excess_nodup (olds d : list entry) :
  NoDup d -> NoDup (remove_excess olds d).
Proof.
  revert d. induction olds as [|o olds IH]; intros d Hnd; simpl.
  - exact Hnd.
  - unfold unlink. destruct (unlink_raises o).
    + now apply IH.
    + apply IH. now apply NoDup_filter.
Qed.

Lemma cleanup_old_logs_not_removing (d : list entry) (max_files : Z)
    (keys : list (Q * entry)) :
  keyed (glob d) = Return keys ->
  (Z.of_nat (List.length keys) <= max_files)%Z ->
  cleanup_old_logs (Some d) max_files = Return (Some d).
Proof.
  intros Hk Hlen. unfold cleanup_old_logs.
  destruct (Z.leb_spec max_files 0) as [Hle|Hpos]; [ reflexivity | ].
  rewrite Hk. simpl.
  assert (Hl : List.length (sorted_newest_first keys) = List.length keys).
  { unfold sorted_newest_first. rewrite length_map.
    apply Permutation_length, newest_first_perm. }
  rewrite Hl.
  destruct (Z.gtb_spec (Z.of_nat (List.length keys)) max_files) as [Hgt|Hngt];
    [ lia | reflexivity ].
Qed.

(** X18.  When [stat] and [unlink] work on every rotated log of a
    directory of distinct names, [cleanup_old_logs] with a positive
    [max_files] returns and leaves [max_files] rotated logs, or all of
    them when there were fewer. *)
Theorem cleanup_old_logs_leaves_max_files (d : list entry) (max_files : Z) :
  NoDup (map name d) ->
  (forall f, In f (glob d) ->
             (exists t, st_mtime f = Return t) /\ unlink_raises f = false) ->
  (0 < max_files)%Z ->
  exists d',
    cleanup_old_logs (Some d) max_files = Return (Some d')
    /\ List.length (glob d')
       = Nat.min (List.length (glob d)) (Z.to_nat max_files).
Proof.
  intros Hnd Hfine Hpos.
  destruct (keyed_returns (glob d)) as [keys Hk];
    [ intros f Hf; now apply Hfine | ].
  destruct (keyed_spec _ _ Hk) as [Hm _].
  assert (Hlk : List.length (glob d) = List.length keys)
    by (rewrite <- Hm; apply length_map).
  destruct (Z_lt_le_dec max_files (Z.of_nat (List.length keys))) as [Hlt|Hle].
  - destruct (cleanup_old_logs_removing d max_files Hpos keys Hk Hlt)
      as (d' & Hc & Hr).
    exists d'. split; [ exact Hc | ].
    destruct (newest_first_entries d keys Hk) as [Hperm _].
    set (n := Z.to_nat max_files) in *.
    set (skl := fold_right insert_newest [] keys) in *.
    assert (Hsplit : sorted_newest_first keys
                     = map snd (firstn n skl) ++ map snd (skipn n skl)).
    { unfold sorted_newest_first. fold skl.
      rewrite <- map_app, firstn_skipn. reflexivity. }
    assert (Hskip : skipn n (sorted_newest_first keys) = map snd (skipn n skl)).
    { unfold sorted_newest_first. fold skl. now rewrite skipn_map. }
    rewrite Hskip in Hr.
    destruct (remove_excess_spec (map snd (skipn n skl)) d)
      as (d1 & Hr1 & Hin & Hkeep).
    rewrite Hr in Hr1. subst d1.
    assert (Hnds : NoDup (map name (map snd (firstn n skl))
                          ++ map name (map snd (skipn n skl)))).
    { rewrite <- map_app, <- Hsplit.
      eapply Permutation_NoDup;
        [ symmetry; apply Permutation_map; exact Hperm | ].
      now apply glob_names_nodup. }
    assert (Hlen : List.length (map snd (firstn n skl)) = n).
    { rewrite length_map, length_firstn.
      assert (Hl : List.length skl = List.length keys)
        by (apply Permutation_length, newest_first_perm).
      rewrite Hl. unfold n. lia. }
    rewrite Hlk, Nat.min_r by (unfold n in *; lia).
    rewrite <- Hlen. apply Permutation_length.
    apply NoDup_Permutation.
    + apply NoDup_filter. rewrite <- Hr. apply remove_excess_nodup.
      eapply NoDup_map_inv; exact Hnd.
    + apply NoDup_app_remove_r in Hnds. eapply NoDup_map_inv; exact Hnds.
    + intros g. unfold glob. rewrite filter_In. split.
      * intros [Hg Hgn]. destruct (Hin g Hg) as [Hgd Hother].
        assert (Hgs : In g (sorted_newest_first keys)).
        { apply (Permutation_in _ (Permutation_sym Hperm)).
          apply filter_In. auto. }
        rewrite Hsplit in Hgs. apply in_app_or in Hgs.
        destruct Hgs as [Hgs|Hgs]; [ exact Hgs | ].
        exfalso. apply (Hother g Hgs); [ | reflexivity ].
        apply Hfine. apply filter_In. auto.
      * intros Hg.
        assert (Hgs : In g (glob d)).
        { apply (Permutation_in _ Hperm). rewrite Hsplit.
          apply in_or_app. auto. }
        apply filter_In in Hgs. destruct Hgs as [Hgd Hgn].
        split; [ | exact Hgn ]. apply Hkeep; [ exact Hgd | ].
        intros o Ho _ Heq.
        apply (nodup_app_disjoint _ _ (name o) Hnds); [ | now apply in_map ].
        rewrite Heq. now apply in_map.
  - exists d. split.
    + now apply (cleanup_old_logs_not_removing d max_files keys).
    + rewrite Hlk. lia.
Qed.

Lemma cleanup_old_logs_leaves_max_files_witness :
  exists d',
    cleanup_old_logs (Some sample_logs_dir) 1 = Return (Some d')
    /\ List.length (glob d')
       = Nat.min (List.length (glob sample_logs_dir)) (Z.to_nat 1).
Proof.
  apply (cleanup_old_logs_leaves_max_files sample_logs_dir 1).
  - simpl. repeat constructor; simpl; intuition discriminate.
  - intros f Hf. vm_compute in Hf.
    destruct Hf as [<-|[<-|[<-|[]]]];
      (split; [ eexists; reflexivity | reflexivity ]).
  - lia.
Defined.

Lemma keyed_raises_on (before after : list entry) (f : entry) (e : exn) :
  Forall (fun g => exists t, st_mtime g = Return t) before ->
  st_mtime f = Raise e ->
  keyed (before ++ f :: after) = Raise e.
Proof.
  induction before as [|x before IH]; intros Hb Hf; simpl.
  - now rewrite Hf.
  - inversion Hb as [|? ? [t Ht] Hb']; subst. rewrite Ht. simpl.
    now rewrite IH.
Qed.

Lemma keyed_raises_some (l : list entry) (f : entry) (e : exn) :
  In f l -> st_mtime f = Raise e -> exists e', keyed l = Raise e'.
Proof.
  induction l as [|x l IH]; intros Hin Hf; [ contradiction | ]. simpl.
  destruct (st_mtime x) as [t|e0] eqn:Et; simpl; [ | eauto ].
  destruct Hin as [<-|Hin]; [ congruence | ].
  destruct (IH Hin Hf) as [e' ->]. simpl. eauto.
Qed.

(** X19.  [cleanup_old_logs] raises exactly when [max_files] is positive
    and [stat] fails on a rotated log of the directory, and what it
    raises is what the first failing [stat] raised: the times are read
    before the files are counted, so this is so even where no file is in
    excess; a failing [unlink] never leaves the function. *)
Theorem cleanup_old_logs_raises_on_stat_only (logs_dir : option (list entry))
    (max_files : Z) (e : exn) :
  (cleanup_old_logs logs_dir max_files = Raise e
   <-> ((0 < max_files)%Z
        /\ exists d before f after,
             logs_dir = Some d
             /\ glob d = before ++ f :: after
             /\ Forall (fun g => exists t, st_mtime g = Return t) before
             /\ st_mtime f = Raise e))
  /\ ((exists e', cleanup_old_logs logs_dir max_files = Raise e')
      <-> ((0 < max_files)%Z
           /\ exists d f e',
                logs_dir = Some d /\ In f (glob d) /\ st_mtime f = Raise e')).
Proof.
  assert (Hraise : forall e0,
            cleanup_old_logs logs_dir max_files = Raise e0 ->
            (0 < max_files)%Z
            /\ exists d before f after,
                 logs_dir = Some d
                 /\ glob d = before ++ f :: after
                 /\ Forall (fun g => exists t, st_mtime g = Return t) before
                 /\ st_mtime f = Raise e0).
  { intros e0. unfold cleanup_old_logs. destruct logs_dir as [d|]; [ | discriminate ].
    destruct (Z.leb_spec max_files 0) as [Hle|Hpos]; [ discriminate | ].
    destruct (keyed (glob d)) as [keys|e1] eqn:Hk.
    - simpl.
      destruct (Z.of_nat (List.length (sorted_newest_first keys)) >? max_files)%Z;
        discriminate.
    - simpl. intros H. injection H as <-.
      destruct (keyed_raises _ _ Hk) as (before & f & after & Hg & Hb & Hf).
      split; [ exact Hpos | ]. exists d, before, f, after. auto. }
  split; split.
  - apply Hraise.
  - intros (Hpos & d & before & f & after & -> & Hg & Hb & Hf).
    unfold cleanup_old_logs.
    destruct (Z.leb_spec max_files 0) as [Hle|_]; [ lia | ].
    rewrite Hg, (keyed_raises_on before after f e Hb Hf). reflexivity.
  - intros [e' He']. destruct (Hraise e' He')
      as (Hpos & d & before & f & after & -> & Hg & Hb & Hf).
    split; [ exact Hpos | ]. exists d, f, e'. repeat split; auto.
    rewrite Hg. apply in_or_app. simpl. auto.
  - intros (Hpos & d & f & e' & -> & Hf & Hn). unfold cleanup_old_logs.
    destruct (Z.leb_spec max_files 0) as [Hle|_]; [ lia | ].
    destruct (keyed_raises_some _ f e' Hf Hn) as [e'' ->]. simpl. eauto.
Qed.

(** A rotated log whose [stat] fails stops the rotation, even with room
    for every file. *)
Example cleanup_old_logs_raises_without_excess :
  cleanup_old_logs
    (Some [ mkEntry "HyperLog_a.log" (Return 3%Q) false;
            mkEntry "HyperLog_b.log"
              (Raise (OSError "FileNotFoundError" "HyperLog_b.log")) false ]) 10
  = Raise (OSError "FileNotFoundError" "HyperLog_b.log").
Proof. reflexivity. Qed.

End LogRotation.

(* ------------------------------------------------------------------ *)
(** ** Progress display *)
(* ------------------------------------------------------------------ *)

(** X20.  For a run number between 0 and a positive total, as [run_loop]
    gives them, [progress_bar] draws a bar of 50 cells, the filled ones
    first; all of them are filled exactly at the last run. *)
Theorem progress_bar_has_fifty_cells (current total : Z) :
  (0 <= current <= total)%Z -> (0 < total)%Z ->
  exists filled,
    Display.progress_bar current total
    = Some (List.repeat true filled ++ List.repeat false (50 - filled))
    /\ (filled <= 50)%nat
    /\ (filled = 50%nat <-> current = total).
Proof.
  intros Hc Ht. unfold Display.progress_bar, Display.bar_length.
  destruct (Z.eqb_spec total 0) as [|_]; [ lia | ].
  assert (H0 : (0 <= 50 * current / total)%Z)
    by (apply Z.div_pos; lia).
  assert (H50 : (50 * current / total <= 50)%Z).
  { apply Z.div_le_upper_bound; lia. }
  exists (Z.to_nat (50 * current / total)).
  split; [ | split ].
  - do 3 f_equal. lia.
  - lia.
  - split.
    + intros Hf.
      assert (Hq : (50 * current / total = 50)%Z) by lia.
      destruct (Z.eq_dec current total) as [|Hne]; [ assumption | exfalso ].
      assert (Hlt : (50 * current / total < 50)%Z)
        by (apply Z.div_lt_upper_bound; lia).
      lia.
    + intros ->.
      rewrite Z.div_mul by lia. reflexivity.
Qed.

Lemma progress_bar_has_fifty_cells_witness :
  exists filled,
    Display.progress_bar 3 50
    = Some (List.repeat true filled ++ List.repeat false (50 - filled))
    /\ (filled <= 50)%nat
    /\ (filled = 50%nat <-> 3%Z = 50%Z).
Proof.
  apply (progress_bar_has_fifty_cells 3 50); lia.
Defined.
